(** * Shared control logic of the ONTAP storage drivers

    A shallow embedding of [storage_drivers/ontap/ontap_common.go]:
    configuration defaulting, SVM derivation, storage-pool discovery, the
    clone workflow, the load-sharing-mirror wait loop, the EMS heartbeat
    task and the internal volume-name derivation, followed by the
    properties established about them. *)

From Stdlib Require Import ZArith Ascii String List Lia Bool.
From stdpp Require Import base gmap strings list fin_maps pretty.

Local Open Scope string_scope.
Local Open Scope Z_scope.

(* ===================================================================== *)
(** * Go base library *)
(* ===================================================================== *)

Module Go.

(** [uint64] values are integers in [0, 2^64). *)
Definition MaxUint64 : Z := 18446744073709551615.

(** [int64] wrap-around, used for [time.Duration] arithmetic. *)
Definition wrap_int64 (n : Z) : Z :=
  (n + 9223372036854775808) mod 18446744073709551616 - 9223372036854775808.

(** [strings.Replace(s, old, new, -1)] for a non-empty [old]: the
    occurrences of [old] are found left to right without overlap.  [skip]
    counts the bytes of a matched occurrence still to be dropped. *)
Fixpoint replace_from (old new : string) (skip : nat) (s : string) : string :=
  match s with
  | EmptyString => EmptyString
  | String c t =>
      match skip with
      | S k => replace_from old new k t
      | O =>
          if String.prefix old s
          then new +:+ replace_from old new (String.length old - 1) t
          else String c (replace_from old new 0 t)
      end
  end.

Definition Replace (s old new : string) : string :=
  if String.eqb old new then s else replace_from old new 0 s.

(** Does byte [c] occur in [s]? *)
Fixpoint has_byte (c : ascii) (s : string) : bool :=
  match s with
  | EmptyString => false
  | String a t => Ascii.eqb a c || has_byte c t
  end.

(** [strconv.ParseBool]: the error is [None] on success. *)
Definition ParseBool (str : string) : bool * option string :=
  if String.eqb str "1" || String.eqb str "t" || String.eqb str "T"
     || String.eqb str "TRUE" || String.eqb str "true" || String.eqb str "True"
  then (true, None)
  else if String.eqb str "0" || String.eqb str "f" || String.eqb str "F"
     || String.eqb str "FALSE" || String.eqb str "false" || String.eqb str "False"
  then (false, None)
  else (false, Some ("strconv.ParseBool: parsing " +:+ str +:+ ": invalid syntax")).

Definition digit_value (c : ascii) : option Z :=
  let n := Z.of_N (N_of_ascii c) in
  if (48 <=? n) && (n <=? 57) then Some (n - 48) else None.

Fixpoint parse_digits (acc : Z) (s : string) : option Z :=
  match s with
  | EmptyString => Some acc
  | String c t =>
      match digit_value c with
      | Some d => parse_digits (10 * acc + d) t
      | None => None
      end
  end.

Inductive NumError : Type := ErrSyntax | ErrRange.

(** [strconv.ParseUint(s, 10, 64)]: on a syntax error the value is 0, on a
    range error it is the largest [uint64]. *)
Definition ParseUint (s : string) : Z * option NumError :=
  match s with
  | EmptyString => (0, Some ErrSyntax)
  | _ =>
      match parse_digits 0 s with
      | None => (0, Some ErrSyntax)
      | Some v => if v <=? MaxUint64 then (v, None) else (MaxUint64, Some ErrRange)
      end
  end.

(** [time.Duration] is a count of nanoseconds. *)
Definition Millisecond : Z := 1000000.
Definition Second : Z := 1000000000.

End Go.

(* ===================================================================== *)
(** * Collaborators outside this file *)
(* ===================================================================== *)

(** The fields of [drivers.CommonStorageDriverConfig] that the common code
    uses.  [common_StoragePrefix] is a [*string]: [None] is the nil
    pointer. *)
Record CommonStorageDriverConfig : Type := {
  common_StorageDriverName : string;
  common_DriverContext : string;
  common_StoragePrefix : option string
}.

(** The constants and helpers of the packages [azgo], [utils], [drivers]
    and [storage_attribute] that the common driver code calls but does not
    define.  They are left abstract. *)
Class Externals : Type := {
  (** [azgo.EOBJECTNOTFOUND], the remote "object not found" code. *)
  EOBJECTNOTFOUND : string;
  (** [utils.ConvertSizeToBytes]: the byte count as a decimal string, and an
      error message when the size does not parse. *)
  ConvertSizeToBytes : string -> string * option string;
  (** [drivers.DefaultVolumeSize]. *)
  DefaultVolumeSize : string;
  (** [drivers.GetDefaultStoragePrefix], by driver context. *)
  GetDefaultStoragePrefix : string -> string;
  (** [drivers.GetCommonInternalVolumeName]. *)
  GetCommonInternalVolumeName : CommonStorageDriverConfig -> string -> string;
  (** [drivers.OntapNASStorageDriverName]. *)
  OntapNASStorageDriverName : string;
  (** [sa.Media]. *)
  sa_Media : string;
  (** [sa.HDD], [sa.Hybrid], [sa.SSD]. *)
  sa_HDD : string;
  sa_Hybrid : string;
  sa_SSD : string
}.

(** A ZAPI result status as the driver observes it through the methods
    [IsPassed], [Code], [IsScopeError] and [Error] of [api.ZapiError]. *)
Record ZapiError : Type := {
  IsPassed : bool;
  Code : string;
  IsScopeError : bool;
  ZapiText : string
}.

(** A Go [error] coming back from the API layer: a transport failure, or a
    structured remote error. *)
Inductive GoError : Type :=
| TransportError (msg : string)
| ZapiFailure (z : ZapiError).

Definition GoError_text (e : GoError) : string :=
  match e with
  | TransportError msg => msg
  | ZapiFailure z => ZapiText z
  end.

(** The pair [(response, err)] a client call returns: [err != nil], or a
    response carrying its ZAPI status and its payload. *)
Inductive Reply (R : Type) : Type :=
| CallFailed (err : string)
| Response (zapi : ZapiError) (result : R).
Arguments CallFailed {R} err.
Arguments Response {R} zapi result.

(** Modelled from the spec: [api.GetError] is not among the sources; every
    call can fail with a transport error or with a structured remote error,
    and a response that passed carries no error. *)
Definition GetError {R} (r : Reply R) : option GoError :=
  match r with
  | CallFailed err => Some (TransportError err)
  | Response z _ => if IsPassed z then None else Some (ZapiFailure z)
  end.

(* ===================================================================== *)
(** * Errors returned by the driver *)
(* ===================================================================== *)

Inductive Error : Type :=
| ErrEnumeratingSVMs (cause : GoError)
| ErrCannotDeriveSVM
| ErrInvalidDefaultSize (cause : string)
| ErrInvalidSplitOnClone (cause : string)
| ErrSizeTooSmall (sizeBytes : Z)
| ErrCheckingVolume (cause : string)
| ErrVolumeExists (name : string)
| ErrCreatingSnapshot (cause : GoError)
| ErrCreatingClone (cause : GoError)
| ErrSnapshotNotFound (snapshot source : string)
| ErrMountingVolume (cause : GoError)
| ErrSplittingClone (cause : GoError)
| ErrAggregateNames (cause : string)
| ErrNoAssignedAggregates (svm : string)
| ErrAggregateNotAssigned (svm aggregate : string).

(** How a call ends: with a value, with an [error], or in a run-time panic. *)
Inductive Outcome (A : Type) : Type :=
| Ok (a : A)
| Failed (e : Error)
| Panic (what : string).
Arguments Ok {A} a.
Arguments Failed {A} e.
Arguments Panic {A} what.

Definition LSMirrorIdleTimeoutSecs : Z := 30.
Definition MinimumVolumeSizeBytes : Z := 20971520.
Definition HousekeepingStartupDelaySecs : Z := 10.
Definition MSecPerHour : Z := 1000 * 60 * 60.

(** The text of each error, as [fmt.Errorf] and [errors.New] build it. *)
Definition Error_text (e : Error) : string :=
  match e with
  | ErrEnumeratingSVMs c => "error enumerating SVMs: " +:+ GoError_text c
  | ErrCannotDeriveSVM => "cannot derive SVM to use; please specify SVM in config file"
  | ErrInvalidDefaultSize c => "invalid config value for default volume size: " +:+ c
  | ErrInvalidSplitOnClone c => "invalid boolean value for splitOnClone: " +:+ c
  | ErrSizeTooSmall n =>
      "requested volume size (" +:+ pretty n +:+ " bytes) is too small; "
      +:+ "the minimum volume size is " +:+ pretty MinimumVolumeSizeBytes +:+ " bytes"
  | ErrCheckingVolume c => "error checking for existing volume: " +:+ c
  | ErrVolumeExists name => "volume " +:+ name +:+ " already exists"
  | ErrCreatingSnapshot c => "error creating snapshot: " +:+ GoError_text c
  | ErrCreatingClone c => "error creating clone: " +:+ GoError_text c
  | ErrSnapshotNotFound snapshot source =>
      "snapshot " +:+ snapshot +:+ " does not exist in volume " +:+ source
  | ErrMountingVolume c => "error mounting volume to junction: " +:+ GoError_text c
  | ErrSplittingClone c => "error splitting clone: " +:+ GoError_text c
  | ErrAggregateNames c => c
  | ErrNoAssignedAggregates svm => "SVM " +:+ svm +:+ " has no assigned aggregates"
  | ErrAggregateNotAssigned svm aggregate =>
      "the assigned aggregates for SVM " +:+ svm
      +:+ " do not include the configured aggregate " +:+ aggregate
  end.

(* ===================================================================== *)
(** * Driver configuration *)
(* ===================================================================== *)

(** The fields of [drivers.OntapStorageDriverConfig] (with those of the
    embedded common configuration) that the common code reads or writes.
    [StoragePrefix] is a [*string]: [None] is the nil pointer. *)
Record OntapStorageDriverConfig : Type := {
  StorageDriverName : string;
  DriverContext : string;
  StoragePrefix : option string;
  ManagementLIF : string;
  SVM : string;
  Username : string;
  Password : string;
  Aggregate : string;
  UsageHeartbeat : string;
  Size : string;
  SpaceReserve : string;
  SnapshotPolicy : string;
  UnixPermissions : string;
  SnapshotDir : string;
  ExportPolicy : string;
  SecurityStyle : string;
  NfsMountOptions : string;
  SplitOnClone : string;
  FileSystemType : string;
  Encryption : string
}.

Definition DefaultSpaceReserve := "none".
Definition DefaultSnapshotPolicy := "none".
Definition DefaultUnixPermissions := "---rwxrwxrwx".
Definition DefaultSnapshotDir := "false".
Definition DefaultExportPolicy := "default".
Definition DefaultSecurityStyle := "unix".
Definition DefaultNfsMountOptions := "-o nfsvers=3".
Definition DefaultSplitOnClone := "false".
Definition DefaultFileSystemType := "ext4".
Definition DefaultEncryption := "false".

(** [if field == "" { field = dflt }]. *)
Definition or_default (field dflt : string) : string :=
  if String.eqb field "" then dflt else field.

Section Config.
Context `{Externals}.

(** The assignments of [PopulateConfigurationDefaults] from the default
    size down to the NFS mount options; nothing in them can fail once the
    configured size has been accepted. *)
Definition populate_head (config : OntapStorageDriverConfig) : OntapStorageDriverConfig :=
  {| StorageDriverName := StorageDriverName config;
     DriverContext := DriverContext config;
     StoragePrefix :=
       match StoragePrefix config with
       | None => Some (GetDefaultStoragePrefix (DriverContext config))
       | Some p => Some p
       end;
     ManagementLIF := ManagementLIF config;
     SVM := SVM config;
     Username := Username config;
     Password := Password config;
     Aggregate := Aggregate config;
     UsageHeartbeat := UsageHeartbeat config;
     Size := or_default (Size config) DefaultVolumeSize;
     SpaceReserve := or_default (SpaceReserve config) DefaultSpaceReserve;
     SnapshotPolicy := or_default (SnapshotPolicy config) DefaultSnapshotPolicy;
     UnixPermissions := or_default (UnixPermissions config) DefaultUnixPermissions;
     SnapshotDir := or_default (SnapshotDir config) DefaultSnapshotDir;
     ExportPolicy := or_default (ExportPolicy config) DefaultExportPolicy;
     SecurityStyle := or_default (SecurityStyle config) DefaultSecurityStyle;
     NfsMountOptions := or_default (NfsMountOptions config) DefaultNfsMountOptions;
     SplitOnClone := SplitOnClone config;
     FileSystemType := FileSystemType config;
     Encryption := Encryption config |}.

(** The remaining assignments, from split-on-clone on. *)
Definition populate_tail (config : OntapStorageDriverConfig) : OntapStorageDriverConfig :=
  {| StorageDriverName := StorageDriverName config;
     DriverContext := DriverContext config;
     StoragePrefix := StoragePrefix config;
     ManagementLIF := ManagementLIF config;
     SVM := SVM config;
     Username := Username config;
     Password := Password config;
     Aggregate := Aggregate config;
     UsageHeartbeat := UsageHeartbeat config;
     Size := Size config;
     SpaceReserve := SpaceReserve config;
     SnapshotPolicy := SnapshotPolicy config;
     UnixPermissions := UnixPermissions config;
     SnapshotDir := SnapshotDir config;
     ExportPolicy := ExportPolicy config;
     SecurityStyle := SecurityStyle config;
     NfsMountOptions := NfsMountOptions config;
     SplitOnClone := or_default (SplitOnClone config) DefaultSplitOnClone;
     FileSystemType := or_default (FileSystemType config) DefaultFileSystemType;
     Encryption := or_default (Encryption config) DefaultEncryption |}.

(** [PopulateConfigurationDefaults] mutates the configuration it is given
    and returns an [error]; the result is the configuration as the call
    leaves it, and the error if there is one. *)
Definition PopulateConfigurationDefaults (config : OntapStorageDriverConfig)
  : OntapStorageDriverConfig * option Error :=
  let sizeErr :=
    if String.eqb (Size config) "" then None
    else snd (ConvertSizeToBytes (Size config)) in
  match sizeErr with
  | Some err => (config, Some (ErrInvalidDefaultSize err))
  | None =>
      let config := populate_head config in
      let splitErr :=
        if String.eqb (SplitOnClone config) "" then None
        else snd (Go.ParseBool (SplitOnClone config)) in
      match splitErr with
      | Some err => (config, Some (ErrInvalidSplitOnClone err))
      | None => (populate_tail config, None)
      end
  end.

(** [GetVolumeSize]: [sizeBytes] is a [uint64]. *)
Definition GetVolumeSize (sizeBytes : Z) (config : OntapStorageDriverConfig)
  : Z * option Error :=
  let sizeBytes :=
    if sizeBytes =? 0 then
      let defaultSize := fst (ConvertSizeToBytes (Size config)) in
      fst (Go.ParseUint defaultSize)
    else sizeBytes in
  if sizeBytes <? MinimumVolumeSizeBytes
  then (0, Some (ErrSizeTooSmall sizeBytes))
  else (sizeBytes, None).

(** [getInternalVolumeNameCommon]: the process-wide flag
    [trident.UsingPassthroughStore] is passed in; dereferencing a nil
    storage prefix panics. *)
Definition getInternalVolumeNameCommon
    (UsingPassthroughStore : bool) (commonConfig : CommonStorageDriverConfig)
    (name : string)
  : Outcome string :=
  if UsingPassthroughStore then
    match common_StoragePrefix commonConfig with
    | Some prefix => Ok (prefix +:+ name)
    | None => Panic "invalid memory address or nil pointer dereference"
    end
  else
    let internal := GetCommonInternalVolumeName commonConfig name in
    let internal := Go.Replace internal "-" "_" in
    let internal := Go.Replace internal "." "_" in
    let internal := Go.Replace internal "__" "_" in
    Ok internal.

End Config.

(* ===================================================================== *)
(** * API client construction and SVM derivation *)
(* ===================================================================== *)

Record ClientConfig : Type := {
  cc_ManagementLIF : string;
  cc_SVM : string;
  cc_Username : string;
  cc_Password : string
}.

(** An [api.Client] is determined by the configuration it was built from. *)
Record Client : Type := NewClient { client_config : ClientConfig }.

(** The result part of an iterator response: the record count and the
    attribute list are separate fields of the reply. *)
Record IterResult (A : Type) : Type := {
  NumRecords : Z;
  AttributesList : list A
}.
Arguments NumRecords {A} _.
Arguments AttributesList {A} _.

Record VserverInfoType : Type := { VserverName : string }.

Definition client_for (config : OntapStorageDriverConfig) : Client :=
  NewClient {| cc_ManagementLIF := ManagementLIF config;
               cc_SVM := SVM config;
               cc_Username := Username config;
               cc_Password := Password config |}.

(** [config.SVM = svm]. *)
Definition set_SVM (svm : string) (config : OntapStorageDriverConfig)
  : OntapStorageDriverConfig :=
  {| StorageDriverName := StorageDriverName config;
     DriverContext := DriverContext config;
     StoragePrefix := StoragePrefix config;
     ManagementLIF := ManagementLIF config;
     SVM := svm;
     Username := Username config;
     Password := Password config;
     Aggregate := Aggregate config;
     UsageHeartbeat := UsageHeartbeat config;
     Size := Size config;
     SpaceReserve := SpaceReserve config;
     SnapshotPolicy := SnapshotPolicy config;
     UnixPermissions := UnixPermissions config;
     SnapshotDir := SnapshotDir config;
     ExportPolicy := ExportPolicy config;
     SecurityStyle := SecurityStyle config;
     NfsMountOptions := NfsMountOptions config;
     SplitOnClone := SplitOnClone config;
     FileSystemType := FileSystemType config;
     Encryption := Encryption config |}.

(** [InitializeOntapAPI]: [vservers] is what [VserverGetIterRequest]
    answers when it is called.  The configuration is returned as the call
    leaves it. *)
Definition InitializeOntapAPI
    (config : OntapStorageDriverConfig) (vservers : Reply (IterResult VserverInfoType))
  : OntapStorageDriverConfig * Outcome Client :=
  let client := client_for config in
  if negb (String.eqb (SVM config) "") then (config, Ok client)
  else
    match GetError vservers, vservers with
    | Some err, _ => (config, Failed (ErrEnumeratingSVMs err))
    | None, CallFailed _ => (config, Panic "nil response")
    | None, Response _ result =>
        if negb (NumRecords result =? 1) then (config, Failed ErrCannotDeriveSVM)
        else
          match AttributesList result with
          | [] => (config, Panic "index out of range")
          | vserver :: _ =>
              let config := set_SVM (VserverName vserver) config in
              (config, Ok (client_for config))
          end
    end.

(* ===================================================================== *)
(** * EMS heartbeat *)
(* ===================================================================== *)

(** The [float64] arithmetic of [NewOntapTelemetry], left abstract. *)
Class Float64 : Type := {
  float64 : Type;
  (** [strconv.ParseFloat(s, 64)]: value, and the error if any. *)
  ParseFloat : string -> float64 * option string;
  (** The literal [24.0]. *)
  float_24 : float64;
  (** [time.Duration(MSecPerHour * h)]: the [int64] of the conversion. *)
  hours_to_msec : float64 -> Z
}.

(** The part of [Telemetry] that the heartbeat task uses.  [ticker] is a
    [*time.Ticker], [None] being nil; a ticker is known by its period. *)
Record Telemetry : Type := {
  Plugin : string;
  tel_SVM : string;
  tel_StoragePrefix : string;
  ticker : option Z
}.

Section Heartbeat.
Context `{Float64}.

Definition heartbeatIntervalInHours (usageHeartbeat : string) : float64 :=
  if String.eqb usageHeartbeat "" then float_24
  else
    match ParseFloat usageHeartbeat with
    | (_, Some _) => float_24
    | (f, None) => f
    end.

Definition durationInHours (usageHeartbeat : string) : Z :=
  Go.wrap_int64
    (Go.Millisecond * hours_to_msec (heartbeatIntervalInHours usageHeartbeat)).

(** [NewOntapTelemetry], from the driver's name and configuration. *)
Definition NewOntapTelemetry (driverName : string) (config : OntapStorageDriverConfig)
  : Outcome Telemetry :=
  match StoragePrefix config with
  | None => Panic "invalid memory address or nil pointer dereference"
  | Some prefix =>
      let d := durationInHours (UsageHeartbeat config) in
      Ok {| Plugin := driverName;
            tel_SVM := SVM config;
            tel_StoragePrefix := prefix;
            ticker := if 0 <? d then Some d else None |}
  end.

End Heartbeat.

(** What the [select] of the heartbeat task receives. *)
Inductive Event : Type := Tick | Done.

(** What the heartbeat task does. *)
Inductive Action : Type := Sleep (secs : Z) | EMSHeartbeat.

(** How far the task got on the events delivered so far. *)
Inductive TaskEnd : Type :=
| Returned
| Waiting
| Crashed (what : string).

(** The [for { select { ... } }] of [Start].  Entering the [select]
    evaluates [t.ticker.C], which dereferences [t.ticker]. *)
Fixpoint heartbeat_loop (t : Telemetry) (events : list Event) : list Action * TaskEnd :=
  match ticker t with
  | None => ([], Crashed "invalid memory address or nil pointer dereference")
  | Some _ =>
      match events with
      | [] => ([], Waiting)
      | Tick :: rest =>
          let '(actions, e) := heartbeat_loop t rest in (EMSHeartbeat :: actions, e)
      | Done :: _ => ([], Returned)
      end
  end.

(** The goroutine that [Start] launches. *)
Definition Start (t : Telemetry) (events : list Event) : list Action * TaskEnd :=
  let '(actions, e) := heartbeat_loop t events in
  (Sleep HousekeepingStartupDelaySecs :: EMSHeartbeat :: actions, e).

(** [Stop]: the ticker is stopped if there is one, and [done] is closed.
    The state is whether the ticker runs and whether [done] is closed. *)
Record Channels : Type := { ticker_running : bool; done_closed : bool }.

Definition Stop (t : Telemetry) (c : Channels) : Outcome Channels :=
  let running := match ticker t with Some _ => false | None => ticker_running c end in
  if done_closed c then Panic "close of closed channel"
  else Ok {| ticker_running := running; done_closed := true |}.

(* ===================================================================== *)
(** * Clone workflow *)
(* ===================================================================== *)

(** The remote calls of the clone workflow, in the order they are issued. *)
Inductive Call : Type :=
| CallVolumeExists (name : string)
| CallSnapshotCreate (snapshot source : string)
| CallVolumeCloneCreate (name source snapshot : string)
| CallVolumeMount (name junction : string)
| CallVolumeCloneSplitStart (name : string).

(** The calls that change the remote system. *)
Definition is_mutation (c : Call) : bool :=
  match c with
  | CallVolumeExists _ => false
  | _ => true
  end.

(** The answers of the management API to the calls of the workflow. *)
Record CloneAPI : Type := {
  VolumeExists : string -> bool * option string;
  SnapshotCreate : string -> string -> Reply unit;
  VolumeCloneCreate : string -> string -> string -> Reply unit;
  VolumeMount : string -> string -> Reply unit;
  VolumeCloneSplitStart : string -> Reply unit
}.

(** Computations that issue remote calls and may stop with an error: the
    calls issued so far, and the outcome. *)
Definition Remote (A : Type) : Type := list Call * Outcome A.

Definition ret {A} (a : A) : Remote A := ([], Ok a).

Definition raise {A} (e : Error) : Remote A := ([], Failed e).

Definition remote {A} (c : Call) (answer : A) : Remote A := ([c], Ok answer).

Definition bind {A B} (m : Remote A) (k : A -> Remote B) : Remote B :=
  match m with
  | (calls, Ok a) => let '(calls', r) := k a in ((calls ++ calls')%list, r)
  | (calls, Failed e) => (calls, Failed e)
  | (calls, Panic what) => (calls, Panic what)
  end.

Notation "'perform' x <- m ; k" := (bind m (fun x => k))
  (at level 10, x name, m at level 100, k at level 200).
Notation "'andthen' m ; k" := (bind m (fun _ => k))
  (at level 10, m at level 100, k at level 200).

Section Clone.
Context `{Externals}.

(** [CreateOntapClone]; [timestamp] is
    [time.Now().UTC().Format("20060102T150405Z")]. *)
Definition CreateOntapClone
    (name source snapshot : string) (split : bool)
    (config : OntapStorageDriverConfig) (client : CloneAPI) (timestamp : string)
  : Remote unit :=
  perform existing <- remote (CallVolumeExists name) (VolumeExists client name) ;
  match existing with
  | (_, Some err) => raise (ErrCheckingVolume err)
  | (true, None) => raise (ErrVolumeExists name)
  | (false, None) =>
      perform snapshot <-
        (if String.eqb snapshot "" then
           let snapshot := timestamp in
           perform snapResponse <- remote (CallSnapshotCreate snapshot source)
                                       (SnapshotCreate client snapshot source) ;
           match GetError snapResponse with
           | Some err => raise (ErrCreatingSnapshot err)
           | None => ret snapshot
           end
         else ret snapshot) ;
      perform cloneResponse <- remote (CallVolumeCloneCreate name source snapshot)
                                   (VolumeCloneCreate client name source snapshot) ;
      match cloneResponse with
      | CallFailed err => raise (ErrCreatingClone (TransportError err))
      | Response zerr _ =>
          if negb (IsPassed zerr) then
            if String.eqb (Code zerr) EOBJECTNOTFOUND
            then raise (ErrSnapshotNotFound snapshot source)
            else raise (ErrCreatingClone (ZapiFailure zerr))
          else
            andthen
            (if String.eqb (StorageDriverName config) OntapNASStorageDriverName then
               perform mountResponse <- remote (CallVolumeMount name ("/" +:+ name))
                                            (VolumeMount client name ("/" +:+ name)) ;
               match GetError mountResponse with
               | Some err => raise (ErrMountingVolume err)
               | None => ret tt
               end
             else ret tt) ;
            (if split then
               perform splitResponse <- remote (CallVolumeCloneSplitStart name)
                                            (VolumeCloneSplitStart client name) ;
               match GetError splitResponse with
               | Some err => raise (ErrSplittingClone err)
               | None => ret tt
               end
             else ret tt)
      end
  end.

End Clone.

(* ===================================================================== *)
(** * Load-sharing mirrors *)
(* ===================================================================== *)

Record SnapmirrorInfoType : Type := {
  SourceLocation : string;
  RelationshipStatusPtr : option string
}.

(** [api.GetError(response, err)] where [err] is the error of [call], another
    call than the one [response] came from. *)
Definition GetError_with {R S} (response : Reply R) (call : Reply S) : option GoError :=
  match call with
  | CallFailed err => Some (TransportError err)
  | Response _ _ => GetError response
  end.

(** The environment of one run of [UpdateLoadSharingMirrors]: the answers
    of the API (the listing of the mirrors by the number of the call, 0
    being the one before the loop), the clock when the timeout is set, and
    for each pass of the loop the time it takes beyond the second slept. *)
Record MirrorEnv : Type := {
  VolumeGetRootName : Reply string;
  SnapmirrorGetLoadSharingMirrors : nat -> Reply (IterResult SnapmirrorInfoType);
  SnapmirrorUpdateLoadSharingMirrors : Reply unit;
  clock_start : Z;
  extra_nanos : nat -> N
}.

(** Why [UpdateLoadSharingMirrors] returned. *)
Inductive Exit : Type :=
| RootVolumeError
| MirrorListError
| NoMirrors
| UpdateError
| PollError
| MirrorsGone
| MirrorsIdle
| GaveUp.

(** The run of [UpdateLoadSharingMirrors]: it returned after so many passes
    of the polling loop, or it panicked on an index, or the fuel of the
    model ran out. *)
Inductive WaitResult : Type :=
| Finished (polls : nat) (why : Exit)
| IndexOutOfRange
| OutOfFuel.

Definition mirror_idle (mirror : SnapmirrorInfoType) : bool :=
  match RelationshipStatusPtr mirror with
  | None => false
  | Some status => String.eqb status "idle"
  end.

(** The result of [result.AttributesList()], or nothing for a failed call
    (on which the code never looks at the result). *)
Definition payload {R} (r : Reply R) : option R :=
  match r with
  | CallFailed _ => None
  | Response _ result => Some result
  end.

(** The polling loop.  [made] passes were made, the clock stood at [now]
    when the pass began. *)
Fixpoint wait_idle (env : MirrorEnv) (fuel made : nat) (now timeout : Z) : WaitResult :=
  match fuel with
  | O => OutOfFuel
  | S fuel =>
      let pass := S made in
      let now := now + 1 * Go.Second + Z.of_N (extra_nanos env pass) in
      let mirrorGetResponse := SnapmirrorGetLoadSharingMirrors env pass in
      match GetError_with (VolumeGetRootName env) mirrorGetResponse,
            payload mirrorGetResponse with
      | Some _, _ | None, None => Finished pass PollError
      | None, Some result =>
          if NumRecords result =? 0 then Finished pass MirrorsGone
          else if forallb mirror_idle (AttributesList result) then Finished pass MirrorsIdle
          else if timeout <? now then Finished pass GaveUp
          else wait_idle env fuel pass now timeout
      end
  end.

Definition UpdateLoadSharingMirrors (env : MirrorEnv) (fuel : nat) : WaitResult :=
  match GetError (VolumeGetRootName env) with
  | Some _ => Finished 0 RootVolumeError
  | None =>
      let mirrorGetResponse := SnapmirrorGetLoadSharingMirrors env 0%nat in
      match GetError_with (VolumeGetRootName env) mirrorGetResponse,
            payload mirrorGetResponse with
      | Some _, _ | None, None => Finished 0 MirrorListError
      | None, Some result =>
          if NumRecords result =? 0 then Finished 0 NoMirrors
          else
            match AttributesList result with
            | [] => IndexOutOfRange
            | _ :: _ =>
                match GetError_with (VolumeGetRootName env)
                        (SnapmirrorUpdateLoadSharingMirrors env) with
                | Some _ => Finished 0 UpdateError
                | None =>
                    let timeout :=
                      clock_start env + LSMirrorIdleTimeoutSecs * Go.Second in
                    wait_idle env fuel 0%nat (clock_start env) timeout
                end
            end
      end
  end.

(** The clock at the end of pass [n] of the polling loop. *)
Fixpoint clock_after (env : MirrorEnv) (n : nat) : Z :=
  match n with
  | O => clock_start env
  | S k => clock_after env k + 1 * Go.Second + Z.of_N (extra_nanos env (S k))
  end.

(** The time after which the loop gives up. *)
Definition deadline (env : MirrorEnv) : Z :=
  clock_start env + LSMirrorIdleTimeoutSecs * Go.Second.

(** A listing that came back and reports mirrors, not all of them idle. *)
Definition busy (answer : Reply (IterResult SnapmirrorInfoType)) : bool :=
  match answer with
  | CallFailed _ => false
  | Response _ result =>
      negb (NumRecords result =? 0) && negb (forallb mirror_idle (AttributesList result))
  end.

(** A listing that came back and reports mirrors, all of them idle. *)
Definition all_idle (answer : Reply (IterResult SnapmirrorInfoType)) : bool :=
  match answer with
  | CallFailed _ => false
  | Response _ result =>
      negb (NumRecords result =? 0) && forallb mirror_idle (AttributesList result)
  end.

(** A listing that came back and reports no mirror. *)
Definition no_mirrors (answer : Reply (IterResult SnapmirrorInfoType)) : bool :=
  match answer with
  | CallFailed _ => false
  | Response _ result => NumRecords result =? 0
  end.

(** A listing that came back with at least one mirror, counted and listed. *)
Definition some_mirrors (answer : Reply (IterResult SnapmirrorInfoType)) : bool :=
  match answer with
  | CallFailed _ => false
  | Response _ result =>
      negb (NumRecords result =? 0)
      && match AttributesList result with [] => false | _ :: _ => true end
  end.

(** A listing whose record count and list agree on there being a mirror. *)
Definition well_formed (answer : Reply (IterResult SnapmirrorInfoType)) : bool :=
  match answer with
  | CallFailed _ => true
  | Response _ result =>
      (NumRecords result =? 0)
      || match AttributesList result with [] => false | _ :: _ => true end
  end.

(** The update of the mirrors was accepted by the call. *)
Definition update_sent (env : MirrorEnv) : bool :=
  match SnapmirrorUpdateLoadSharingMirrors env with
  | CallFailed _ => false
  | Response _ _ => true
  end.

(* ===================================================================== *)
(** * Storage-pool discovery *)
(* ===================================================================== *)

(** Capability offers of the package [storage_attribute]. *)
Inductive Offer : Type :=
| NewStringOffer (offer : string)
| NewBoolOffer (offer : bool)
| NewIntOffer (lo hi : Z).

(** Modelled from the spec: [storage.Pool] is not among the sources; a pool
    is keyed by its name and holds a mapping from attribute name to
    capability offer. *)
Record Pool : Type := {
  pool_Name : string;
  pool_Attributes : gmap string Offer
}.

(** Modelled from the spec: [storage.NewStoragePool] is not among the
    sources; a pool is created during discovery under the name of its
    aggregate, and its attributes are merged in afterwards. *)
Definition NewStoragePool (name : string) : Pool :=
  {| pool_Name := name; pool_Attributes := ∅ |}.

(** Modelled from the spec: [storage.Backend] is not among the sources; the
    backend owns its pools, keyed by name. *)
Record Backend : Type := { Storage : gmap string Pool }.

(** Modelled from the spec: [Backend.AddStoragePool] is not among the
    sources; the pool is registered under its name. *)
Definition AddStoragePool (pool : Pool) (backend : Backend) : Backend :=
  {| Storage := <[pool_Name pool := pool]> (Storage backend) |}.

Inductive Level : Type := LevelDebug | LevelInfo | LevelWarn | LevelError.

(** A log entry: its level and its message. *)
Definition Entry : Type := Level * string.

(** An aggregate as the two attribute listings report it: its name and its
    type. *)
Record AggrInfo : Type := {
  AggregateName : string;
  AggregateType : string
}.

(** The answers of the management API during discovery. *)
Record DiscoveryAPI : Type := {
  GetVserverAggregateNames : list string * option string;
  SupportsVServerShowAggr : bool;
  VserverShowAggrGetIterRequest : Reply (IterResult AggrInfo);
  AggrGetIterRequest : Reply (IterResult AggrInfo)
}.

(** [for attrName, attr := range from { into[attrName] = attr }]. *)
Definition assign_all (from into : gmap string Offer) : gmap string Offer :=
  map_fold (fun attrName attr acc => <[attrName := attr]> acc) into from.

Definition with_attributes (attrs : gmap string Offer) (pool : Pool) : Pool :=
  {| pool_Name := pool_Name pool;
     pool_Attributes := assign_all attrs (pool_Attributes pool) |}.

Section Discovery.
Context `{Externals}.

Definition ontapHDD := "hdd".
Definition ontapHybrid := "hybrid".
Definition ontapSSD := "ssd".

Definition ontapPerformanceClasses : gmap string (gmap string Offer) :=
  <[ontapHDD := {[sa_Media := NewStringOffer sa_HDD]}]>
    (<[ontapHybrid := {[sa_Media := NewStringOffer sa_Hybrid]}]>
       (<[ontapSSD := {[sa_Media := NewStringOffer sa_SSD]}]> ∅)).

(** One pass of the loop over the listed aggregates, shared by the two
    listings: the pools and the log so far, and the aggregate at hand. *)
Definition read_aggregate (acc : gmap string Pool * list Entry) (aggr : AggrInfo)
  : gmap string Pool * list Entry :=
  let '(storagePools, log) := acc in
  match storagePools !! AggregateName aggr with
  | None => (storagePools, log)
  | Some pool =>
      match ontapPerformanceClasses !! AggregateType aggr with
      | None =>
          (storagePools,
           (log ++ [(LevelWarn, "Aggregate has unknown media type.")])%list)
      | Some storageAttrs =>
          (<[AggregateName aggr := with_attributes storageAttrs pool]> storagePools,
           (log ++ [(LevelDebug, "Read aggregate attributes.")])%list)
      end
  end.

(** The body both listings share, on the answer of the listing call: the
    pools as the call leaves them, what was logged, and the error. *)
Definition read_aggregates
    (answer : Reply (IterResult AggrInfo)) (storagePools : gmap string Pool)
  : gmap string Pool * list Entry * option GoError :=
  match answer with
  | CallFailed err => (storagePools, [], Some (TransportError err))
  | Response zerr result =>
      if negb (IsPassed zerr) then (storagePools, [], Some (ZapiFailure zerr))
      else (foldl read_aggregate (storagePools, []) (AttributesList result), None)
  end.

Definition getVserverAggregateAttributes (client : DiscoveryAPI)
  := read_aggregates (VserverShowAggrGetIterRequest client).

Definition getClusterAggregateAttributes (client : DiscoveryAPI)
  := read_aggregates (AggrGetIterRequest client).

(** [storagePools[aggrName] = storage.NewStoragePool(backend, aggrName)]
    for each assigned aggregate. *)
Definition define_pools (vserverAggrs : list string) : gmap string Pool :=
  foldl (fun pools aggrName => <[aggrName := NewStoragePool aggrName]> pools)
        ∅ vserverAggrs.

(** The last loop: the common attributes go into each pool, and the pool
    is registered with the backend. *)
Definition register_pools
    (poolAttributes : gmap string Offer) (storagePools : gmap string Pool)
    (backend : Backend) : Backend :=
  map_fold
    (fun _ pool backend => AddStoragePool (with_attributes poolAttributes pool) backend)
    backend storagePools.

(** What is logged about the error of the attribute listing. *)
Definition report_aggrErr (aggrErr : option GoError) : list Entry :=
  match aggrErr with
  | Some (ZapiFailure zerr) =>
      if IsScopeError zerr
      then [(LevelWarn, "User has insufficient privileges to obtain aggregate info.")]
      else [(LevelError, "Could not obtain aggregate info")]
  | Some (TransportError _) => [(LevelError, "Could not obtain aggregate info")]
  | None => []
  end.

(** [getStorageBackendSpecsCommon]: the backend as the call leaves it, what
    was logged, and the error returned.  The answers of the API are values
    here, so that the deferred [recover] has no panic to turn into an
    error. *)
Definition getStorageBackendSpecsCommon
    (client : DiscoveryAPI) (config : OntapStorageDriverConfig)
    (backend : Backend) (poolAttributes : gmap string Offer)
  : Backend * list Entry * option Error :=
  match GetVserverAggregateNames client with
  | (_, Some err) => (backend, [], Some (ErrAggregateNames err))
  | (vserverAggrs, None) =>
      if (length vserverAggrs =? 0)%nat
      then (backend, [], Some (ErrNoAssignedAggregates (SVM config)))
      else
        let log := [(LevelDebug, "Read storage pools assigned to SVM.")] in
        let storagePools := define_pools vserverAggrs in
        let restricted :=
          if negb (String.eqb (Aggregate config) "") then
            match storagePools !! Aggregate config with
            | None => None
            | Some _ =>
                Some (<[Aggregate config := NewStoragePool (Aggregate config)]> ∅,
                      (log ++ [(LevelDebug,
                         "Provisioning will be restricted to the aggregate set in the backend config.")])%list)
            end
          else Some (storagePools, log) in
        match restricted with
        | None =>
            (backend, log,
             Some (ErrAggregateNotAssigned (SVM config) (Aggregate config)))
        | Some (storagePools, log) =>
            let '(storagePools, readLog, aggrErr) :=
              if SupportsVServerShowAggr client
              then getVserverAggregateAttributes client storagePools
              else getClusterAggregateAttributes client storagePools in
            let log := (log ++ readLog ++ report_aggrErr aggrErr)%list in
            (register_pools poolAttributes storagePools backend, log, None)
        end
  end.

End Discovery.

(** The offer a pool of the backend makes for an attribute, if any. *)
Definition attribute_of (backend : Backend) (poolName attrName : string) : option Offer :=
  match Storage backend !! poolName with
  | Some pool => pool_Attributes pool !! attrName
  | None => None
  end.

(** The attribute listing that the feature-support query selects. *)
Definition aggregate_listing (client : DiscoveryAPI) : Reply (IterResult AggrInfo) :=
  if SupportsVServerShowAggr client
  then VserverShowAggrGetIterRequest client
  else AggrGetIterRequest client.

(** The aggregates that are pooled: all those assigned, or the configured
    one alone. *)
Definition pooled (config : OntapStorageDriverConfig) (vserverAggrs : list string)
  : list string :=
  if String.eqb (Aggregate config) "" then vserverAggrs else [Aggregate config].

(** Every pool is filed under its own name. *)
Definition names_agree (pools : gmap string Pool) : Prop :=
  forall (name : string) (pool : Pool), pools !! name = Some pool -> pool_Name pool = name.

(** [zerr, ok := aggrErr.(api.ZapiError); ok && zerr.IsScopeError()]. *)
Definition is_scope_error (aggrErr : GoError) : bool :=
  match aggrErr with
  | ZapiFailure zerr => IsScopeError zerr
  | TransportError _ => false
  end.

(* ===================================================================== *)
(** * Sample collaborators *)
(* ===================================================================== *)

(** Concrete collaborators on which the properties below are exercised. *)
Module Sample.

(** Sizes are plain byte counts, or the default "1G". *)
Definition convert (size : string) : string * option string :=
  if String.eqb size "1G" then ("1073741824", None)
  else
    match size, Go.parse_digits 0 size with
    | String _ _, Some _ => (size, None)
    | _, _ => ("", Some ("invalid size value: " +:+ size))
    end.

Definition externals : Externals :=
  {| EOBJECTNOTFOUND := "15661";
     ConvertSizeToBytes := convert;
     DefaultVolumeSize := "1G";
     GetDefaultStoragePrefix := fun context =>
       if String.eqb context "docker" then "netappdvp_" else "trident_";
     GetCommonInternalVolumeName := fun commonConfig name =>
       match common_StoragePrefix commonConfig with
       | None => "trident-" +:+ name
       | Some "" => name
       | Some p => p +:+ "-" +:+ name
       end;
     OntapNASStorageDriverName := "ontap-nas";
     sa_Media := "media";
     sa_HDD := "hdd";
     sa_Hybrid := "hybrid";
     sa_SSD := "ssd" |}.

(** Whole numbers of hours, with an optional minus sign. *)
Definition whole_hours : Float64 :=
  {| float64 := Z;
     ParseFloat := fun s =>
       match s with
       | String "-" (String c t) =>
           match Go.parse_digits 0 (String c t) with
           | Some v => (- v, None)
           | None => (0, Some "invalid syntax")
           end
       | String c t =>
           match Go.parse_digits 0 (String c t) with
           | Some v => (v, None)
           | None => (0, Some "invalid syntax")
           end
       | EmptyString => (0, Some "invalid syntax")
       end;
     float_24 := 24;
     hours_to_msec := fun h => MSecPerHour * h |}.

(** A configuration with every optional field absent. *)
Definition bare : OntapStorageDriverConfig :=
  {| StorageDriverName := "ontap-nas";
     DriverContext := "kubernetes";
     StoragePrefix := None;
     ManagementLIF := "10.0.0.1";
     SVM := "";
     Username := "admin";
     Password := "secret";
     Aggregate := "";
     UsageHeartbeat := "";
     Size := "";
     SpaceReserve := "";
     SnapshotPolicy := "";
     UnixPermissions := "";
     SnapshotDir := "";
     ExportPolicy := "";
     SecurityStyle := "";
     NfsMountOptions := "";
     SplitOnClone := "";
     FileSystemType := "";
     Encryption := "" |}.

(** The common configuration of a backend with the prefix ["trident"]. *)
Definition common : CommonStorageDriverConfig :=
  {| common_StorageDriverName := "ontap-nas";
     common_DriverContext := "kubernetes";
     common_StoragePrefix := Some "trident" |}.

Definition passed : ZapiError :=
  {| IsPassed := true; Code := ""; IsScopeError := false; ZapiText := "" |}.

Definition not_found : ZapiError :=
  {| IsPassed := false; Code := "15661"; IsScopeError := false;
     ZapiText := "API status: failed, Reason: entry doesn't exist, Code: 15661" |}.

Definition no_privilege : ZapiError :=
  {| IsPassed := false; Code := "13003"; IsScopeError := true;
     ZapiText := "API status: failed, Reason: Insufficient privileges, Code: 13003" |}.

End Sample.

Module SampleClone.

(** Volume ["vol1"] exists; snapshots can be created; cloning from the
    snapshot ["gone"] finds no such snapshot. *)
Definition api : CloneAPI :=
  {| VolumeExists := fun name => (String.eqb name "vol1", None);
     SnapshotCreate := fun _ _ => Response Sample.passed tt;
     VolumeCloneCreate := fun _ _ snapshot =>
       if String.eqb snapshot "gone" then Response Sample.not_found tt
       else Response Sample.passed tt;
     VolumeMount := fun _ _ => Response Sample.passed tt;
     VolumeCloneSplitStart := fun _ => Response Sample.passed tt |}.

End SampleClone.

Module SampleMirrors.

Definition mirror (status : option string) : SnapmirrorInfoType :=
  {| SourceLocation := "svm1:root"; RelationshipStatusPtr := status |}.

Definition listing (mirrors : list SnapmirrorInfoType)
  : Reply (IterResult SnapmirrorInfoType) :=
  Response Sample.passed
    {| NumRecords := Z.of_nat (length mirrors); AttributesList := mirrors |}.

(** Two mirrors that are transferring until the second poll finds them
    idle; every pass takes exactly the second slept. *)
Definition settling : MirrorEnv :=
  {| VolumeGetRootName := Response Sample.passed "root";
     SnapmirrorGetLoadSharingMirrors := fun n =>
       if (n <? 2)%nat
       then listing [mirror (Some "transferring"); mirror None]
       else listing [mirror (Some "idle"); mirror (Some "idle")];
     SnapmirrorUpdateLoadSharingMirrors := Response Sample.passed tt;
     clock_start := 1523525400000000000;
     extra_nanos := fun _ => 0%N |}.

(** Mirrors that never become idle. *)
Definition stuck (extra : N) : MirrorEnv :=
  {| VolumeGetRootName := Response Sample.passed "root";
     SnapmirrorGetLoadSharingMirrors := fun _ =>
       listing [mirror (Some "idle"); mirror (Some "transferring")];
     SnapmirrorUpdateLoadSharingMirrors := Response Sample.passed tt;
     clock_start := 1523525400000000000;
     extra_nanos := fun _ => extra |}.

End SampleMirrors.

Module SampleDiscovery.

Definition svm1 : OntapStorageDriverConfig := set_SVM "svm1" Sample.bare.

(** The configuration of [svm1] restricted to one aggregate. *)
Definition restricted (aggregate : string) : OntapStorageDriverConfig :=
  {| StorageDriverName := "ontap-nas"; DriverContext := "kubernetes";
     StoragePrefix := Some "trident_"; ManagementLIF := "10.0.0.1";
     SVM := "svm1"; Username := "vsadmin"; Password := "secret";
     Aggregate := aggregate; UsageHeartbeat := ""; Size := "1G";
     SpaceReserve := "none"; SnapshotPolicy := "none";
     UnixPermissions := "---rwxrwxrwx"; SnapshotDir := "false";
     ExportPolicy := "default"; SecurityStyle := "unix";
     NfsMountOptions := "-o nfsvers=3"; SplitOnClone := "false";
     FileSystemType := "ext4"; Encryption := "false" |}.

Definition aggregates (rows : list AggrInfo) : Reply (IterResult AggrInfo) :=
  Response Sample.passed
    {| NumRecords := Z.of_nat (length rows); AttributesList := rows |}.

(** Two aggregates, one of solid-state disks and one of a type unknown. *)
Definition api : DiscoveryAPI :=
  {| GetVserverAggregateNames := (["aggr1"; "aggr2"], None);
     SupportsVServerShowAggr := true;
     VserverShowAggrGetIterRequest :=
       aggregates [{| AggregateName := "aggr1"; AggregateType := "ssd" |};
                   {| AggregateName := "aggr2"; AggregateType := "tape" |};
                   {| AggregateName := "aggr9"; AggregateType := "hdd" |}];
     AggrGetIterRequest := CallFailed "not reached" |}.

(** The same aggregates, seen by a user who may not list their
    attributes. *)
Definition denied : DiscoveryAPI :=
  {| GetVserverAggregateNames := (["aggr1"; "aggr2"], None);
     SupportsVServerShowAggr := true;
     VserverShowAggrGetIterRequest :=
       Response Sample.no_privilege {| NumRecords := 0; AttributesList := [] |};
     AggrGetIterRequest := CallFailed "not reached" |}.

(** An SVM without aggregates. *)
Definition unassigned : DiscoveryAPI :=
  {| GetVserverAggregateNames := ([], None);
     SupportsVServerShowAggr := true;
     VserverShowAggrGetIterRequest := aggregates [];
     AggrGetIterRequest := aggregates [] |}.

Definition fresh : Backend := {| Storage := ∅ |}.

Definition common : gmap string Offer := {[ "backendType" := NewStringOffer "ontap-nas" ]}.

End SampleDiscovery.

(* ===================================================================== *)
(** * Driver initialization and validation *)
(* ===================================================================== *)

(** Constants of the packages [trident] and [storage_attribute] used by the
    validation and volume-option code.  They are left abstract. *)
Class DriverConstants : Type := {
  (** [trident.ContextDocker]. *)
  ContextDocker : string;
  (** [sa.ProvisioningType]. *)
  sa_ProvisioningType : string;
  (** [sa.Encryption]. *)
  sa_Encryption : string
}.

(** The configuration together with the fields that the code above does
    not use. *)
Record FullConfig : Type := {
  ontap : OntapStorageDriverConfig;
  DataLIF : string;
  SerialNumbers : list string
}.

(** The errors of initialization, validation and listing. *)
Inductive DriverError : Type :=
| ErrReturned (cause : string)
| ErrNoAggregateSpecified
| ErrSVMNoAggregates (svm : string)
| ErrAggregateUnavailable (aggregate svm : string)
| ErrNoDataLIFs (svm : string)
| ErrDataLIFNotFound (address : string)
| ErrDataLIFValidation (cause : DriverError)
| ErrInvalidEncryption (cause : string)
| ErrEncryptionUnsupported
| ErrEnumeratingVolumes (cause : GoError)
| ErrCreateClient (cause : Error)
| ErrOntapiVersion (cause : string)
| ErrOntapTooOld
| ErrPopulate (cause : Error).

Fixpoint DriverError_text (e : DriverError) : string :=
  match e with
  | ErrReturned cause => cause
  | ErrNoAggregateSpecified => "no aggregate was specified in the config file"
  | ErrSVMNoAggregates svm => "SVM " +:+ svm +:+ " has no assigned aggregates"
  | ErrAggregateUnavailable aggregate svm =>
      "aggregate " +:+ aggregate +:+ " does not exist or is not assigned to SVM " +:+ svm
  | ErrNoDataLIFs svm => "no NAS data LIFs found on SVM " +:+ svm
  | ErrDataLIFNotFound address => "could not find Data LIF for " +:+ address
  | ErrDataLIFValidation cause => "data LIF validation failed: " +:+ DriverError_text cause
  | ErrInvalidEncryption cause => "invalid boolean value for encryption: " +:+ cause
  | ErrEncryptionUnsupported =>
      "encrypted volumes are not supported on this storage backend"
  | ErrEnumeratingVolumes cause => "error enumerating volumes: " +:+ GoError_text cause
  | ErrCreateClient cause =>
      "could not create Data ONTAP API client: " +:+ Error_text cause
  | ErrOntapiVersion cause =>
      "could not determine Data ONTAP API version: " +:+ cause
  | ErrOntapTooOld => "ONTAP 8.3 or later is required"
  | ErrPopulate cause =>
      "could not populate configuration defaults: " +:+ Error_text cause
  end.

(** How a call of the functions below ends. *)
Inductive Result (A : Type) : Type :=
| Returns (a : A)
| Fails (e : DriverError)
| Panics (what : string).
Arguments Returns {A} a.
Arguments Fails {A} e.
Arguments Panics {A} what.

(** The loop of [ValidateAggregate] over the assigned aggregates. *)
Fixpoint aggregate_found (aggregate : string) (vserverAggrs : list string) : bool :=
  match vserverAggrs with
  | [] => false
  | aggrName :: rest =>
      if String.eqb aggrName aggregate then true else aggregate_found aggregate rest
  end.

(** [ValidateAggregate]: the error, [None] being nil. *)
Definition ValidateAggregate (client : DiscoveryAPI) (config : OntapStorageDriverConfig)
  : option DriverError :=
  if String.eqb (Aggregate config) "" then Some ErrNoAggregateSpecified
  else
    match GetVserverAggregateNames client with
    | (_, Some err) => Some (ErrReturned err)
    | (vserverAggrs, None) =>
        if (length vserverAggrs =? 0)%nat then Some (ErrSVMNoAggregates (SVM config))
        else if aggregate_found (Aggregate config) vserverAggrs then None
        else Some (ErrAggregateUnavailable (Aggregate config) (SVM config))
    end.

(** The inner loop of [ValidateDataLIFs], labelled [loop] in the source. *)
Fixpoint foundValidLIFAddress (hostNameAddress : string) (dataLIFs : list string) : bool :=
  match dataLIFs with
  | [] => false
  | lifAddress :: rest =>
      if String.eqb lifAddress hostNameAddress then true
      else foundValidLIFAddress hostNameAddress rest
  end.

(** The outer loop of [ValidateDataLIFs]. *)
Fixpoint match_addresses (addressesFromHostname dataLIFs : list string)
  : option DriverError :=
  match addressesFromHostname with
  | [] => None
  | hostNameAddress :: rest =>
      if foundValidLIFAddress hostNameAddress dataLIFs
      then match_addresses rest dataLIFs
      else Some (ErrDataLIFNotFound hostNameAddress)
  end.

(** [ValidateDataLIFs]; [LookupHost] is [net.LookupHost]. *)
Definition ValidateDataLIFs
    (LookupHost : string -> list string * option string)
    (config : FullConfig) (dataLIFs : list string) : option DriverError :=
  match LookupHost (DataLIF config) with
  | (_, Some err) => Some (ErrReturned err)
  | (addressesFromHostname, None) => match_addresses addressesFromHostname dataLIFs
  end.

(** The answers that the NAS validation gets: from the resolver, from the
    listing of the data LIFs by protocol and from the listing of the
    assigned aggregates. *)
Record ValidationEnv : Type := {
  LookupHost : string -> list string * option string;
  NetInterfaceGetDataLIFs : string -> list string * option string;
  aggregates_api : DiscoveryAPI
}.

(** [config.DataLIF = lif]. *)
Definition set_DataLIF (lif : string) (config : FullConfig) : FullConfig :=
  {| ontap := ontap config; DataLIF := lif; SerialNumbers := SerialNumbers config |}.

Section Validation.
Context `{DriverConstants}.

(** [ValidateNASDriver]: the configuration as the call leaves it, and the
    error. *)
Definition ValidateNASDriver (env : ValidationEnv) (config : FullConfig)
  : FullConfig * option DriverError :=
  match NetInterfaceGetDataLIFs env "nfs" with
  | (_, Some err) => (config, Some (ErrReturned err))
  | (dataLIFs, None) =>
      match dataLIFs with
      | [] => (config, Some (ErrNoDataLIFs (SVM (ontap config))))
      | first :: _ =>
          let '(config, lifErr) :=
            if String.eqb (DataLIF config) "" then (set_DataLIF first config, None)
            else (config, ValidateDataLIFs (LookupHost env) config dataLIFs) in
          match lifErr with
          | Some err => (config, Some (ErrDataLIFValidation err))
          | None =>
              if String.eqb (DriverContext (ontap config)) ContextDocker
              then (config, ValidateAggregate (aggregates_api env) (ontap config))
              else (config, None)
          end
      end
  end.

End Validation.

(** [ValidateEncryptionAttribute]: the [*bool] and the error;
    [supportsEncryption] is [client.SupportsFeature(api.NetAppVolumeEncryption)]. *)
Definition ValidateEncryptionAttribute (encryption : string) (supportsEncryption : bool)
  : option bool * option DriverError :=
  match Go.ParseBool encryption with
  | (_, Some err) => (None, Some (ErrInvalidEncryption err))
  | (enableEncryption, None) =>
      if supportsEncryption then (Some enableEncryption, None)
      else if enableEncryption then (None, Some ErrEncryptionUnsupported)
      else (None, None)
  end.

(** The answers that [InitializeOntapDriver] gets. *)
Record InitEnv : Type := {
  init_LookupHost : string -> list string * option string;
  VserverGetIterRequest : Reply (IterResult VserverInfoType);
  SystemGetOntapiVersion : string * option string;
  SupportsMinimumONTAPIVersion : bool;
  ListNodeSerialNumbers : list string * option string
}.

Section Initialize.
Context `{Externals}.

(** [InitializeOntapDriver]: the configuration as the call leaves it, and
    the client or the error. *)
Definition InitializeOntapDriver (env : InitEnv) (config : FullConfig)
  : FullConfig * Result Client :=
  match init_LookupHost env (ManagementLIF (ontap config)) with
  | (_, Some err) => (config, Fails (ErrReturned err))
  | (_, None) =>
      let '(derived, made) := InitializeOntapAPI (ontap config) (VserverGetIterRequest env) in
      let config :=
        {| ontap := derived; DataLIF := DataLIF config;
           SerialNumbers := SerialNumbers config |} in
      match made with
      | Failed err => (config, Fails (ErrCreateClient err))
      | Panic what => (config, Panics what)
      | Ok client =>
          match SystemGetOntapiVersion env with
          | (_, Some err) => (config, Fails (ErrOntapiVersion err))
          | (_, None) =>
              if negb (SupportsMinimumONTAPIVersion env)
              then (config, Fails ErrOntapTooOld)
              else
                let config :=
                  {| ontap := ontap config; DataLIF := DataLIF config;
                     SerialNumbers := fst (ListNodeSerialNumbers env) |} in
                let '(populated, err) := PopulateConfigurationDefaults (ontap config) in
                let config :=
                  {| ontap := populated; DataLIF := DataLIF config;
                     SerialNumbers := SerialNumbers config |} in
                match err with
                | Some err => (config, Fails (ErrPopulate err))
                | None => (config, Returns client)
                end
          end
      end
  end.

End Initialize.

(* ===================================================================== *)
(** * Volume listing and volume options *)
(* ===================================================================== *)

(** The name of a listed volume, [VolumeIdAttributes().Name()]. *)
Record VolumeAttributesType : Type := { vol_Name : string }.

(** The slice [s[n:]]: out of range when [s] has fewer than [n] bytes. *)
Fixpoint slice_from (n : nat) (s : string) : option string :=
  match n, s with
  | O, _ => Some s
  | S k, String _ t => slice_from k t
  | S _, EmptyString => None
  end.

(** The loop of [GetVolumeList]: each name without its first [n] bytes. *)
Fixpoint trim_names (n : nat) (volumes : list VolumeAttributesType)
  : Result (list string) :=
  match volumes with
  | [] => Returns []
  | volume :: rest =>
      match slice_from n (vol_Name volume) with
      | None => Panics "slice bounds out of range"
      | Some volName =>
          match trim_names n rest with
          | Returns volumes => Returns (volName :: volumes)
          | Fails e => Fails e
          | Panics what => Panics what
          end
      end
  end.

(** [GetVolumeList]; [VolumeList] is the answer of the API to the listing
    of the volumes with a prefix. *)
Definition GetVolumeList
    (VolumeList : string -> Reply (IterResult VolumeAttributesType))
    (config : OntapStorageDriverConfig) : Result (list string) :=
  match StoragePrefix config with
  | None => Panics "invalid memory address or nil pointer dereference"
  | Some prefix =>
      let volResponse := VolumeList prefix in
      match GetError volResponse, volResponse with
      | Some err, _ => Fails (ErrEnumeratingVolumes err)
      | None, CallFailed _ => Panics "nil response"
      | None, Response _ result =>
          trim_names (String.length prefix) (AttributesList result)
      end
  end.

(** The fields of [storage.VolumeConfig] that the option code reads. *)
Record VolumeConfig : Type := {
  vc_SnapshotPolicy : string;
  vc_UnixPermissions : string;
  vc_SnapshotDir : string;
  vc_ExportPolicy : string;
  vc_SpaceReserve : string;
  vc_SecurityStyle : string;
  vc_SplitOnClone : string;
  vc_FileSystem : string;
  vc_Encryption : string
}.

(** The dynamic value of a storage-class request, [Request.Value()]. *)
Inductive RequestValue : Type :=
| StringValue (s : string)
| BoolValue (b : bool)
| IntValue (n : Z).

(** [if value != "" { opts[key] = value }]. *)
Definition set_option (key value : string) (opts : gmap string string)
  : gmap string string :=
  if String.eqb value "" then opts else <[key := value]> opts.

Section VolumeOptions.
Context `{DriverConstants}.

(** [getVolumeOptsCommon]; [pool] is a pointer, [None] being nil. *)
Definition getVolumeOptsCommon
    (volConfig : VolumeConfig) (pool : option Pool)
    (requests : gmap string RequestValue) : gmap string string :=
  let opts : gmap string string := ∅ in
  let opts :=
    match pool with
    | Some pool => <["aggregate" := pool_Name pool]> opts
    | None => opts
    end in
  let opts :=
    match requests !! sa_ProvisioningType with
    | Some (StringValue p) =>
        if String.eqb p "thin" then <["spaceReserve" := "none"]> opts
        else if String.eqb p "thick" then <["spaceReserve" := "volume"]> opts
        else opts
    | _ => opts
    end in
  let opts :=
    match requests !! sa_Encryption with
    | Some (BoolValue true) => <["encryption" := "true"]> opts
    | _ => opts
    end in
  let opts := set_option "snapshotPolicy" (vc_SnapshotPolicy volConfig) opts in
  let opts := set_option "unixPermissions" (vc_UnixPermissions volConfig) opts in
  let opts := set_option "snapshotDir" (vc_SnapshotDir volConfig) opts in
  let opts := set_option "exportPolicy" (vc_ExportPolicy volConfig) opts in
  let opts := set_option "spaceReserve" (vc_SpaceReserve volConfig) opts in
  let opts := set_option "securityStyle" (vc_SecurityStyle volConfig) opts in
  let opts := set_option "splitOnClone" (vc_SplitOnClone volConfig) opts in
  let opts := set_option "fileSystemType" (vc_FileSystem volConfig) opts in
  let opts := set_option "encryption" (vc_Encryption volConfig) opts in
  opts.

End VolumeOptions.

(* ===================================================================== *)
(** * Vocabulary of the further properties *)
(* ===================================================================== *)

(** Does [old] occur in [s]? *)
Fixpoint occurs (old s : string) : bool :=
  String.prefix old s
  || match s with
     | EmptyString => false
     | String _ t => occurs old t
     end.

(** The remote calls of a clone workflow in which every step succeeds. *)
Definition planned_calls `{Externals}
    (name source snapshot : string) (split : bool)
    (config : OntapStorageDriverConfig) (timestamp : string) : list Call :=
  let chosen := if String.eqb snapshot "" then timestamp else snapshot in
  ([CallVolumeExists name]
   ++ (if String.eqb snapshot "" then [CallSnapshotCreate timestamp source] else [])
   ++ [CallVolumeCloneCreate name source chosen]
   ++ (if String.eqb (StorageDriverName config) OntapNASStorageDriverName
       then [CallVolumeMount name ("/" +:+ name)] else [])
   ++ (if split then [CallVolumeCloneSplitStart name] else []))%list.

(** The media offer that goes with an aggregate type, if the type is one
    of the performance classes. *)
Definition media_of `{Externals} (aggrType : string) : option Offer :=
  match ontapPerformanceClasses !! aggrType with
  | Some storageAttrs => storageAttrs !! sa_Media
  | None => None
  end.

(** What the listing of pass [polls] was like when the wait returned for
    the reason [why]. *)
Definition stopped_because (env : MirrorEnv) (polls : nat) (why : Exit) : Prop :=
  match why with
  | PollError =>
      exists err : string, SnapmirrorGetLoadSharingMirrors env polls = CallFailed err
  | MirrorsGone => no_mirrors (SnapmirrorGetLoadSharingMirrors env polls) = true
  | MirrorsIdle => all_idle (SnapmirrorGetLoadSharingMirrors env polls) = true
  | GaveUp =>
      busy (SnapmirrorGetLoadSharingMirrors env polls) = true
      /\ deadline env < clock_after env polls
  | RootVolumeError | MirrorListError | NoMirrors | UpdateError => False
  end.

(** The keys that [getVolumeOptsCommon] can set. *)
Definition option_keys : list string :=
  ["aggregate"; "spaceReserve"; "encryption"; "snapshotPolicy"; "unixPermissions";
   "snapshotDir"; "exportPolicy"; "securityStyle"; "splitOnClone"; "fileSystemType"].

(** Every option set is filed under one of the known keys and, but for the
    aggregate, is not empty. *)
Definition options_sound (opts : gmap string string) : Prop :=
  forall key value : string,
    opts !! key = Some value ->
    key ∈ option_keys /\ (key <> "aggregate" -> value <> "").

(** More sample collaborators. *)
Module SampleMore.

Definition constants : DriverConstants :=
  {| ContextDocker := "docker";
     sa_ProvisioningType := "provisioningType";
     sa_Encryption := "encryption" |}.

(** A resolver that knows one host with two addresses. *)
Definition resolver (host : string) : list string * option string :=
  if String.eqb host "nas.example.com" then (["10.0.0.11"; "10.0.0.12"], None)
  else if String.eqb host "10.0.0.1" then (["10.0.0.1"], None)
  else ([], Some ("lookup " +:+ host +:+ ": no such host")).

Definition validation : ValidationEnv :=
  {| LookupHost := resolver;
     NetInterfaceGetDataLIFs := fun _ => (["10.0.0.11"; "10.0.0.12"; "10.0.0.13"], None);
     aggregates_api := SampleDiscovery.api |}.

Definition unconfigured : FullConfig :=
  {| ontap := Sample.bare; DataLIF := ""; SerialNumbers := [] |}.

Definition by_name : FullConfig :=
  {| ontap := Sample.bare; DataLIF := "nas.example.com"; SerialNumbers := [] |}.

(** One SVM to derive, a supported version, and no right to list the
    serial numbers. *)
Definition init : InitEnv :=
  {| init_LookupHost := resolver;
     VserverGetIterRequest :=
       Response Sample.passed
         {| NumRecords := 1; AttributesList := [{| VserverName := "svm1" |}] |};
     SystemGetOntapiVersion := ("1.130", None);
     SupportsMinimumONTAPIVersion := true;
     ListNodeSerialNumbers := ([], Some "insufficient privileges") |}.

Definition volumes (names : list string) (prefix : string)
  : Reply (IterResult VolumeAttributesType) :=
  Response Sample.passed
    {| NumRecords := Z.of_nat (length names);
       AttributesList := map (fun name => {| vol_Name := name |}) names |}.

Definition plain : VolumeConfig :=
  {| vc_SnapshotPolicy := ""; vc_UnixPermissions := ""; vc_SnapshotDir := "";
     vc_ExportPolicy := ""; vc_SpaceReserve := ""; vc_SecurityStyle := "";
     vc_SplitOnClone := ""; vc_FileSystem := ""; vc_Encryption := "" |}.

End SampleMore.

(* ===================================================================== *)
(** * Properties: internal volume names *)
(* ===================================================================== *)

Section ReplaceFacts.

Lemma has_byte_append (c : ascii) (a b : string) :
  Go.has_byte c (a +:+ b) = Go.has_byte c a || Go.has_byte c b.
Proof.
  induction a as [|x a IH]; simpl; [reflexivity|].
  rewrite IH. apply orb_assoc.
Qed.

(** Replacing brings in no byte that is neither in the input nor in the
    replacement. *)
Lemma replace_from_bytes (c : ascii) (old new : string) :
  Go.has_byte c new = false ->
  forall (s : string) (skip : nat),
    Go.has_byte c s = false -> Go.has_byte c (Go.replace_from old new skip s) = false.
Proof.
  intros Hnew. induction s as [|x s IH]; intros skip Hs; [reflexivity|].
  cbn [Go.has_byte] in Hs. apply orb_false_elim in Hs as [Hx Hs].
  cbn [Go.replace_from].
  destruct skip as [|k]; [|by apply IH].
  destruct (String.prefix old (String x s)).
  - rewrite has_byte_append, Hnew. by apply IH.
  - cbn [Go.has_byte]. rewrite Hx. by apply IH.
Qed.

Lemma Replace_bytes (c : ascii) (s old new : string) :
  Go.has_byte c new = false -> Go.has_byte c s = false ->
  Go.has_byte c (Go.Replace s old new) = false.
Proof.
  intros Hnew Hs. unfold Go.Replace.
  destruct (String.eqb old new); [assumption|]. by apply replace_from_bytes.
Qed.

(** Replacing every occurrence of a single byte removes that byte. *)
Lemma replace_from_single (a : ascii) (new : string) :
  Go.has_byte a new = false ->
  forall s : string,
    Go.has_byte a (Go.replace_from (String a EmptyString) new 0 s) = false.
Proof.
  intros Hnew. induction s as [|x s IH]; [reflexivity|].
  cbn [Go.replace_from String.prefix String.length Nat.sub].
  destruct (ascii_dec a x) as [->|Hne].
  - replace (String.prefix EmptyString s) with true by (by destruct s).
    rewrite has_byte_append, Hnew. exact IH.
  - cbn [Go.has_byte]. rewrite IH, orb_false_r. apply Ascii.eqb_neq. congruence.
Qed.

Lemma Replace_single (a : ascii) (s new : string) :
  Go.has_byte a new = false ->
  Go.has_byte a (Go.Replace s (String a EmptyString) new) = false.
Proof.
  intros Hnew. unfold Go.Replace.
  destruct (String.eqb_spec (String a EmptyString) new) as [<-|_].
  - simpl in Hnew. by rewrite Ascii.eqb_refl in Hnew.
  - by apply replace_from_single.
Qed.

End ReplaceFacts.

Example Replace_hyphens : Go.Replace "a-b--c" "-" "_" = "a_b__c".
Proof. reflexivity. Qed.

Example Replace_underscores : Go.Replace "a___b____c" "__" "_" = "a__b__c".
Proof. reflexivity. Qed.

Example internal_name_sample :
  getInternalVolumeNameCommon (H := Sample.externals) false Sample.common "pvc-1.2_-x"
  = Ok "trident_pvc_1_2_x"
  /\ getInternalVolumeNameCommon (H := Sample.externals) true Sample.common "pvc-1.2_-x"
     = Ok "tridentpvc-1.2_-x".
Proof. split; reflexivity. Qed.

(** C10: without the passthrough store the internal volume name is the
    common internal name with every hyphen, then every period, replaced by
    an underscore and double underscores replaced afterwards, and it holds
    neither a hyphen nor a period, whatever the name; with the passthrough
    store it is the configured storage prefix followed by the name
    unchanged. *)
Theorem getInternalVolumeNameCommon_names `{Externals}
    (commonConfig : CommonStorageDriverConfig) (prefix name : string) :
  (exists internal : string,
      getInternalVolumeNameCommon false commonConfig name = Ok internal
      /\ internal =
           Go.Replace
             (Go.Replace
                (Go.Replace (GetCommonInternalVolumeName commonConfig name) "-" "_")
                "." "_")
             "__" "_"
      /\ Go.has_byte "-" internal = false
      /\ Go.has_byte "." internal = false)
  /\ (common_StoragePrefix commonConfig = Some prefix ->
      getInternalVolumeNameCommon true commonConfig name = Ok (prefix +:+ name)).
Proof.
  split.
  - eexists. split; [reflexivity|]. split; [reflexivity|]. split.
    + apply Replace_bytes; [reflexivity|].
      apply Replace_bytes; [reflexivity|].
      by apply Replace_single.
    + apply Replace_bytes; [reflexivity|].
      by apply Replace_single.
  - intros Hprefix. unfold getInternalVolumeNameCommon. by rewrite Hprefix.
Qed.

Lemma getInternalVolumeNameCommon_names_witness :
  common_StoragePrefix Sample.common = Some "trident"
  /\ getInternalVolumeNameCommon (H := Sample.externals) true Sample.common "pvc-1"
     = Ok "tridentpvc-1".
Proof.
  split; [reflexivity|].
  apply (proj2 (getInternalVolumeNameCommon_names (H := Sample.externals)
                  Sample.common "trident" "pvc-1")).
  reflexivity.
Defined.

(* ===================================================================== *)
(** * Properties: volume size and configuration defaults *)
(* ===================================================================== *)

Example MinimumVolumeSizeBytes_is_20MiB : MinimumVolumeSizeBytes = 20 * 1024 * 1024.
Proof. reflexivity. Qed.

Example GetVolumeSize_default_1G :
  GetVolumeSize (H := Sample.externals) 0 (populate_head (H := Sample.externals) Sample.bare)
  = (1073741824, None).
Proof. reflexivity. Qed.

(** C8: a requested size other than zero and below the floor of 20 MiB
    (20971520 bytes) is refused; at the floor, and at any size above it, the
    requested size is returned; a request of zero is replaced by the
    configured default size, converted to bytes, before the comparison with
    the floor. *)
Theorem GetVolumeSize_floor `{Externals} (config : OntapStorageDriverConfig) :
  (forall sizeBytes : Z,
      0 < sizeBytes < MinimumVolumeSizeBytes ->
      GetVolumeSize sizeBytes config = (0, Some (ErrSizeTooSmall sizeBytes)))
  /\ GetVolumeSize MinimumVolumeSizeBytes config = (MinimumVolumeSizeBytes, None)
  /\ (forall sizeBytes : Z,
         MinimumVolumeSizeBytes <= sizeBytes ->
         GetVolumeSize sizeBytes config = (sizeBytes, None))
  /\ GetVolumeSize 0 config =
       (let defaultBytes := fst (Go.ParseUint (fst (ConvertSizeToBytes (Size config)))) in
        if defaultBytes <? MinimumVolumeSizeBytes
        then (0, Some (ErrSizeTooSmall defaultBytes))
        else (defaultBytes, None)).
Proof.
  unfold GetVolumeSize, MinimumVolumeSizeBytes. repeat split.
  - intros sizeBytes [Hpos Hlt].
    destruct (Z.eqb_spec sizeBytes 0) as [->|_]; [lia|].
    destruct (Z.ltb_spec sizeBytes 20971520); [reflexivity|lia].
  - intros sizeBytes Hge.
    destruct (Z.eqb_spec sizeBytes 0) as [->|_]; [lia|].
    destruct (Z.ltb_spec sizeBytes 20971520); [lia|reflexivity].
Qed.

Lemma GetVolumeSize_floor_witness :
  0 < 20971519 < MinimumVolumeSizeBytes
  /\ GetVolumeSize (H := Sample.externals) 20971519 Sample.bare
     = (0, Some (ErrSizeTooSmall 20971519))
  /\ GetVolumeSize (H := Sample.externals) 20971520 Sample.bare = (20971520, None).
Proof.
  split; [unfold MinimumVolumeSizeBytes; lia|]. split.
  - apply (proj1 (GetVolumeSize_floor (H := Sample.externals) Sample.bare) 20971519).
    unfold MinimumVolumeSizeBytes; lia.
  - apply (proj1 (proj2 (GetVolumeSize_floor (H := Sample.externals) Sample.bare))).
Defined.

Section Defaults.
Context `{Externals}.

Lemma or_default_idem (field dflt : string) :
  or_default (or_default field dflt) dflt = or_default field dflt.
Proof.
  unfold or_default. destruct (String.eqb_spec field "") as [->|Hne].
  - by destruct (String.eqb dflt "").
  - by destruct (String.eqb_spec field "").
Qed.

Lemma or_default_empty (dflt : string) : or_default "" dflt = dflt.
Proof. reflexivity. Qed.

Lemma or_default_given (field dflt : string) :
  field <> "" -> or_default field dflt = field.
Proof. intros Hne. unfold or_default. by destruct (String.eqb_spec field ""). Qed.

Lemma populate_head_idem (config : OntapStorageDriverConfig) :
  populate_head (populate_head config) = populate_head config.
Proof.
  destruct config as [? ? [p|] ? ? ? ? ? ? ? ? ? ? ? ? ? ? ? ? ?];
    unfold populate_head; cbn [StorageDriverName DriverContext StoragePrefix ManagementLIF SVM Username
         Password Aggregate UsageHeartbeat Size SpaceReserve SnapshotPolicy
         UnixPermissions SnapshotDir ExportPolicy SecurityStyle NfsMountOptions
         SplitOnClone FileSystemType Encryption];
    by rewrite !or_default_idem.
Qed.

Lemma populate_tail_idem (config : OntapStorageDriverConfig) :
  populate_tail (populate_tail config) = populate_tail config.
Proof.
  destruct config; unfold populate_tail;
    cbn [StorageDriverName DriverContext StoragePrefix ManagementLIF SVM Username
         Password Aggregate UsageHeartbeat Size SpaceReserve SnapshotPolicy
         UnixPermissions SnapshotDir ExportPolicy SecurityStyle NfsMountOptions
         SplitOnClone FileSystemType Encryption];
    by rewrite !or_default_idem.
Qed.

Lemma populate_head_tail (config : OntapStorageDriverConfig) :
  populate_head (populate_tail config) = populate_tail (populate_head config).
Proof. by destruct config. Qed.

Lemma PopulateConfigurationDefaults_valid (config : OntapStorageDriverConfig) :
  snd (PopulateConfigurationDefaults config) = None ->
  PopulateConfigurationDefaults config = (populate_tail (populate_head config), None)
  /\ (Size config = "" \/ snd (ConvertSizeToBytes (Size config)) = None)
  /\ (SplitOnClone config = ""
      \/ snd (Go.ParseBool (SplitOnClone config)) = None).
Proof.
  unfold PopulateConfigurationDefaults. intros Hv.
  destruct (String.eqb_spec (Size config) "") as [Hs|Hs].
  - replace (SplitOnClone (populate_head config)) with (SplitOnClone config) in *
      by reflexivity.
    destruct (String.eqb_spec (SplitOnClone config) "") as [Hc|Hc]; [by auto|].
    destruct (snd (Go.ParseBool (SplitOnClone config))) eqn:Hb; [discriminate|by auto].
  - destruct (snd (ConvertSizeToBytes (Size config))) eqn:Hz; [discriminate|].
    replace (SplitOnClone (populate_head config)) with (SplitOnClone config) in *
      by reflexivity.
    destruct (String.eqb_spec (SplitOnClone config) "") as [Hc|Hc]; [by auto|].
    destruct (snd (Go.ParseBool (SplitOnClone config))) eqn:Hb; [discriminate|by auto].
Qed.

End Defaults.

Example PopulateConfigurationDefaults_bare :
  PopulateConfigurationDefaults (H := Sample.externals) Sample.bare
  = ({| StorageDriverName := "ontap-nas";
        DriverContext := "kubernetes";
        StoragePrefix := Some "trident_";
        ManagementLIF := "10.0.0.1";
        SVM := "";
        Username := "admin";
        Password := "secret";
        Aggregate := "";
        UsageHeartbeat := "";
        Size := "1G";
        SpaceReserve := "none";
        SnapshotPolicy := "none";
        UnixPermissions := "---rwxrwxrwx";
        SnapshotDir := "false";
        ExportPolicy := "default";
        SecurityStyle := "unix";
        NfsMountOptions := "-o nfsvers=3";
        SplitOnClone := "false";
        FileSystemType := "ext4";
        Encryption := "false" |}, None).
Proof. reflexivity. Qed.

(** C9: for a configuration that [PopulateConfigurationDefaults] accepts,
    every optional field that is absent receives its documented default and
    every field that is given is kept; and, the default volume size of the
    driver package being itself a size that converts to bytes, populating
    the result once more succeeds and changes nothing. *)
Theorem PopulateConfigurationDefaults_idempotent `{Externals}
    (config : OntapStorageDriverConfig) :
  snd (PopulateConfigurationDefaults config) = None ->
  let populated := fst (PopulateConfigurationDefaults config) in
  (SpaceReserve populated
     = if String.eqb (SpaceReserve config) "" then "none" else SpaceReserve config)
  /\ (SnapshotPolicy populated
     = if String.eqb (SnapshotPolicy config) "" then "none" else SnapshotPolicy config)
  /\ (UnixPermissions populated
     = if String.eqb (UnixPermissions config) "" then "---rwxrwxrwx"
       else UnixPermissions config)
  /\ (SnapshotDir populated
     = if String.eqb (SnapshotDir config) "" then "false" else SnapshotDir config)
  /\ (ExportPolicy populated
     = if String.eqb (ExportPolicy config) "" then "default" else ExportPolicy config)
  /\ (SecurityStyle populated
     = if String.eqb (SecurityStyle config) "" then "unix" else SecurityStyle config)
  /\ (NfsMountOptions populated
     = if String.eqb (NfsMountOptions config) "" then "-o nfsvers=3"
       else NfsMountOptions config)
  /\ (SplitOnClone populated
     = if String.eqb (SplitOnClone config) "" then "false" else SplitOnClone config)
  /\ (FileSystemType populated
     = if String.eqb (FileSystemType config) "" then "ext4" else FileSystemType config)
  /\ (Encryption populated
     = if String.eqb (Encryption config) "" then "false" else Encryption config)
  /\ (Size populated
     = if String.eqb (Size config) "" then DefaultVolumeSize else Size config)
  /\ (StoragePrefix populated
     = match StoragePrefix config with
       | None => Some (GetDefaultStoragePrefix (DriverContext config))
       | Some prefix => Some prefix
       end)
  /\ (snd (ConvertSizeToBytes DefaultVolumeSize) = None ->
      PopulateConfigurationDefaults populated = (populated, None)).
Proof.
  intros Hvalid.
  destruct (PopulateConfigurationDefaults_valid config Hvalid) as (Heq & Hsize & Hsplit).
  rewrite Heq. cbn [fst]. repeat (split; [reflexivity|]).
  intros Hdefault.
  set (head := populate_head config).
  assert (Hsize' : snd (ConvertSizeToBytes (Size (populate_tail head))) = None
                   \/ Size (populate_tail head) = "").
  { change (Size (populate_tail head)) with (or_default (Size config) DefaultVolumeSize).
    destruct Hsize as [->|Hok]; [by left|].
    unfold or_default. destruct (String.eqb (Size config) ""); by left. }
  assert (Hsplit' :
            snd (Go.ParseBool (SplitOnClone (populate_head (populate_tail head)))) = None).
  { change (SplitOnClone (populate_head (populate_tail head)))
      with (or_default (SplitOnClone config) DefaultSplitOnClone).
    destruct Hsplit as [->|Hok]; [reflexivity|].
    unfold or_default. by destruct (String.eqb (SplitOnClone config) ""). }
  unfold PopulateConfigurationDefaults.
  replace (if String.eqb (Size (populate_tail head)) "" then None
           else snd (ConvertSizeToBytes (Size (populate_tail head))))
    with (@None string)
    by (destruct Hsize' as [->| ->]; [by destruct (String.eqb _ _)|reflexivity]).
  rewrite Hsplit'.
  replace (if String.eqb (SplitOnClone (populate_head (populate_tail head))) ""
           then None else None) with (@None string)
    by (by destruct (String.eqb _ _)).
  subst head.
  by rewrite populate_head_tail, populate_head_idem, populate_tail_idem.
Qed.

Lemma PopulateConfigurationDefaults_idempotent_witness :
  snd (PopulateConfigurationDefaults (H := Sample.externals) Sample.bare) = None
  /\ snd (ConvertSizeToBytes (Externals := Sample.externals)
            (DefaultVolumeSize (Externals := Sample.externals))) = None
  /\ PopulateConfigurationDefaults (H := Sample.externals)
       (fst (PopulateConfigurationDefaults (H := Sample.externals) Sample.bare))
     = (fst (PopulateConfigurationDefaults (H := Sample.externals) Sample.bare), None).
Proof.
  split; [reflexivity|]. split; [reflexivity|].
  apply (PopulateConfigurationDefaults_idempotent (H := Sample.externals) Sample.bare);
    reflexivity.
Defined.

(* ===================================================================== *)
(** * Properties: SVM derivation *)
(* ===================================================================== *)

Example InitializeOntapAPI_explicit_SVM :
  InitializeOntapAPI (set_SVM "svm0" Sample.bare) (CallFailed "connection refused")
  = (set_SVM "svm0" Sample.bare, Ok (client_for (set_SVM "svm0" Sample.bare))).
Proof. reflexivity. Qed.

(** C1, as the code has it: the SVM being unset and the listing of the SVMs
    having passed, a record count of one makes the first listed SVM the SVM
    of the configuration, and the client returned is built anew for it; any
    other record count, zero as well as two or more, fails with the one
    error "cannot derive SVM to use; please specify SVM in config file",
    and the configuration is left as it was. *)
Theorem InitializeOntapAPI_derives_SVM
    (config : OntapStorageDriverConfig) (zapi : ZapiError)
    (result : IterResult VserverInfoType) :
  SVM config = "" ->
  IsPassed zapi = true ->
  (forall (vserver : VserverInfoType) (others : list VserverInfoType),
      NumRecords result = 1 ->
      AttributesList result = vserver :: others ->
      InitializeOntapAPI config (Response zapi result)
      = (set_SVM (VserverName vserver) config,
         Ok (client_for (set_SVM (VserverName vserver) config)))
      /\ cc_SVM (client_config (client_for (set_SVM (VserverName vserver) config)))
         = VserverName vserver)
  /\ (NumRecords result <> 1 ->
      InitializeOntapAPI config (Response zapi result) = (config, Failed ErrCannotDeriveSVM))
  /\ Error_text ErrCannotDeriveSVM
     = "cannot derive SVM to use; please specify SVM in config file".
Proof.
  intros Hsvm Hpassed. unfold InitializeOntapAPI, GetError.
  rewrite Hsvm, Hpassed. cbn [String.eqb negb].
  split; [|split; [|reflexivity]].
  - intros vserver others Hone Hlist. rewrite Hone, Hlist. by split.
  - intros Hne. by destruct (Z.eqb_spec (NumRecords result) 1).
Qed.

Lemma InitializeOntapAPI_derives_SVM_witness :
  InitializeOntapAPI Sample.bare
    (Response Sample.passed
       {| NumRecords := 1; AttributesList := [{| VserverName := "svm1" |}] |})
  = (set_SVM "svm1" Sample.bare, Ok (client_for (set_SVM "svm1" Sample.bare))).
Proof.
  apply (proj1 (InitializeOntapAPI_derives_SVM Sample.bare Sample.passed
                  {| NumRecords := 1; AttributesList := [{| VserverName := "svm1" |}] |}
                  eq_refl eq_refl)
           {| VserverName := "svm1" |} [] eq_refl eq_refl).
Defined.

(** C1, as the claim has it, fails: with no SVM listed and with two SVMs
    listed the error returned is the same, so that the two cases cannot be
    told apart by the error. *)
Lemma InitializeOntapAPI_one_error_kind :
  ~ (exists none several : Error,
        snd (InitializeOntapAPI Sample.bare
               (Response Sample.passed {| NumRecords := 0; AttributesList := [] |}))
        = Failed none
        /\ snd (InitializeOntapAPI Sample.bare
                  (Response Sample.passed
                     {| NumRecords := 2;
                        AttributesList := [{| VserverName := "svm1" |};
                                           {| VserverName := "svm2" |}] |}))
           = Failed several
        /\ none <> several).
Proof.
  intros (none & several & Hnone & Hseveral & Hdiff).
  cbn in Hnone, Hseveral. congruence.
Qed.

(* ===================================================================== *)
(** * Properties: EMS heartbeat *)
(* ===================================================================== *)

Lemma heartbeat_loop_nil_ticker (t : Telemetry) (events : list Event) :
  ticker t = None ->
  heartbeat_loop t events
  = ([], Crashed "invalid memory address or nil pointer dereference").
Proof. intros Hnil. destruct events; simpl; by rewrite Hnil. Qed.

(** With a ticker the task sends a heartbeat at each tick and returns when
    the stop signal arrives. *)
Lemma heartbeat_loop_stops (t : Telemetry) (ticks : nat) (later : list Event) :
  ticker t <> None ->
  heartbeat_loop t (repeat Tick ticks ++ Done :: later)
  = (repeat EMSHeartbeat ticks, Returned).
Proof.
  intros Hticker. induction ticks as [|n IH]; simpl.
  - by destruct (ticker t).
  - destruct (ticker t); [|done]. simpl in IH. by rewrite IH.
Qed.

Example Start_daily_heartbeat :
  exists t : Telemetry,
    NewOntapTelemetry (H := Sample.whole_hours) "ontap-nas"
      (populate_head (H := Sample.externals) Sample.bare) = Ok t
    /\ ticker t = Some 86400000000000
    /\ Start t [Tick; Tick; Done]
       = ([Sleep 10; EMSHeartbeat; EMSHeartbeat; EMSHeartbeat], Returned).
Proof. eexists. repeat split. Qed.

(** C2, on the code: when the interval computed from the configuration is
    zero or negative, the telemetry is built without a ticker; the task that
    [Start] launches then sleeps ten seconds, sends the first heartbeat, and
    crashes on the nil ticker as it enters its loop, whatever is signalled
    to it, the stop signal included. *)
Theorem Start_without_ticker_crashes `{Float64}
    (driverName prefix : string) (config : OntapStorageDriverConfig)
    (events : list Event) :
  StoragePrefix config = Some prefix ->
  durationInHours (UsageHeartbeat config) <= 0 ->
  exists t : Telemetry,
    NewOntapTelemetry driverName config = Ok t
    /\ ticker t = None
    /\ Start t events
       = ([Sleep 10; EMSHeartbeat],
          Crashed "invalid memory address or nil pointer dereference")
    /\ Stop t {| ticker_running := false; done_closed := false |}
       = Ok {| ticker_running := false; done_closed := true |}.
Proof.
  intros Hprefix Hduration. unfold NewOntapTelemetry. rewrite Hprefix.
  destruct (Z.ltb_spec 0 (durationInHours (UsageHeartbeat config))) as [Hpos|_]; [lia|].
  eexists. split; [reflexivity|]. split; [reflexivity|]. split; [|reflexivity].
  unfold Start. by rewrite heartbeat_loop_nil_ticker.
Qed.

Lemma Start_without_ticker_crashes_witness :
  exists t : Telemetry,
    NewOntapTelemetry (H := Sample.whole_hours) "ontap-nas"
      {| StorageDriverName := "ontap-nas"; DriverContext := "kubernetes";
         StoragePrefix := Some "trident_"; ManagementLIF := "10.0.0.1";
         SVM := "svm1"; Username := "admin"; Password := "secret";
         Aggregate := ""; UsageHeartbeat := "0"; Size := "1G";
         SpaceReserve := "none"; SnapshotPolicy := "none";
         UnixPermissions := "---rwxrwxrwx"; SnapshotDir := "false";
         ExportPolicy := "default"; SecurityStyle := "unix";
         NfsMountOptions := "-o nfsvers=3"; SplitOnClone := "false";
         FileSystemType := "ext4"; Encryption := "false" |} = Ok t
    /\ ticker t = None
    /\ Start t [Done]
       = ([Sleep 10; EMSHeartbeat],
          Crashed "invalid memory address or nil pointer dereference")
    /\ Stop t {| ticker_running := false; done_closed := false |}
       = Ok {| ticker_running := false; done_closed := true |}.
Proof.
  apply (Start_without_ticker_crashes (H := Sample.whole_hours)
           "ontap-nas" "trident_" _ [Done]).
  - reflexivity.
  - vm_compute. discriminate.
Defined.

(* ===================================================================== *)
(** * Properties: clone workflow *)
(* ===================================================================== *)

Example CreateOntapClone_all_steps :
  CreateOntapClone (H := Sample.externals) "vol2" "vol1" "" true
    (populate_head (H := Sample.externals) Sample.bare) SampleClone.api "20180412T093000Z"
  = ([CallVolumeExists "vol2";
      CallSnapshotCreate "20180412T093000Z" "vol1";
      CallVolumeCloneCreate "vol2" "vol1" "20180412T093000Z";
      CallVolumeMount "vol2" "/vol2";
      CallVolumeCloneSplitStart "vol2"], Ok tt).
Proof. reflexivity. Qed.

(** C4: when the volume-existence query answers that the target name
    exists, the workflow fails with the error "volume ... already exists"
    and the existence query is the only remote call it has issued: no
    snapshot is created, no clone, no mount, no split. *)
Theorem CreateOntapClone_existing_target `{Externals}
    (name source snapshot timestamp : string) (split : bool)
    (config : OntapStorageDriverConfig) (client : CloneAPI) :
  VolumeExists client name = (true, None) ->
  CreateOntapClone name source snapshot split config client timestamp
  = ([CallVolumeExists name], Failed (ErrVolumeExists name))
  /\ existsb is_mutation
       (fst (CreateOntapClone name source snapshot split config client timestamp)) = false
  /\ Error_text (ErrVolumeExists name) = "volume " +:+ name +:+ " already exists".
Proof.
  intros Hexists.
  assert (Hrun : CreateOntapClone name source snapshot split config client timestamp
                 = ([CallVolumeExists name], Failed (ErrVolumeExists name))).
  { unfold CreateOntapClone, remote, bind. by rewrite Hexists. }
  rewrite Hrun. by repeat split.
Qed.

Lemma CreateOntapClone_existing_target_witness :
  VolumeExists SampleClone.api "vol1" = (true, None)
  /\ CreateOntapClone (H := Sample.externals) "vol1" "vol0" "" true Sample.bare
       SampleClone.api "20180412T093000Z"
     = ([CallVolumeExists "vol1"], Failed (ErrVolumeExists "vol1")).
Proof.
  split; [reflexivity|].
  apply (CreateOntapClone_existing_target (H := Sample.externals)
           "vol1" "vol0" "" "20180412T093000Z" true Sample.bare SampleClone.api).
  reflexivity.
Defined.

Section CloneStep.
Context `{Externals}.

(** The snapshot the clone is made from: the one requested, or the
    timestamp when none is. *)
Lemma CreateOntapClone_reaches_clone
    (name source snapshot timestamp : string) (split : bool)
    (config : OntapStorageDriverConfig) (client : CloneAPI) :
  VolumeExists client name = (false, None) ->
  (snapshot = "" -> GetError (SnapshotCreate client timestamp source) = None) ->
  let chosen := if String.eqb snapshot "" then timestamp else snapshot in
  forall e : Error,
    (match VolumeCloneCreate client name source chosen with
     | CallFailed err => Some (ErrCreatingClone (TransportError err))
     | Response zerr _ =>
         if negb (IsPassed zerr) then
           if String.eqb (Code zerr) EOBJECTNOTFOUND
           then Some (ErrSnapshotNotFound chosen source)
           else Some (ErrCreatingClone (ZapiFailure zerr))
         else None
     end) = Some e ->
    snd (CreateOntapClone name source snapshot split config client timestamp) = Failed e
    /\ last (fst (CreateOntapClone name source snapshot split config client timestamp))
       = Some (CallVolumeCloneCreate name source chosen).
Proof.
  intros Hexists Hsnap chosen e Hclone.
  unfold CreateOntapClone, remote, bind. rewrite Hexists.
  subst chosen. destruct (String.eqb_spec snapshot "") as [Hempty|Hgiven].
  - rewrite (Hsnap Hempty). cbn [ret raise].
    destruct (VolumeCloneCreate client name source timestamp) as [err|zerr []].
    + injection Hclone as <-. by split.
    + destruct (IsPassed zerr); cbn [negb] in *; [discriminate|].
      destruct (String.eqb (Code zerr) EOBJECTNOTFOUND);
        injection Hclone as <-; by split.
  - cbn [ret raise].
    destruct (VolumeCloneCreate client name source snapshot) as [err|zerr []].
    + injection Hclone as <-. by split.
    + destruct (IsPassed zerr); cbn [negb] in *; [discriminate|].
      destruct (String.eqb (Code zerr) EOBJECTNOTFOUND);
        injection Hclone as <-; by split.
Qed.

End CloneStep.

(** C5: the workflow having reached the clone-creation step (the target
    does not exist yet and, when no snapshot was named, the snapshot was
    created), a failed response carrying the "object not found" code makes
    the workflow fail with the error "snapshot S does not exist in volume
    V", S being the snapshot used and V the source volume; a failed response
    with any other code, and a failure of the call itself, make it fail with
    "error creating clone: ..." around the original error. *)
Theorem CreateOntapClone_clone_failures `{Externals}
    (name source snapshot timestamp : string) (split : bool)
    (config : OntapStorageDriverConfig) (client : CloneAPI) :
  VolumeExists client name = (false, None) ->
  (snapshot = "" -> GetError (SnapshotCreate client timestamp source) = None) ->
  let chosen := if String.eqb snapshot "" then timestamp else snapshot in
  let outcome := snd (CreateOntapClone name source snapshot split config client timestamp) in
  (forall (zerr : ZapiError) (r : unit),
      VolumeCloneCreate client name source chosen = Response zerr r ->
      IsPassed zerr = false ->
      (Code zerr = EOBJECTNOTFOUND ->
       outcome = Failed (ErrSnapshotNotFound chosen source))
      /\ (Code zerr <> EOBJECTNOTFOUND ->
          outcome = Failed (ErrCreatingClone (ZapiFailure zerr))))
  /\ (forall err : string,
         VolumeCloneCreate client name source chosen = CallFailed err ->
         outcome = Failed (ErrCreatingClone (TransportError err)))
  /\ Error_text (ErrSnapshotNotFound chosen source)
     = "snapshot " +:+ chosen +:+ " does not exist in volume " +:+ source
  /\ (forall cause : GoError,
         Error_text (ErrCreatingClone cause)
         = "error creating clone: " +:+ GoError_text cause).
Proof.
  intros Hexists Hsnap chosen outcome.
  pose proof (CreateOntapClone_reaches_clone name source snapshot timestamp split
                config client Hexists Hsnap) as Hstep.
  cbn zeta in Hstep. fold chosen in Hstep.
  split; [|split; [|by split]].
  - intros zerr r Hreply Hfailed. rewrite Hreply, Hfailed in Hstep. cbn [negb] in Hstep.
    split; intros Hcode.
    + apply (Hstep (ErrSnapshotNotFound chosen source)).
      by destruct (String.eqb_spec (Code zerr) EOBJECTNOTFOUND).
    + apply (Hstep (ErrCreatingClone (ZapiFailure zerr))).
      by destruct (String.eqb_spec (Code zerr) EOBJECTNOTFOUND).
  - intros err Hreply. rewrite Hreply in Hstep. by apply Hstep.
Qed.

Lemma CreateOntapClone_clone_failures_witness :
  VolumeExists SampleClone.api "vol2" = (false, None)
  /\ snd (CreateOntapClone (H := Sample.externals) "vol2" "vol1" "gone" false Sample.bare
            SampleClone.api "20180412T093000Z")
     = Failed (ErrSnapshotNotFound "gone" "vol1").
Proof.
  split; [reflexivity|].
  apply (proj1 (CreateOntapClone_clone_failures (H := Sample.externals)
                  "vol2" "vol1" "gone" "20180412T093000Z" false Sample.bare
                  SampleClone.api eq_refl (fun _ => eq_refl))
           Sample.not_found tt eq_refl eq_refl).
  reflexivity.
Defined.

(* ===================================================================== *)
(** * Properties: load-sharing mirrors *)
(* ===================================================================== *)

Section MirrorWait.
Variable env : MirrorEnv.
Hypothesis root_known : GetError (VolumeGetRootName env) = None.

Lemma clock_after_lower (n : nat) :
  clock_start env + Z.of_nat n * Go.Second <= clock_after env n.
Proof.
  induction n as [|n IH]; [simpl; lia|].
  cbn [clock_after]. unfold Go.Second in *. lia.
Qed.

(** One pass of the loop on a listing that is still busy. *)
Lemma wait_idle_busy (fuel made : nat) (now : Z) :
  busy (SnapmirrorGetLoadSharingMirrors env (S made)) = true ->
  wait_idle env (S fuel) made now (deadline env)
  = let now' := now + 1 * Go.Second + Z.of_N (extra_nanos env (S made)) in
    if deadline env <? now' then Finished (S made) GaveUp
    else wait_idle env fuel (S made) now' (deadline env).
Proof.
  intros Hbusy. cbn [wait_idle]. unfold busy in Hbusy.
  destruct (SnapmirrorGetLoadSharingMirrors env (S made)) as [err|z result];
    [discriminate|].
  cbn [GetError_with payload]. rewrite root_known.
  apply andb_prop in Hbusy as [Hcount Hidle].
  apply negb_true_iff in Hcount, Hidle. by rewrite Hcount, Hidle.
Qed.

Lemma wait_idle_all_idle (fuel made : nat) (now : Z) :
  all_idle (SnapmirrorGetLoadSharingMirrors env (S made)) = true ->
  wait_idle env (S fuel) made now (deadline env) = Finished (S made) MirrorsIdle.
Proof.
  intros Hidle. cbn [wait_idle]. unfold all_idle in Hidle.
  destruct (SnapmirrorGetLoadSharingMirrors env (S made)) as [err|z result];
    [discriminate|].
  cbn [GetError_with payload]. rewrite root_known.
  apply andb_prop in Hidle as [Hcount Hidle].
  apply negb_true_iff in Hcount. by rewrite Hcount, Hidle.
Qed.

(** Every pass either returns or finds the deadline not yet passed, and
    the clock has advanced by a second at least: the loop returns within
    31 passes. *)
Lemma wait_idle_returns (fuel : nat) :
  forall (made : nat) (now : Z),
    clock_start env + Z.of_nat made * Go.Second <= now ->
    now <= deadline env ->
    (31 <= fuel + made)%nat ->
    exists (polls : nat) (why : Exit),
      wait_idle env fuel made now (deadline env) = Finished polls why
      /\ (made < polls <= 31)%nat.
Proof.
  unfold deadline, LSMirrorIdleTimeoutSecs, Go.Second.
  induction fuel as [|fuel IH]; intros made now Hlow Hhigh Hfuel; [lia|].
  assert (Hmade : (made <= 30)%nat) by lia.
  cbn [wait_idle].
  destruct (GetError_with _ _); [eexists _, _; split; [reflexivity|lia]|].
  destruct (payload _) as [result|]; [|eexists _, _; split; [reflexivity|lia]].
  destruct (NumRecords result =? 0); [eexists _, _; split; [reflexivity|lia]|].
  destruct (forallb mirror_idle _); [eexists _, _; split; [reflexivity|lia]|].
  unfold Go.Second.
  destruct (Z.ltb_spec
              (clock_start env + 30 * 1000000000)
              (now + 1 * 1000000000 + Z.of_N (extra_nanos env (S made))))
    as [Hover|Hin]; [eexists _, _; split; [reflexivity|lia]|].
  destruct (IH (S made) (now + 1 * 1000000000 + Z.of_N (extra_nanos env (S made))))
    as (polls & why & Hrun & Hpolls); [lia..|].
  exists polls, why. split; [exact Hrun|lia].
Qed.

(** While the mirrors stay busy the loop runs until the first pass at
    whose end the deadline has passed. *)
Lemma wait_idle_gives_up (fuel : nat) :
  (forall pass : nat, (1 <= pass)%nat ->
      busy (SnapmirrorGetLoadSharingMirrors env pass) = true) ->
  forall made : nat,
    clock_after env made <= deadline env ->
    (31 <= fuel + made)%nat ->
    exists polls : nat,
      wait_idle env fuel made (clock_after env made) (deadline env)
      = Finished polls GaveUp
      /\ (made < polls <= 31)%nat
      /\ deadline env < clock_after env polls
      /\ (forall pass : nat, (made <= pass < polls)%nat ->
             clock_after env pass <= deadline env).
Proof.
  intros Hbusy. induction fuel as [|fuel IH]; intros made Hin Hfuel.
  - pose proof (clock_after_lower made) as Hlow.
    unfold deadline, LSMirrorIdleTimeoutSecs, Go.Second in *. lia.
  - assert (Hmade : (made <= 30)%nat).
    { pose proof (clock_after_lower made) as Hlow.
      unfold deadline, LSMirrorIdleTimeoutSecs, Go.Second in *. lia. }
    rewrite wait_idle_busy by (apply Hbusy; lia). cbn zeta.
    change (clock_after env made + 1 * Go.Second + Z.of_N (extra_nanos env (S made)))
      with (clock_after env (S made)).
    destruct (Z.ltb_spec (deadline env) (clock_after env (S made))) as [Hover|Hstill].
    + exists (S made). split; [reflexivity|]. split; [lia|]. split; [exact Hover|].
      intros pass Hpass. by replace pass with made by lia.
    + destruct (IH (S made) Hstill) as (polls & Hrun & Hpolls & Hover & Hbefore); [lia|].
      exists polls. split; [exact Hrun|]. split; [lia|]. split; [exact Hover|].
      intros pass Hpass. destruct (decide (pass = made)) as [->|Hne]; [exact Hin|].
      apply Hbefore. lia.
Qed.

End MirrorWait.

(** With passes of exactly one second the deadline has passed at the end of
    pass 31; with passes of a second and a millisecond, at the end of pass
    30. *)
Example UpdateLoadSharingMirrors_stuck :
  UpdateLoadSharingMirrors (SampleMirrors.stuck 0) 100 = Finished 31 GaveUp
  /\ UpdateLoadSharingMirrors (SampleMirrors.stuck 1000000) 100 = Finished 30 GaveUp
  /\ UpdateLoadSharingMirrors (SampleMirrors.stuck 0) 30 = OutOfFuel.
Proof. repeat split; vm_compute; reflexivity. Qed.

(** C7: the root volume being known, (1) when the first listing reports no
    mirror the routine returns without a single pass of the polling loop;
    (2) when mirrors are listed, still busy at the first poll, which ends
    before the deadline, and all idle at the second, it returns after
    exactly two passes; (3) when the mirrors are busy at every poll, it
    gives up at the end of the first pass that ends after the deadline of 30
    seconds from the start of the wait, which is pass 31 at the latest;
    (4) whatever the answers, provided the first listing does not count
    mirrors that it does not list, the routine returns, after 31 passes at
    most; it has no error to return. *)
Theorem UpdateLoadSharingMirrors_waits (env : MirrorEnv) :
  let listing := SnapmirrorGetLoadSharingMirrors env in
  (GetError (VolumeGetRootName env) = None ->
   no_mirrors (listing 0%nat) = true ->
   forall fuel : nat, UpdateLoadSharingMirrors env fuel = Finished 0 NoMirrors)
  /\ (GetError (VolumeGetRootName env) = None ->
      some_mirrors (listing 0%nat) = true ->
      update_sent env = true ->
      busy (listing 1%nat) = true ->
      clock_after env 1 <= deadline env ->
      all_idle (listing 2%nat) = true ->
      forall fuel : nat, (2 <= fuel)%nat ->
        UpdateLoadSharingMirrors env fuel = Finished 2 MirrorsIdle)
  /\ (GetError (VolumeGetRootName env) = None ->
      some_mirrors (listing 0%nat) = true ->
      update_sent env = true ->
      (forall pass : nat, (1 <= pass)%nat -> busy (listing pass) = true) ->
      forall fuel : nat, (31 <= fuel)%nat ->
        exists polls : nat,
          UpdateLoadSharingMirrors env fuel = Finished polls GaveUp
          /\ (1 <= polls <= 31)%nat
          /\ deadline env < clock_after env polls
          /\ (forall pass : nat, (pass < polls)%nat ->
                 clock_after env pass <= deadline env))
  /\ (well_formed (listing 0%nat) = true ->
      forall fuel : nat, (31 <= fuel)%nat ->
        exists (polls : nat) (why : Exit),
          UpdateLoadSharingMirrors env fuel = Finished polls why /\ (polls <= 31)%nat).
Proof.
  intros listing. subst listing.
  assert (Hprefix : forall fuel : nat,
             GetError (VolumeGetRootName env) = None ->
             some_mirrors (SnapmirrorGetLoadSharingMirrors env 0%nat) = true ->
             update_sent env = true ->
             UpdateLoadSharingMirrors env fuel
             = wait_idle env fuel 0 (clock_start env) (deadline env)).
  { intros fuel Hroot Hsome Hsent. unfold UpdateLoadSharingMirrors, some_mirrors, update_sent in *.
    rewrite Hroot.
    destruct (SnapmirrorGetLoadSharingMirrors env 0%nat) as [err|z result]; [discriminate|].
    cbn [GetError_with payload]. rewrite Hroot.
    apply andb_prop in Hsome as [Hcount Hlist]. apply negb_true_iff in Hcount.
    rewrite Hcount. destruct (AttributesList result); [discriminate|].
    destruct (SnapmirrorUpdateLoadSharingMirrors env); [discriminate|].
    cbn [GetError_with]. by rewrite Hroot. }
  split; [|split; [|split]].
  - intros Hroot Hnone fuel. unfold UpdateLoadSharingMirrors, no_mirrors in *.
    rewrite Hroot.
    destruct (SnapmirrorGetLoadSharingMirrors env 0%nat) as [err|z result]; [discriminate|].
    cbn [GetError_with payload]. by rewrite Hroot, Hnone.
  - intros Hroot Hsome Hsent Hbusy Hclock Hidle fuel Hfuel.
    rewrite Hprefix by assumption.
    destruct fuel as [|[|fuel]]; [lia..|].
    rewrite (wait_idle_busy env Hroot) by assumption. cbn zeta.
    change (clock_start env + 1 * Go.Second + Z.of_N (extra_nanos env 1%nat))
      with (clock_after env 1).
    destruct (Z.ltb_spec (deadline env) (clock_after env 1)) as [Hover|_]; [lia|].
    by apply wait_idle_all_idle.
  - intros Hroot Hsome Hsent Hbusy fuel Hfuel.
    rewrite Hprefix by assumption.
    destruct (wait_idle_gives_up env Hroot fuel Hbusy 0%nat)
      as (polls & Hrun & Hpolls & Hover & Hbefore).
    + unfold deadline, LSMirrorIdleTimeoutSecs, Go.Second. cbn [clock_after]. lia.
    + lia.
    + exists polls. split; [exact Hrun|]. split; [lia|]. split; [exact Hover|].
      intros pass Hpass. apply Hbefore. lia.
  - clear Hprefix. intros Hformed fuel Hfuel.
    unfold UpdateLoadSharingMirrors, well_formed in *.
    destruct (GetError (VolumeGetRootName env)) eqn:Hroot;
      [eexists _, _; split; [reflexivity|lia]|].
    destruct (SnapmirrorGetLoadSharingMirrors env 0%nat) as [err|z result];
      cbn [GetError_with payload]; [eexists _, _; split; [reflexivity|lia]|].
    rewrite Hroot.
    destruct (NumRecords result =? 0); [eexists _, _; split; [reflexivity|lia]|].
    cbn [orb] in Hformed. destruct (AttributesList result); [discriminate|].
    destruct (GetError_with (VolumeGetRootName env)
                (SnapmirrorUpdateLoadSharingMirrors env));
      [eexists _, _; split; [reflexivity|lia]|].
    destruct (wait_idle_returns env fuel 0%nat (clock_start env))
      as (polls & why & Hrun & Hpolls).
    + lia.
    + unfold deadline, LSMirrorIdleTimeoutSecs, Go.Second. lia.
    + lia.
    + exists polls, why. split; [exact Hrun|lia].
Qed.

Lemma UpdateLoadSharingMirrors_waits_witness :
  UpdateLoadSharingMirrors SampleMirrors.settling 31 = Finished 2 MirrorsIdle
  /\ exists polls : nat,
       UpdateLoadSharingMirrors (SampleMirrors.stuck 0) 31 = Finished polls GaveUp
       /\ (1 <= polls <= 31)%nat.
Proof.
  split.
  - apply (proj1 (proj2 (UpdateLoadSharingMirrors_waits SampleMirrors.settling)));
      try reflexivity.
    + vm_compute. discriminate.
    + lia.
  - destruct (proj1 (proj2 (proj2 (UpdateLoadSharingMirrors_waits (SampleMirrors.stuck 0))))
                eq_refl eq_refl eq_refl (fun _ _ => eq_refl) 31%nat (le_n 31))
      as (polls & Hrun & Hpolls & _).
    exists polls. split; assumption.
Defined.

(* ===================================================================== *)
(** * Properties: storage-pool discovery *)
(* ===================================================================== *)

Section DiscoveryFacts.
Context `{Externals}.

Lemma assign_all_union (from into : gmap string Offer) :
  assign_all from into = from ∪ into.
Proof.
  unfold assign_all.
  apply (map_fold_weak_ind (fun r m => r = m ∪ into)).
  - by rewrite (left_id_L ∅ (∪)).
  - intros i x m r _ ->. by rewrite insert_union_l.
Qed.

Lemma with_attributes_fresh (attrs : gmap string Offer) (name : string) :
  with_attributes attrs (NewStoragePool name)
  = {| pool_Name := name; pool_Attributes := attrs |}.
Proof.
  unfold with_attributes, NewStoragePool. cbn [pool_Name pool_Attributes].
  by rewrite assign_all_union, (right_id_L ∅ (∪)).
Qed.

Lemma define_pools_from (aggrs : list string) :
  forall (pools : gmap string Pool) (name : string),
    foldl (fun pools aggrName => <[aggrName := NewStoragePool aggrName]> pools)
          pools aggrs !! name
    = if decide (name ∈ aggrs) then Some (NewStoragePool name) else pools !! name.
Proof.
  induction aggrs as [|a aggrs IH]; intros pools name; cbn [foldl].
  - destruct (decide (name ∈ [])) as [Hin|_]; [by apply elem_of_nil in Hin|done].
  - rewrite IH. destruct (decide (name ∈ aggrs)) as [Hin|Hout].
    + destruct (decide (name ∈ a :: aggrs)) as [_|Hno]; [done|].
      exfalso. apply Hno. by right.
    + destruct (decide (name = a)) as [->|Hne].
      * rewrite lookup_insert_eq.
        destruct (decide (a ∈ a :: aggrs)) as [_|Hno]; [done|].
        exfalso. apply Hno. by left.
      * rewrite lookup_insert_ne by done.
        destruct (decide (name ∈ a :: aggrs)) as [Hin|_]; [|done].
        apply elem_of_cons in Hin as [?|?]; done.
Qed.

Lemma define_pools_lookup (aggrs : list string) (name : string) :
  define_pools aggrs !! name
  = if decide (name ∈ aggrs) then Some (NewStoragePool name) else None.
Proof. unfold define_pools. by rewrite define_pools_from, lookup_empty. Qed.

(** The pools a successful selection starts from. *)
Lemma selected_lookup (config : OntapStorageDriverConfig) (aggrs : list string)
    (name : string) :
  (if String.eqb (Aggregate config) ""
   then define_pools aggrs
   else <[Aggregate config := NewStoragePool (Aggregate config)]> ∅) !! name
  = if decide (name ∈ pooled config aggrs) then Some (NewStoragePool name) else None.
Proof.
  unfold pooled. destruct (String.eqb (Aggregate config) "").
  - apply define_pools_lookup.
  - destruct (decide (name ∈ [Aggregate config])) as [Hin|Hout].
    + apply list_elem_of_singleton in Hin as ->. by rewrite lookup_insert_eq.
    + rewrite lookup_insert_ne, lookup_empty; [done|].
      intros Heq. apply Hout. by apply list_elem_of_singleton.
Qed.

Lemma register_pools_storage
    (attrs : gmap string Offer) (pools : gmap string Pool) (backend : Backend) :
  names_agree pools ->
  Storage (register_pools attrs pools backend)
  = (with_attributes attrs <$> pools) ∪ Storage backend.
Proof.
  unfold register_pools.
  apply (map_fold_weak_ind
           (fun r m => names_agree m ->
                       Storage r = (with_attributes attrs <$> m) ∪ Storage backend)).
  - intros _. by rewrite fmap_empty, (left_id_L ∅ (∪)).
  - intros i x m r Hfresh IH Hnames.
    assert (Hx : pool_Name x = i) by (apply Hnames; by rewrite lookup_insert_eq).
    assert (Hm : names_agree m).
    { intros name pool Hlook. apply Hnames.
      rewrite lookup_insert_ne; [done|]. intros ->. congruence. }
    unfold AddStoragePool. cbn [Storage pool_Name with_attributes].
    by rewrite Hx, (IH Hm), fmap_insert, insert_union_l.
Qed.

(** Reading the listed aggregates changes the attributes of pools, not
    the pools there are. *)
Lemma read_aggregate_keeps
    (pools : gmap string Pool) (log : list Entry) (aggr : AggrInfo) :
  dom (fst (read_aggregate (pools, log) aggr)) = dom pools
  /\ (names_agree pools -> names_agree (fst (read_aggregate (pools, log) aggr))).
Proof.
  unfold read_aggregate.
  destruct (pools !! AggregateName aggr) as [pool|] eqn:Hpool; [|done].
  destruct (ontapPerformanceClasses !! AggregateType aggr) as [attrs|]; [|done].
  cbn [fst]. split.
  - rewrite dom_insert_L. apply elem_of_dom_2 in Hpool.
    apply subseteq_union_1_L. by apply singleton_subseteq_l.
  - intros Hnames name p Hlook.
    destruct (decide (name = AggregateName aggr)) as [->|Hne].
    + rewrite lookup_insert_eq in Hlook. injection Hlook as <-.
      cbn [with_attributes pool_Name]. by apply Hnames.
    + rewrite lookup_insert_ne in Hlook by done. by apply Hnames.
Qed.

Lemma read_all_keeps (aggregates : list AggrInfo) :
  forall (pools : gmap string Pool) (log : list Entry),
    dom (fst (foldl read_aggregate (pools, log) aggregates)) = dom pools
    /\ (names_agree pools ->
        names_agree (fst (foldl read_aggregate (pools, log) aggregates))).
Proof.
  induction aggregates as [|aggr rest IH]; intros pools log; cbn [foldl]; [done|].
  destruct (read_aggregate_keeps pools log aggr) as [Hdom Hnames].
  destruct (read_aggregate (pools, log) aggr) as [pools' log'].
  destruct (IH pools' log') as [Hdom' Hnames']. cbn [fst] in *.
  split; [congruence|auto].
Qed.

Lemma read_aggregates_keeps
    (answer : Reply (IterResult AggrInfo)) (pools : gmap string Pool) :
  dom (read_aggregates answer pools).1.1 = dom pools
  /\ (names_agree pools -> names_agree (read_aggregates answer pools).1.1).
Proof.
  unfold read_aggregates. destruct answer as [err|zerr result]; [done|].
  destruct (IsPassed zerr); cbn [negb]; [|done].
  apply read_all_keeps.
Qed.

(** A listing that fails leaves the pools as they were and logs nothing
    of its own. *)
Lemma read_aggregates_failed
    (answer : Reply (IterResult AggrInfo)) (pools : gmap string Pool)
    (cause : GoError) :
  GetError answer = Some cause ->
  read_aggregates answer pools = (pools, [], Some cause).
Proof.
  unfold read_aggregates, GetError. destruct answer as [err|zerr result].
  - by intros [= <-].
  - destruct (IsPassed zerr); [discriminate|]. by intros [= <-].
Qed.

(** Past the selection of the pools, discovery reads the attributes,
    registers the pools and returns no error. *)
Lemma discovery_proceeds
    (client : DiscoveryAPI) (config : OntapStorageDriverConfig)
    (backend : Backend) (poolAttributes : gmap string Offer) (aggrs : list string) :
  GetVserverAggregateNames client = (aggrs, None) ->
  aggrs <> [] ->
  (Aggregate config = "" \/ Aggregate config ∈ aggrs) ->
  exists (selected : gmap string Pool) (before : list Entry),
    (forall name : string,
        selected !! name
        = if decide (name ∈ pooled config aggrs)
          then Some (NewStoragePool name) else None)
    /\ Forall (fun entry : Entry => entry.1 = LevelDebug) before
    /\ getStorageBackendSpecsCommon client config backend poolAttributes
       = (register_pools poolAttributes
            (read_aggregates (aggregate_listing client) selected).1.1 backend,
          (before ++ (read_aggregates (aggregate_listing client) selected).1.2
                  ++ report_aggrErr (read_aggregates (aggregate_listing client) selected).2)%list,
          None).
Proof.
  intros Hnames Hsome Hallowed.
  assert (Hread : forall selected : gmap string Pool,
             (if SupportsVServerShowAggr client
              then getVserverAggregateAttributes client selected
              else getClusterAggregateAttributes client selected)
             = read_aggregates (aggregate_listing client) selected).
  { intros selected. unfold aggregate_listing.
    by destruct (SupportsVServerShowAggr client). }
  unfold getStorageBackendSpecsCommon. rewrite Hnames.
  destruct aggrs as [|a aggrs]; [done|]. cbn [length Nat.eqb].
  pose proof (selected_lookup config (a :: aggrs)) as Hselected.
  destruct (String.eqb_spec (Aggregate config) "") as [Hnone|Hset]; cbn [negb].
  - eexists _, _. split; [exact Hselected|]. rewrite Hread.
    destruct (read_aggregates _ _) as [[? ?] ?]. cbn [fst snd].
    split; [|reflexivity]. by repeat constructor.
  - destruct Hallowed as [?|Hin]; [done|].
    rewrite define_pools_lookup.
    destruct (decide (Aggregate config ∈ a :: aggrs)); [|done].
    eexists _, _. split; [exact Hselected|]. rewrite Hread.
    destruct (read_aggregates _ _) as [[? ?] ?]. cbn [fst snd].
    split; [|reflexivity]. by repeat constructor.
Qed.

(** The pools registered by a discovery that got past the selection. *)
Lemma discovery_registers
    (client : DiscoveryAPI) (config : OntapStorageDriverConfig)
    (backend : Backend) (poolAttributes : gmap string Offer) (aggrs : list string) :
  GetVserverAggregateNames client = (aggrs, None) ->
  aggrs <> [] ->
  (Aggregate config = "" \/ Aggregate config ∈ aggrs) ->
  exists (backend' : Backend) (log : list Entry),
    getStorageBackendSpecsCommon client config backend poolAttributes
    = (backend', log, None)
    /\ dom (Storage backend') = list_to_set (pooled config aggrs) ∪ dom (Storage backend)
    /\ (forall name : string, name ∈ pooled config aggrs ->
           exists pool : Pool,
             Storage backend' !! name = Some pool /\ pool_Name pool = name)
    /\ (forall name : string, name ∉ pooled config aggrs ->
           Storage backend' !! name = Storage backend !! name)
    /\ (forall cause : GoError,
           GetError (aggregate_listing client) = Some cause ->
           (forall name : string, name ∈ pooled config aggrs ->
               Storage backend' !! name
               = Some {| pool_Name := name; pool_Attributes := poolAttributes |})
           /\ exists before : list Entry,
                Forall (fun entry : Entry => entry.1 = LevelDebug) before
                /\ log = (before ++ report_aggrErr (Some cause))%list).
Proof.
  intros Hnames Hsome Hallowed.
  destruct (discovery_proceeds client config backend poolAttributes aggrs
              Hnames Hsome Hallowed) as (selected & before & Hselected & Hbefore & Hrun).
  assert (Hagree : names_agree selected).
  { intros name pool Hlook. rewrite Hselected in Hlook.
    destruct (decide (name ∈ pooled config aggrs)); [|done]. by injection Hlook as <-. }
  assert (Hdom : dom selected = list_to_set (pooled config aggrs)).
  { apply set_eq. intros name. rewrite elem_of_dom, Hselected, elem_of_list_to_set.
    destruct (decide (name ∈ pooled config aggrs)) as [Hin|Hout].
    - split; [done|]. intros _. by eexists.
    - split; [by intros [? ?]|done]. }
  destruct (read_aggregates_keeps (aggregate_listing client) selected) as [Hkeep Hagree'].
  specialize (Hagree' Hagree).
  pose proof (register_pools_storage poolAttributes _ backend Hagree') as Hstorage.
  eexists _, _. split; [exact Hrun|]. rewrite Hstorage.
  split; [by rewrite dom_union_L, dom_fmap_L, Hkeep, Hdom|].
  split; [|split].
  - intros name Hin.
    assert (Hname : name ∈ dom (read_aggregates (aggregate_listing client) selected).1.1).
    { rewrite Hkeep, Hdom. by apply elem_of_list_to_set. }
    apply elem_of_dom in Hname as [pool Hpool].
    exists (with_attributes poolAttributes pool). split.
    + apply lookup_union_Some_l. by rewrite lookup_fmap, Hpool.
    + cbn [with_attributes pool_Name]. by apply Hagree'.
  - intros name Hout. apply lookup_union_r. rewrite lookup_fmap.
    assert (Hname : name ∉ dom (read_aggregates (aggregate_listing client) selected).1.1).
    { rewrite Hkeep, Hdom. by rewrite elem_of_list_to_set. }
    apply not_elem_of_dom in Hname. by rewrite Hname.
  - intros cause Hcause.
    rewrite (read_aggregates_failed _ selected cause Hcause). cbn [fst snd].
    split.
    + intros name Hin. apply lookup_union_Some_l.
      rewrite lookup_fmap, Hselected.
      destruct (decide (name ∈ pooled config aggrs)); [|done].
      cbn [fmap option_fmap option_map]. by rewrite with_attributes_fresh.
    + exists before. split; [exact Hbefore|reflexivity].
Qed.

End DiscoveryFacts.

Example discovery_annotates_media :
  let '(backend, log, err) :=
    getStorageBackendSpecsCommon (H := Sample.externals) SampleDiscovery.api
      SampleDiscovery.svm1 SampleDiscovery.fresh SampleDiscovery.common in
  err = None
  /\ attribute_of backend "aggr1" "media" = Some (NewStringOffer "ssd")
  /\ attribute_of backend "aggr1" "backendType" = Some (NewStringOffer "ontap-nas")
  /\ attribute_of backend "aggr2" "media" = None
  /\ attribute_of backend "aggr2" "backendType" = Some (NewStringOffer "ontap-nas")
  /\ attribute_of backend "aggr9" "backendType" = None
  /\ log = [(LevelDebug, "Read storage pools assigned to SVM.");
            (LevelDebug, "Read aggregate attributes.");
            (LevelWarn, "Aggregate has unknown media type.")].
Proof. vm_compute. repeat split. Qed.

(** C3: discovery having reached the attribute listing that the
    feature-support query selects, a failure of that listing, whatever its
    kind, does not fail discovery: every pooled aggregate is registered with
    the common attributes and nothing else, hence without a media attribute
    unless the common attributes hold one, and the other pools of the
    backend are untouched; starting from a backend without pools, there are
    as many pools as pooled aggregates.  A scope error is logged as a
    warning and nothing is logged as an error; any other failure is logged
    as an error. *)
Theorem getStorageBackendSpecsCommon_lookup_failure `{Externals}
    (client : DiscoveryAPI) (config : OntapStorageDriverConfig)
    (backend : Backend) (poolAttributes : gmap string Offer)
    (aggrs : list string) (cause : GoError) :
  GetVserverAggregateNames client = (aggrs, None) ->
  aggrs <> [] ->
  (Aggregate config = "" \/ Aggregate config ∈ aggrs) ->
  GetError (aggregate_listing client) = Some cause ->
  exists (backend' : Backend) (log : list Entry),
    getStorageBackendSpecsCommon client config backend poolAttributes
    = (backend', log, None)
    /\ (forall name : string, name ∈ pooled config aggrs ->
           Storage backend' !! name
           = Some {| pool_Name := name; pool_Attributes := poolAttributes |})
    /\ (forall name : string, name ∉ pooled config aggrs ->
           Storage backend' !! name = Storage backend !! name)
    /\ (Storage backend = ∅ -> NoDup (pooled config aggrs) ->
        size (Storage backend') = length (pooled config aggrs))
    /\ (poolAttributes !! sa_Media = None ->
        forall (name : string) (pool : Pool),
          name ∈ pooled config aggrs ->
          Storage backend' !! name = Some pool ->
          pool_Attributes pool !! sa_Media = None)
    /\ (is_scope_error cause = true ->
        (LevelWarn, "User has insufficient privileges to obtain aggregate info.") ∈ log
        /\ Forall (fun entry : Entry => entry.1 <> LevelError) log)
    /\ (is_scope_error cause = false ->
        (LevelError, "Could not obtain aggregate info") ∈ log).
Proof.
  intros Hnames Hsome Hallowed Hcause.
  destruct (discovery_registers client config backend poolAttributes aggrs
              Hnames Hsome Hallowed)
    as (backend' & log & Hrun & Hdom & _ & Hothers & Hfailed).
  destruct (Hfailed cause Hcause) as (Hpools & before & Hbefore & ->).
  exists backend', (before ++ report_aggrErr (Some cause))%list.
  split; [exact Hrun|]. split; [exact Hpools|]. split; [exact Hothers|].
  split; [|split; [|split]].
  - intros Hfresh Hnodup.
    rewrite <- (size_dom (D := gset string)), Hdom, Hfresh, dom_empty_L.
    rewrite (right_id_L ∅ (∪)). by apply size_list_to_set.
  - intros Hmedia name pool Hin Hpool. rewrite (Hpools name Hin) in Hpool.
    by injection Hpool as <-.
  - intros Hscope.
    assert (Hreport : report_aggrErr (Some cause)
              = [(LevelWarn, "User has insufficient privileges to obtain aggregate info.")]).
    { destruct cause as [msg|zerr]; cbn in Hscope |- *; [discriminate|by rewrite Hscope]. }
    rewrite Hreport. split.
    + apply elem_of_app. right. by left.
    + apply Forall_app. split.
      * eapply Forall_impl; [exact Hbefore|]. intros entry Hdebug. by rewrite Hdebug.
      * by repeat constructor.
  - intros Hscope. apply elem_of_app. right.
    destruct cause as [msg|zerr]; cbn in Hscope |- *; [by left|]. rewrite Hscope. by left.
Qed.

Lemma getStorageBackendSpecsCommon_lookup_failure_witness :
  exists (backend' : Backend) (log : list Entry),
    getStorageBackendSpecsCommon (H := Sample.externals) SampleDiscovery.denied
      SampleDiscovery.svm1 SampleDiscovery.fresh SampleDiscovery.common
    = (backend', log, None)
    /\ Storage backend' !! "aggr1"
       = Some {| pool_Name := "aggr1"; pool_Attributes := SampleDiscovery.common |}
    /\ size (Storage backend') = 2%nat.
Proof.
  destruct (getStorageBackendSpecsCommon_lookup_failure (H := Sample.externals)
              SampleDiscovery.denied SampleDiscovery.svm1 SampleDiscovery.fresh
              SampleDiscovery.common ["aggr1"; "aggr2"] (ZapiFailure Sample.no_privilege))
    as (backend' & log & Hrun & Hpools & _ & Hsize & _).
  - reflexivity.
  - discriminate.
  - left. reflexivity.
  - reflexivity.
  - exists backend', log. split; [exact Hrun|]. split.
    + apply Hpools. apply list_elem_of_In. simpl. tauto.
    + apply Hsize; [reflexivity|].
      apply NoDup_cons. split; [|apply NoDup_singleton].
      intros Hin. apply list_elem_of_singleton in Hin. discriminate.
Defined.

(** C6: the listing of the assigned aggregates having given at least one
    aggregate (none is the fatal error of the step before, which the first
    part records), (1) without a configured aggregate discovery registers
    one pool under each assigned aggregate name, N pools for N aggregates
    when the backend had none; (2) with a configured aggregate that is
    assigned, it registers a pool under that name alone, exactly one pool
    when the backend had none; (3) with a configured aggregate that is not
    assigned, it fails with the error that the assigned aggregates do not
    include the configured one, and the backend is unchanged. *)
Theorem getStorageBackendSpecsCommon_pools `{Externals}
    (client : DiscoveryAPI) (config : OntapStorageDriverConfig)
    (backend : Backend) (poolAttributes : gmap string Offer) (aggrs : list string) :
  GetVserverAggregateNames client = (aggrs, None) ->
  let run := getStorageBackendSpecsCommon client config backend poolAttributes in
  (aggrs = [] -> run = (backend, [], Some (ErrNoAssignedAggregates (SVM config))))
  /\ (aggrs <> [] -> Aggregate config = "" ->
      run.2 = None
      /\ dom (Storage run.1.1) = list_to_set aggrs ∪ dom (Storage backend)
      /\ (forall name : string, name ∈ aggrs ->
             exists pool : Pool,
               Storage run.1.1 !! name = Some pool /\ pool_Name pool = name)
      /\ (Storage backend = ∅ -> NoDup aggrs -> size (Storage run.1.1) = length aggrs))
  /\ (aggrs <> [] -> Aggregate config <> "" -> Aggregate config ∈ aggrs ->
      run.2 = None
      /\ dom (Storage run.1.1) = {[Aggregate config]} ∪ dom (Storage backend)
      /\ (exists pool : Pool,
             Storage run.1.1 !! Aggregate config = Some pool
             /\ pool_Name pool = Aggregate config)
      /\ (Storage backend = ∅ -> size (Storage run.1.1) = 1%nat))
  /\ (aggrs <> [] -> Aggregate config <> "" -> Aggregate config ∉ aggrs ->
      run.2 = Some (ErrAggregateNotAssigned (SVM config) (Aggregate config))
      /\ run.1.1 = backend).
Proof.
  intros Hnames run. subst run. split; [|split; [|split]].
  - intros ->. unfold getStorageBackendSpecsCommon. by rewrite Hnames.
  - intros Hsome Hnone.
    destruct (discovery_registers client config backend poolAttributes aggrs
                Hnames Hsome (or_introl Hnone))
      as (backend' & log & -> & Hdom & Hpools & _).
    unfold pooled in *. rewrite Hnone in *. cbn [String.eqb fst snd] in *.
    split; [reflexivity|]. split; [exact Hdom|]. split; [exact Hpools|].
    intros Hfresh Hnodup.
    rewrite <- (size_dom (D := gset string)), Hdom, Hfresh, dom_empty_L.
    rewrite (right_id_L ∅ (∪)). by apply size_list_to_set.
  - intros Hsome Hset Hin.
    destruct (discovery_registers client config backend poolAttributes aggrs
                Hnames Hsome (or_intror Hin))
      as (backend' & log & -> & Hdom & Hpools & _).
    unfold pooled in *.
    destruct (String.eqb_spec (Aggregate config) "") as [?|_]; [done|].
    cbn [fst snd] in *.
    assert (Hone : list_to_set [Aggregate config] =@{gset string} {[Aggregate config]}).
    { cbn [list_to_set foldr]. by rewrite (right_id_L ∅ (∪)). }
    rewrite Hone in Hdom.
    split; [reflexivity|]. split; [exact Hdom|].
    split; [apply Hpools; by apply list_elem_of_singleton|].
    intros Hfresh.
    rewrite <- (size_dom (D := gset string)), Hdom, Hfresh, dom_empty_L.
    rewrite (right_id_L ∅ (∪)). apply size_singleton.
  - intros Hsome Hset Hout. unfold getStorageBackendSpecsCommon. rewrite Hnames.
    destruct aggrs as [|a aggrs]; [done|]. cbn [length Nat.eqb].
    destruct (String.eqb_spec (Aggregate config) "") as [?|_]; [done|]. cbn [negb].
    rewrite define_pools_lookup.
    by destruct (decide (Aggregate config ∈ a :: aggrs)).
Qed.

Lemma getStorageBackendSpecsCommon_pools_witness :
  size (Storage (getStorageBackendSpecsCommon (H := Sample.externals) SampleDiscovery.api
                   SampleDiscovery.svm1 SampleDiscovery.fresh
                   SampleDiscovery.common).1.1) = 2%nat
  /\ size (Storage (getStorageBackendSpecsCommon (H := Sample.externals) SampleDiscovery.api
                      (SampleDiscovery.restricted "aggr2") SampleDiscovery.fresh
                      SampleDiscovery.common).1.1) = 1%nat
  /\ (getStorageBackendSpecsCommon (H := Sample.externals) SampleDiscovery.api
        (SampleDiscovery.restricted "aggr3") SampleDiscovery.fresh
        SampleDiscovery.common).2
     = Some (ErrAggregateNotAssigned "svm1" "aggr3").
Proof.
  assert (Hnodup : NoDup ["aggr1"; "aggr2"]).
  { apply NoDup_cons. split; [|apply NoDup_singleton].
    intros Hin. apply list_elem_of_singleton in Hin. discriminate. }
  split; [|split].
  - apply (proj1 (proj2 (getStorageBackendSpecsCommon_pools (H := Sample.externals)
                           SampleDiscovery.api SampleDiscovery.svm1 SampleDiscovery.fresh
                           SampleDiscovery.common ["aggr1"; "aggr2"] eq_refl)));
      [discriminate|reflexivity|reflexivity|exact Hnodup].
  - apply (proj1 (proj2 (proj2 (getStorageBackendSpecsCommon_pools (H := Sample.externals)
                                  SampleDiscovery.api (SampleDiscovery.restricted "aggr2")
                                  SampleDiscovery.fresh SampleDiscovery.common
                                  ["aggr1"; "aggr2"] eq_refl))));
      [discriminate|discriminate| |reflexivity].
    apply list_elem_of_In. simpl. tauto.
  - apply (proj2 (proj2 (proj2 (getStorageBackendSpecsCommon_pools (H := Sample.externals)
                                  SampleDiscovery.api (SampleDiscovery.restricted "aggr3")
                                  SampleDiscovery.fresh SampleDiscovery.common
                                  ["aggr1"; "aggr2"] eq_refl))));
      [discriminate|discriminate|].
    intros Hin. apply list_elem_of_In in Hin. simpl in Hin.
    destruct Hin as [Heq|[Heq|[]]]; discriminate.
Defined.

(** An SVM without aggregates: discovery stops at its first step with the
    error that the SVM has no assigned aggregates, before the configured
    aggregate is looked at, and whether or not one is configured. *)
Lemma getStorageBackendSpecsCommon_no_aggregates :
  GetVserverAggregateNames SampleDiscovery.unassigned = ([], None)
  /\ (getStorageBackendSpecsCommon (H := Sample.externals) SampleDiscovery.unassigned
        (SampleDiscovery.restricted "aggr1") SampleDiscovery.fresh
        SampleDiscovery.common).2
     = Some (ErrNoAssignedAggregates "svm1")
  /\ (getStorageBackendSpecsCommon (H := Sample.externals) SampleDiscovery.unassigned
        (SampleDiscovery.restricted "aggr1") SampleDiscovery.fresh
        SampleDiscovery.common).2
     <> Some (ErrAggregateNotAssigned "svm1" "aggr1")
  /\ (getStorageBackendSpecsCommon (H := Sample.externals) SampleDiscovery.unassigned
        SampleDiscovery.svm1 SampleDiscovery.fresh SampleDiscovery.common).2
     <> None.
Proof. repeat split; discriminate. Qed.

(* ===================================================================== *)
(** * Further properties: names and volume listing *)
(* ===================================================================== *)

Lemma replace_from_absent (old new : string) (s : string) :
  occurs old s = false -> Go.replace_from old new 0 s = s.
Proof.
  induction s as [|c s IH]; [reflexivity|].
  cbn [occurs]. intros Habsent. apply orb_false_elim in Habsent as [Hhere Hlater].
  cbn [Go.replace_from]. rewrite Hhere. by rewrite (IH Hlater).
Qed.

Lemma Replace_absent (s old new : string) :
  occurs old s = false -> Go.Replace s old new = s.
Proof.
  intros Habsent. unfold Go.Replace.
  destruct (String.eqb old new); [reflexivity|]. by apply replace_from_absent.
Qed.

Lemma append_cancel (p a b : string) : p +:+ a = p +:+ b -> a = b.
Proof.
  induction p as [|c p IH]; cbn [String.append]; [done|].
  intros [= Heq]. by apply IH.
Qed.

Lemma slice_from_append (p s : string) : slice_from (String.length p) (p +:+ s) = Some s.
Proof. induction p as [|c p IH]; [by destruct s|exact IH]. Qed.

Lemma slice_from_Some (n : nat) (s rest : string) :
  slice_from n s = Some rest ->
  exists head : string, String.length head = n /\ s = head +:+ rest.
Proof.
  revert s. induction n as [|n IH]; intros s Hslice.
  - exists EmptyString. destruct s; by injection Hslice as <-.
  - destruct s as [|c s]; [discriminate|].
    destruct (IH s Hslice) as (head & Hlen & ->).
    exists (String c head). split; [cbn; by rewrite Hlen|reflexivity].
Qed.

Lemma slice_from_None (n : nat) (s : string) :
  slice_from n s = None <-> (String.length s < n)%nat.
Proof.
  revert s. induction n as [|n IH]; intros s.
  - split; [by destruct s|lia].
  - destruct s as [|c s]; cbn [slice_from String.length]; [split; [lia|done]|].
    rewrite IH. lia.
Qed.

(** X1: a name whose common internal name holds no hyphen, no period and no
    double underscore is left as it is by the derivation without the
    passthrough store. *)
Theorem getInternalVolumeNameCommon_clean `{Externals}
    (commonConfig : CommonStorageDriverConfig) (name : string) :
  occurs "-" (GetCommonInternalVolumeName commonConfig name) = false ->
  occurs "." (GetCommonInternalVolumeName commonConfig name) = false ->
  occurs "__" (GetCommonInternalVolumeName commonConfig name) = false ->
  getInternalVolumeNameCommon false commonConfig name
  = Ok (GetCommonInternalVolumeName commonConfig name).
Proof.
  intros Hhyphen Hperiod Hdouble. unfold getInternalVolumeNameCommon.
  by rewrite (Replace_absent _ "-" "_" Hhyphen), (Replace_absent _ "." "_" Hperiod),
    (Replace_absent _ "__" "_" Hdouble).
Qed.

Lemma getInternalVolumeNameCommon_clean_witness :
  getInternalVolumeNameCommon (H := Sample.externals) false
    {| common_StorageDriverName := "ontap-nas"; common_DriverContext := "kubernetes";
       common_StoragePrefix := Some "" |} "pvc_0a1b"
  = Ok "pvc_0a1b".
Proof.
  apply (getInternalVolumeNameCommon_clean (H := Sample.externals)); reflexivity.
Defined.

(** X2: with the passthrough store the derivation can be undone: two names
    with the same internal name are the same name. *)
Theorem getInternalVolumeNameCommon_reversible `{Externals}
    (commonConfig : CommonStorageDriverConfig) (name1 name2 internal : string) :
  getInternalVolumeNameCommon true commonConfig name1 = Ok internal ->
  getInternalVolumeNameCommon true commonConfig name2 = Ok internal ->
  name1 = name2.
Proof.
  unfold getInternalVolumeNameCommon.
  destruct (common_StoragePrefix commonConfig) as [prefix|]; [|discriminate].
  intros [= <-] [= Heq]. symmetry. by apply (append_cancel prefix).
Qed.

Lemma getInternalVolumeNameCommon_reversible_witness :
  getInternalVolumeNameCommon (H := Sample.externals) true Sample.common "pvc-1"
  = Ok "tridentpvc-1"
  /\ "pvc-1" = "pvc-1".
Proof.
  split; [reflexivity|].
  apply (getInternalVolumeNameCommon_reversible (H := Sample.externals)
           Sample.common "pvc-1" "pvc-1" "tridentpvc-1"); reflexivity.
Defined.

(** X3: when each listed volume carries the internal name that the
    passthrough derivation gives to a name, under the storage prefix of the
    configuration, [GetVolumeList] returns exactly those names, in the order
    listed. *)
Theorem GetVolumeList_passthrough `{Externals}
    (VolumeList : string -> Reply (IterResult VolumeAttributesType))
    (config : OntapStorageDriverConfig) (commonConfig : CommonStorageDriverConfig)
    (prefix : string) (zapi : ZapiError) (result : IterResult VolumeAttributesType)
    (names : list string) :
  StoragePrefix config = Some prefix ->
  common_StoragePrefix commonConfig = Some prefix ->
  VolumeList prefix = Response zapi result ->
  IsPassed zapi = true ->
  Forall2 (fun volume name =>
             getInternalVolumeNameCommon true commonConfig name = Ok (vol_Name volume))
          (AttributesList result) names ->
  GetVolumeList VolumeList config = Returns names.
Proof.
  intros Hprefix Hcommon Hlist Hpassed Hnames.
  unfold GetVolumeList, GetError. rewrite Hprefix, Hlist, Hpassed.
  induction Hnames as [|volume name volumes names Hname _ IH]; [reflexivity|].
  unfold getInternalVolumeNameCommon in Hname. rewrite Hcommon in Hname.
  injection Hname as Hname. cbn [trim_names].
  by rewrite <- Hname, slice_from_append, IH.
Qed.

Lemma GetVolumeList_passthrough_witness :
  GetVolumeList (SampleMore.volumes ["trident_a"; "trident_b-1"])
    (populate_head (H := Sample.externals) Sample.bare)
  = Returns ["a"; "b-1"].
Proof.
  apply (GetVolumeList_passthrough (H := Sample.externals)
           (SampleMore.volumes ["trident_a"; "trident_b-1"])
           (populate_head (H := Sample.externals) Sample.bare)
           {| common_StorageDriverName := "ontap-nas";
              common_DriverContext := "kubernetes";
              common_StoragePrefix := Some "trident_" |}
           "trident_" Sample.passed
           {| NumRecords := 2;
              AttributesList := [{| vol_Name := "trident_a" |};
                                 {| vol_Name := "trident_b-1" |}] |});
    try reflexivity.
  repeat constructor.
Defined.

(** X4: [GetVolumeList] on a listing that passed returns one name for each
    listed volume, the listed name without as many leading bytes as the
    prefix has, exactly when no listed name is shorter than the prefix; a
    shorter name makes it panic on the slice.  A listing that failed is
    reported as "error enumerating volumes". *)
Theorem GetVolumeList_trims
    (VolumeList : string -> Reply (IterResult VolumeAttributesType))
    (config : OntapStorageDriverConfig) (prefix : string) :
  StoragePrefix config = Some prefix ->
  (forall cause : GoError,
      GetError (VolumeList prefix) = Some cause ->
      GetVolumeList VolumeList config = Fails (ErrEnumeratingVolumes cause))
  /\ (forall (zapi : ZapiError) (result : IterResult VolumeAttributesType),
         VolumeList prefix = Response zapi result ->
         IsPassed zapi = true ->
         (Forall (fun volume => (String.length prefix <= String.length (vol_Name volume))%nat)
                 (AttributesList result) ->
          exists names : list string,
            GetVolumeList VolumeList config = Returns names
            /\ Forall2 (fun volume name =>
                          exists head : string,
                            String.length head = String.length prefix
                            /\ vol_Name volume = head +:+ name)
                       (AttributesList result) names)
         /\ (Exists (fun volume => (String.length (vol_Name volume) < String.length prefix)%nat)
                    (AttributesList result) ->
             GetVolumeList VolumeList config = Panics "slice bounds out of range")).
Proof.
  intros Hprefix. unfold GetVolumeList. rewrite Hprefix. split.
  - intros cause Hcause. by rewrite Hcause.
  - intros zapi result Hlist Hpassed. rewrite Hlist. unfold GetError. rewrite Hpassed.
    generalize (AttributesList result) as volumes. intros volumes. split.
    + induction 1 as [|volume volumes Hlong _ (names & Hrun & Hnames)].
      * exists []. by split.
      * cbn [trim_names].
        destruct (slice_from (String.length prefix) (vol_Name volume)) as [rest|] eqn:Hslice.
        -- rewrite Hrun. exists (rest :: names). split; [reflexivity|].
           constructor; [by apply slice_from_Some|exact Hnames].
        -- apply slice_from_None in Hslice. lia.
    + induction 1 as [volume volumes Hshort|volume volumes _ IH]; cbn [trim_names].
      * apply slice_from_None in Hshort. by rewrite Hshort.
      * destruct (slice_from _ _); [by rewrite IH|reflexivity].
Qed.

Lemma GetVolumeList_trims_witness :
  GetVolumeList (SampleMore.volumes ["trident_a"; "tri"])
    (populate_head (H := Sample.externals) Sample.bare)
  = Panics "slice bounds out of range".
Proof.
  apply (proj2 (GetVolumeList_trims (SampleMore.volumes ["trident_a"; "tri"])
                  (populate_head (H := Sample.externals) Sample.bare) "trident_" eq_refl)
           Sample.passed
           {| NumRecords := 2;
              AttributesList := [{| vol_Name := "trident_a" |}; {| vol_Name := "tri" |}] |}
           eq_refl eq_refl).
  apply Exists_cons_tl, Exists_cons_hd. cbn. lia.
Defined.

(* ===================================================================== *)
(** * Further properties: volume size *)
(* ===================================================================== *)

Lemma parse_digits_lower (s : string) :
  forall (acc v : Z), 0 <= acc -> Go.parse_digits acc s = Some v -> 0 <= v.
Proof.
  induction s as [|c s IH]; intros acc v Hacc; cbn [Go.parse_digits].
  - by intros [= <-].
  - unfold Go.digit_value.
    destruct (_ && _) eqn:Hdigit; [|discriminate].
    apply andb_prop in Hdigit as [Hlow Hhigh]. apply Z.leb_le in Hlow.
    apply IH. lia.
Qed.

Lemma ParseUint_range (s : string) : 0 <= fst (Go.ParseUint s) <= Go.MaxUint64.
Proof.
  unfold Go.ParseUint, Go.MaxUint64. destruct s as [|c s]; [cbn; lia|].
  destruct (Go.parse_digits 0 (String c s)) as [v|] eqn:Hparse; [|cbn; lia].
  apply parse_digits_lower in Hparse; [|lia].
  destruct (Z.leb_spec v 18446744073709551615); cbn; lia.
Qed.

(** X5: for a [uint64] request, [GetVolumeSize] either returns an error
    together with the size 0, or returns without error a [uint64] size that
    is at least the minimum volume size; the size returned without error for
    a request other than zero is the request itself. *)
Theorem GetVolumeSize_result `{Externals}
    (sizeBytes : Z) (config : OntapStorageDriverConfig) :
  0 <= sizeBytes <= Go.MaxUint64 ->
  match GetVolumeSize sizeBytes config with
  | (size, None) =>
      MinimumVolumeSizeBytes <= size <= Go.MaxUint64
      /\ (sizeBytes <> 0 -> size = sizeBytes)
  | (size, Some err) =>
      size = 0 /\ exists requested : Z,
        err = ErrSizeTooSmall requested /\ 0 <= requested < MinimumVolumeSizeBytes
  end.
Proof.
  intros Hrange. unfold GetVolumeSize.
  pose proof (ParseUint_range (fst (ConvertSizeToBytes (Size config)))) as Hdefault.
  destruct (Z.eqb_spec sizeBytes 0) as [->|Hne].
  - destruct (Z.ltb_spec (fst (Go.ParseUint (fst (ConvertSizeToBytes (Size config)))))
                MinimumVolumeSizeBytes).
    + split; [reflexivity|]. eexists. split; [reflexivity|lia].
    + split; [lia|done].
  - destruct (Z.ltb_spec sizeBytes MinimumVolumeSizeBytes).
    + split; [reflexivity|]. eexists. split; [reflexivity|lia].
    + split; [lia|done].
Qed.

Lemma GetVolumeSize_result_witness :
  0 <= 0 <= Go.MaxUint64
  /\ MinimumVolumeSizeBytes <= 1073741824 <= Go.MaxUint64.
Proof.
  assert (Hrange : 0 <= 0 <= Go.MaxUint64) by (unfold Go.MaxUint64; lia).
  split; [exact Hrange|].
  exact (proj1 (GetVolumeSize_result (H := Sample.externals) 0
                  (populate_head (H := Sample.externals) Sample.bare) Hrange)).
Defined.

(* ===================================================================== *)
(** * Further properties: validation *)
(* ===================================================================== *)

Lemma aggregate_found_elem (aggregate : string) (vserverAggrs : list string) :
  aggregate_found aggregate vserverAggrs = true <-> aggregate ∈ vserverAggrs.
Proof.
  induction vserverAggrs as [|a rest IH]; cbn [aggregate_found].
  - split; [discriminate|]. intros Hin. by apply elem_of_nil in Hin.
  - rewrite elem_of_cons. destruct (String.eqb_spec a aggregate) as [->|Hne].
    + split; [by left|done].
    + rewrite IH. split; [by right|]. intros [?|?]; [congruence|done].
Qed.

Lemma foundValidLIFAddress_elem (address : string) (dataLIFs : list string) :
  foundValidLIFAddress address dataLIFs = true <-> address ∈ dataLIFs.
Proof.
  induction dataLIFs as [|a rest IH]; cbn [foundValidLIFAddress].
  - split; [discriminate|]. intros Hin. by apply elem_of_nil in Hin.
  - rewrite elem_of_cons. destruct (String.eqb_spec a address) as [->|Hne].
    + split; [by left|done].
    + rewrite IH. split; [by right|]. intros [?|?]; [congruence|done].
Qed.

Lemma ValidateAggregate_nil
    (client : DiscoveryAPI) (config : OntapStorageDriverConfig) :
  ValidateAggregate client config = None ->
  Aggregate config <> ""
  /\ exists vserverAggrs : list string,
       GetVserverAggregateNames client = (vserverAggrs, None)
       /\ Aggregate config ∈ vserverAggrs.
Proof.
  unfold ValidateAggregate.
  destruct (String.eqb_spec (Aggregate config) "") as [Hnone|Hset]; [discriminate|].
  destruct (GetVserverAggregateNames client) as [vserverAggrs [err|]]; [discriminate|].
  destruct (length vserverAggrs =? 0)%nat; [discriminate|].
  destruct (aggregate_found (Aggregate config) vserverAggrs) eqn:Hfound; [|discriminate].
  intros _. split; [exact Hset|]. exists vserverAggrs. split; [reflexivity|].
  by apply aggregate_found_elem.
Qed.

Lemma match_addresses_nil (addresses dataLIFs : list string) :
  match_addresses addresses dataLIFs = None ->
  Forall (fun address => address ∈ dataLIFs) addresses.
Proof.
  induction addresses as [|a rest IH]; cbn [match_addresses]; [by constructor|].
  destruct (foundValidLIFAddress a dataLIFs) eqn:Hfound; [|discriminate].
  intros Hrest. constructor; [by apply foundValidLIFAddress_elem|by apply IH].
Qed.

(** X6: [ValidateAggregate] returns no error exactly when an aggregate is
    configured, the listing of the assigned aggregates succeeds, and the
    configured aggregate is among those listed. *)
Theorem ValidateAggregate_accepts
    (client : DiscoveryAPI) (config : OntapStorageDriverConfig) :
  ValidateAggregate client config = None
  <-> Aggregate config <> ""
      /\ exists vserverAggrs : list string,
           GetVserverAggregateNames client = (vserverAggrs, None)
           /\ Aggregate config ∈ vserverAggrs.
Proof.
  unfold ValidateAggregate.
  destruct (String.eqb_spec (Aggregate config) "") as [Hnone|Hset].
  { split; [discriminate|]. by intros [? _]. }
  destruct (GetVserverAggregateNames client) as [vserverAggrs [err|]].
  { split; [discriminate|]. by intros (_ & ? & [= _ ?] & _). }
  destruct vserverAggrs as [|a rest]; cbn [length Nat.eqb].
  { split; [discriminate|]. intros (_ & ? & [= <-] & Hin). by apply elem_of_nil in Hin. }
  destruct (aggregate_found (Aggregate config) (a :: rest)) eqn:Hfound.
  - split; [|done]. intros _. split; [done|]. eexists. split; [reflexivity|].
    by apply aggregate_found_elem.
  - split; [discriminate|]. intros (_ & ? & [= <-] & Hin).
    apply aggregate_found_elem in Hin. congruence.
Qed.

(** X7: a configuration that [ValidateAggregate] accepts is one on which
    pool discovery, given the same listing of the assigned aggregates,
    returns no error and registers a pool under the configured aggregate,
    and under no other new name. *)
Theorem ValidateAggregate_then_discovery `{Externals}
    (client : DiscoveryAPI) (config : OntapStorageDriverConfig)
    (backend : Backend) (poolAttributes : gmap string Offer) :
  ValidateAggregate client config = None ->
  exists (backend' : Backend) (log : list Entry),
    getStorageBackendSpecsCommon client config backend poolAttributes
    = (backend', log, None)
    /\ dom (Storage backend') = {[Aggregate config]} ∪ dom (Storage backend).
Proof.
  intros Hvalid. apply ValidateAggregate_nil in Hvalid
    as (Hset & vserverAggrs & Hnames & Hin).
  assert (Hsome : vserverAggrs <> []).
  { intros ->. by apply elem_of_nil in Hin. }
  destruct (discovery_registers client config backend poolAttributes vserverAggrs
              Hnames Hsome (or_intror Hin)) as (backend' & log & Hrun & Hdom & _).
  exists backend', log. split; [exact Hrun|].
  rewrite Hdom. unfold pooled.
  destruct (String.eqb_spec (Aggregate config) ""); [done|].
  cbn [list_to_set foldr]. by rewrite (right_id_L ∅ (∪)).
Qed.

Lemma ValidateAggregate_then_discovery_witness :
  ValidateAggregate SampleDiscovery.api (SampleDiscovery.restricted "aggr2") = None
  /\ exists (backend' : Backend) (log : list Entry),
       getStorageBackendSpecsCommon (H := Sample.externals) SampleDiscovery.api
         (SampleDiscovery.restricted "aggr2") SampleDiscovery.fresh SampleDiscovery.common
       = (backend', log, None)
       /\ dom (Storage backend') = {["aggr2"]} ∪ dom (Storage SampleDiscovery.fresh).
Proof.
  split; [reflexivity|].
  apply (ValidateAggregate_then_discovery (H := Sample.externals)). reflexivity.
Defined.

(** X8: the host of the data LIF having been resolved, [ValidateDataLIFs]
    returns no error exactly when every resolved address is among the data
    LIFs; otherwise the error names the first resolved address that is not
    among them. *)
Theorem ValidateDataLIFs_accepts
    (resolve : string -> list string * option string)
    (config : FullConfig) (addresses dataLIFs : list string) :
  resolve (DataLIF config) = (addresses, None) ->
  (ValidateDataLIFs resolve config dataLIFs = None
   <-> Forall (fun address => address ∈ dataLIFs) addresses)
  /\ (forall err : DriverError,
         ValidateDataLIFs resolve config dataLIFs = Some err ->
         exists (matched : list string) (address : string) (others : list string),
           addresses = (matched ++ address :: others)%list
           /\ Forall (fun a => a ∈ dataLIFs) matched
           /\ (address ∉ dataLIFs)
           /\ err = ErrDataLIFNotFound address).
Proof.
  intros Hresolve. unfold ValidateDataLIFs. rewrite Hresolve. clear Hresolve.
  induction addresses as [|a rest [IHok IHerr]]; cbn [match_addresses].
  - split; [done|discriminate].
  - destruct (foundValidLIFAddress a dataLIFs) eqn:Hfound.
    + apply foundValidLIFAddress_elem in Hfound. split.
      * rewrite IHok. split; [by constructor|]. by inversion 1.
      * intros err Herr.
        destruct (IHerr err Herr) as (matched & address & others & -> & Hall & Hout & ->).
        exists (a :: matched), address, others. repeat split; [by constructor|done].
    + assert (Hout : a ∉ dataLIFs).
      { intros Hin. apply foundValidLIFAddress_elem in Hin. congruence. }
      split.
      * split; [discriminate|]. by inversion 1.
      * intros err [= <-]. exists [], a, rest. by repeat split.
Qed.

Lemma ValidateDataLIFs_accepts_witness :
  SampleMore.resolver (DataLIF SampleMore.by_name) = (["10.0.0.11"; "10.0.0.12"], None)
  /\ (ValidateDataLIFs SampleMore.resolver SampleMore.by_name
        ["10.0.0.11"; "10.0.0.12"; "10.0.0.13"] = None
      <-> Forall (fun address => address ∈ ["10.0.0.11"; "10.0.0.12"; "10.0.0.13"])
                 ["10.0.0.11"; "10.0.0.12"]).
Proof.
  split; [reflexivity|].
  apply (ValidateDataLIFs_accepts SampleMore.resolver SampleMore.by_name
           ["10.0.0.11"; "10.0.0.12"] ["10.0.0.11"; "10.0.0.12"; "10.0.0.13"]).
  reflexivity.
Defined.

(** X9: [ValidateNASDriver] changes nothing of the configuration but the
    data LIF, and that only when none was configured.  When it returns no
    error, data LIFs for NFS were listed; a data LIF left unset has become
    the first of them, a configured one is unchanged and every address it
    resolves to is among them; and in the Docker context the configured
    aggregate is among the aggregates assigned to the SVM. *)
Theorem ValidateNASDriver_accepts `{DriverConstants}
    (env : ValidationEnv) (config : FullConfig) :
  let '(config', err) := ValidateNASDriver env config in
  ontap config' = ontap config
  /\ SerialNumbers config' = SerialNumbers config
  /\ (DataLIF config <> "" -> DataLIF config' = DataLIF config)
  /\ (err = None ->
      exists (first : string) (others : list string),
        NetInterfaceGetDataLIFs env "nfs" = (first :: others, None)
        /\ (DataLIF config = "" -> DataLIF config' = first)
        /\ (DataLIF config <> "" ->
            exists addresses : list string,
              LookupHost env (DataLIF config) = (addresses, None)
              /\ Forall (fun address => address ∈ first :: others) addresses)
        /\ (DriverContext (ontap config) = ContextDocker ->
            exists vserverAggrs : list string,
              GetVserverAggregateNames (aggregates_api env) = (vserverAggrs, None)
              /\ Aggregate (ontap config) ∈ vserverAggrs)).
Proof.
  unfold ValidateNASDriver.
  destruct (NetInterfaceGetDataLIFs env "nfs") as [dataLIFs [err|]]; [by repeat split|].
  destruct dataLIFs as [|first others]; [by repeat split|].
  destruct (String.eqb_spec (DataLIF config) "") as [Hunset|Hset].
  - cbn [set_DataLIF ontap DataLIF SerialNumbers].
    destruct (String.eqb_spec (DriverContext (ontap config)) ContextDocker) as [Hdocker|Hother].
    + cbn [ontap SerialNumbers DataLIF]. repeat split; [done|].
      intros Hvalid. exists first, others. repeat split; [done|].
      intros _. by apply ValidateAggregate_nil in Hvalid as (_ & Haggr).
    + cbn [ontap SerialNumbers DataLIF]. repeat split; [done|].
      intros _. exists first, others. by repeat split.
  - destruct (ValidateDataLIFs (LookupHost env) config (first :: others)) as [lifErr|] eqn:Hlifs.
    { by repeat split. }
    assert (Hresolved : exists addresses : list string,
               LookupHost env (DataLIF config) = (addresses, None)
               /\ Forall (fun address => address ∈ first :: others) addresses).
    { unfold ValidateDataLIFs in Hlifs.
      destruct (LookupHost env (DataLIF config)) as [addresses [err|]] eqn:Hlookup;
        [discriminate|].
      exists addresses. split; [reflexivity|]. by apply match_addresses_nil. }
    destruct (String.eqb_spec (DriverContext (ontap config)) ContextDocker) as [Hdocker|Hother].
    + repeat split. intros Hvalid. exists first, others. repeat split; [done|done|].
      intros _. by apply ValidateAggregate_nil in Hvalid as (_ & Haggr).
    + repeat split. intros _. exists first, others. by repeat split.
Qed.

Example ValidateNASDriver_adopts_first :
  ValidateNASDriver (H := SampleMore.constants) SampleMore.validation SampleMore.unconfigured
  = (set_DataLIF "10.0.0.11" SampleMore.unconfigured, None).
Proof. reflexivity. Qed.

(** X10: [ValidateEncryptionAttribute] returns an error exactly when the
    setting is not a boolean, or is true on a backend without volume
    encryption; it returns a flag exactly when the setting is a boolean and
    the backend has volume encryption, the flag being the setting; a flag
    and an error never come together.  The default setting "false" is
    accepted on every backend. *)
Theorem ValidateEncryptionAttribute_cases (encryption : string) (supported : bool) :
  let '(flag, err) := ValidateEncryptionAttribute encryption supported in
  (err = None
   <-> exists enable : bool,
         Go.ParseBool encryption = (enable, None) /\ (supported = true \/ enable = false))
  /\ (forall enable : bool,
         flag = Some enable
         <-> Go.ParseBool encryption = (enable, None) /\ supported = true)
  /\ (flag <> None -> err = None)
  /\ snd (ValidateEncryptionAttribute DefaultEncryption supported) = None.
Proof.
  unfold ValidateEncryptionAttribute.
  destruct (Go.ParseBool encryption) as [enable [cause|]] eqn:Hparse.
  - split; [|split; [|split]].
    + split; [discriminate|]. by intros (? & [= _ ?] & _).
    + intros b. split; [discriminate|]. by intros [[= _ ?] _].
    + done.
    + by destruct supported.
  - destruct supported, enable; (split; [|split; [|split]]);
      try done; try (by destruct supported).
    all: try (split; [intros _; eexists; split; [reflexivity|auto]|done]).
    all: try (intros b; split; [by intros [= <-]|by intros [[= <-] _]]).
    all: try (split; [discriminate|]; intros (? & [= <-] & [?|?]); discriminate).
    all: try (intros b; split; [discriminate|by intros [_ ?]]).
Qed.

Lemma ValidateNASDriver_accepts_witness :
  snd (ValidateNASDriver (H := SampleMore.constants) SampleMore.validation
         SampleMore.by_name) = None
  /\ exists addresses : list string,
       SampleMore.resolver "nas.example.com" = (addresses, None)
       /\ Forall (fun address => address ∈ ["10.0.0.11"; "10.0.0.12"; "10.0.0.13"])
                 addresses.
Proof.
  split; [reflexivity|].
  pose proof (ValidateNASDriver_accepts (H := SampleMore.constants)
                SampleMore.validation SampleMore.by_name) as Haccepts.
  cbn in Haccepts. destruct Haccepts as (_ & _ & _ & Hvalid).
  destruct (Hvalid eq_refl) as (first & others & Hlist & _ & Hresolved & _).
  injection Hlist as <- <-. apply Hresolved. discriminate.
Defined.

(* ===================================================================== *)
(** * Further properties: initialization and defaults *)
(* ===================================================================== *)

Lemma InitializeOntapAPI_client_agrees_core
    (config : OntapStorageDriverConfig) (vservers : Reply (IterResult VserverInfoType)) :
  let '(config', made) := InitializeOntapAPI config vservers in
  config' = set_SVM (SVM config') config
  /\ (SVM config <> "" -> config' = config /\ made = Ok (client_for config))
  /\ (forall client : Client, made = Ok client -> client = client_for config').
Proof.
  assert (Hsame : config = set_SVM (SVM config) config) by (by destruct config).
  unfold InitializeOntapAPI.
  destruct (String.eqb_spec (SVM config) "") as [Hunset|Hset]; cbn [negb].
  2: { repeat split; try done. by intros client [= <-]. }
  destruct (GetError vservers) as [err|]; [by repeat split|].
  destruct vservers as [err|zapi result]; [by repeat split|].
  destruct (NumRecords result =? 1); cbn [negb]; [|by repeat split].
  destruct (AttributesList result) as [|vserver rest]; [by repeat split|].
  repeat split; try done. intros client [= <-]. reflexivity.
Qed.

(** X11: whatever the listing of the SVMs answers, [InitializeOntapAPI]
    touches no field of the configuration but the SVM, leaves a configured
    SVM and the configuration of a failed call as they were, and returns,
    when it returns one, the client built for the configuration as it
    leaves it. *)
Theorem InitializeOntapAPI_client_agrees
    (config : OntapStorageDriverConfig) (vservers : Reply (IterResult VserverInfoType)) :
  let '(config', made) := InitializeOntapAPI config vservers in
  config' = set_SVM (SVM config') config
  /\ (SVM config <> "" -> config' = config /\ made = Ok (client_for config))
  /\ (forall client : Client, made = Ok client -> client = client_for config')
  /\ ((forall client : Client, made <> Ok client) -> config' = config).
Proof.
  assert (Hsame : config = set_SVM (SVM config) config) by (by destruct config).
  unfold InitializeOntapAPI.
  destruct (String.eqb_spec (SVM config) "") as [Hunset|Hset]; cbn [negb].
  2: { repeat split; try done. by intros client [= <-]. }
  destruct (GetError vservers) as [err|]; [by repeat split|].
  destruct vservers as [err|zapi result]; [by repeat split|].
  destruct (NumRecords result =? 1); cbn [negb]; [|by repeat split].
  destruct (AttributesList result) as [|vserver rest]; [by repeat split|].
  repeat split; try done.
  - intros client [= <-]. reflexivity.
  - intros Hne. by destruct (Hne _ eq_refl).
Qed.

Section DefaultsMore.
Context `{Externals}.

Lemma or_default_filled (field dflt : string) : dflt <> "" -> or_default field dflt <> "".
Proof. intros Hd. unfold or_default. by destruct (String.eqb_spec field ""). Qed.

End DefaultsMore.

(** X12: a configuration that [PopulateConfigurationDefaults] accepts comes
    out with none of the ten defaulted options empty and with a storage
    prefix, while the driver name, the context, the management LIF, the SVM,
    the credentials, the aggregate and the heartbeat setting are as they
    were. *)
Theorem PopulateConfigurationDefaults_fills `{Externals}
    (config : OntapStorageDriverConfig) :
  snd (PopulateConfigurationDefaults config) = None ->
  let populated := fst (PopulateConfigurationDefaults config) in
  (SpaceReserve populated <> "" /\ SnapshotPolicy populated <> ""
   /\ UnixPermissions populated <> "" /\ SnapshotDir populated <> ""
   /\ ExportPolicy populated <> "" /\ SecurityStyle populated <> ""
   /\ NfsMountOptions populated <> "" /\ SplitOnClone populated <> ""
   /\ FileSystemType populated <> "" /\ Encryption populated <> "")
  /\ StoragePrefix populated <> None
  /\ (exists split : bool, Go.ParseBool (SplitOnClone populated) = (split, None))
  /\ (StorageDriverName populated = StorageDriverName config
      /\ DriverContext populated = DriverContext config
      /\ ManagementLIF populated = ManagementLIF config
      /\ SVM populated = SVM config
      /\ Username populated = Username config
      /\ Password populated = Password config
      /\ Aggregate populated = Aggregate config
      /\ UsageHeartbeat populated = UsageHeartbeat config).
Proof.
  intros Hvalid.
  destruct (PopulateConfigurationDefaults_valid config Hvalid) as (Heq & _ & Hsplit).
  rewrite Heq. cbn [fst].
  split; [repeat split; by apply or_default_filled|].
  split; [cbn; by destruct (StoragePrefix config)|].
  split; [|by repeat split].
  change (SplitOnClone (populate_tail (populate_head config)))
    with (or_default (SplitOnClone config) DefaultSplitOnClone).
  unfold or_default. destruct (String.eqb_spec (SplitOnClone config) "") as [Hempty|Hgiven].
  - by exists false.
  - destruct Hsplit as [?|Hok]; [done|].
    destruct (Go.ParseBool (SplitOnClone config)) as [b e]. cbn in Hok. subst e.
    by exists b.
Qed.

Lemma PopulateConfigurationDefaults_fills_witness :
  snd (PopulateConfigurationDefaults (H := Sample.externals) Sample.bare) = None
  /\ StoragePrefix (fst (PopulateConfigurationDefaults (H := Sample.externals) Sample.bare))
     <> None.
Proof.
  split; [reflexivity|].
  apply (PopulateConfigurationDefaults_fills (H := Sample.externals) Sample.bare).
  reflexivity.
Defined.

(** X13: a default size that is set but does not convert to bytes makes
    [PopulateConfigurationDefaults] fail before it has changed anything; a
    split-on-clone setting that is set but is not a boolean makes it fail
    after the seven options from the space reservation to the NFS mount
    options and the storage prefix have received their defaults, the
    split-on-clone setting, the file-system type and the encryption setting
    being left as they were. *)
Theorem PopulateConfigurationDefaults_rejects `{Externals}
    (config : OntapStorageDriverConfig) :
  (forall cause : string,
      Size config <> "" ->
      snd (ConvertSizeToBytes (Size config)) = Some cause ->
      PopulateConfigurationDefaults config = (config, Some (ErrInvalidDefaultSize cause)))
  /\ (forall cause : string,
         (Size config = "" \/ snd (ConvertSizeToBytes (Size config)) = None) ->
         SplitOnClone config <> "" ->
         snd (Go.ParseBool (SplitOnClone config)) = Some cause ->
         exists left : OntapStorageDriverConfig,
           PopulateConfigurationDefaults config
           = (left, Some (ErrInvalidSplitOnClone cause))
           /\ SpaceReserve left <> "" /\ SnapshotPolicy left <> ""
           /\ UnixPermissions left <> "" /\ SnapshotDir left <> ""
           /\ ExportPolicy left <> "" /\ SecurityStyle left <> ""
           /\ NfsMountOptions left <> ""
           /\ StoragePrefix left <> None
           /\ SplitOnClone left = SplitOnClone config
           /\ FileSystemType left = FileSystemType config
           /\ Encryption left = Encryption config).
Proof.
  unfold PopulateConfigurationDefaults. split.
  - intros cause Hset Hsize.
    destruct (String.eqb_spec (Size config) ""); [done|]. by rewrite Hsize.
  - intros cause Hsize Hset Hsplit.
    replace (if String.eqb (Size config) "" then None
             else snd (ConvertSizeToBytes (Size config))) with (@None string)
      by (destruct Hsize as [->| ->]; [reflexivity|by destruct (String.eqb _ _)]).
    change (SplitOnClone (populate_head config)) with (SplitOnClone config).
    destruct (String.eqb_spec (SplitOnClone config) ""); [done|]. rewrite Hsplit.
    eexists. split; [reflexivity|].
    repeat split; try (by apply or_default_filled).
    cbn. by destruct (StoragePrefix config).
Qed.

Lemma PopulateConfigurationDefaults_rejects_witness :
  PopulateConfigurationDefaults (H := Sample.externals)
    (SampleDiscovery.restricted "aggr1")
  = (SampleDiscovery.restricted "aggr1", None)
  /\ PopulateConfigurationDefaults (H := Sample.externals)
       {| StorageDriverName := "ontap-nas"; DriverContext := "kubernetes";
          StoragePrefix := None; ManagementLIF := "10.0.0.1";
          SVM := "svm1"; Username := "vsadmin"; Password := "secret";
          Aggregate := ""; UsageHeartbeat := ""; Size := "lots";
          SpaceReserve := ""; SnapshotPolicy := "";
          UnixPermissions := ""; SnapshotDir := "";
          ExportPolicy := ""; SecurityStyle := "";
          NfsMountOptions := ""; SplitOnClone := "";
          FileSystemType := ""; Encryption := "" |}
     = ({| StorageDriverName := "ontap-nas"; DriverContext := "kubernetes";
           StoragePrefix := None; ManagementLIF := "10.0.0.1";
           SVM := "svm1"; Username := "vsadmin"; Password := "secret";
           Aggregate := ""; UsageHeartbeat := ""; Size := "lots";
           SpaceReserve := ""; SnapshotPolicy := "";
           UnixPermissions := ""; SnapshotDir := "";
           ExportPolicy := ""; SecurityStyle := "";
           NfsMountOptions := ""; SplitOnClone := "";
           FileSystemType := ""; Encryption := "" |},
        Some (ErrInvalidDefaultSize "invalid size value: lots")).
Proof.
  split; [reflexivity|].
  apply (proj1 (PopulateConfigurationDefaults_rejects (H := Sample.externals) _));
    [discriminate|reflexivity].
Defined.

(** X14: when [InitializeOntapDriver] returns a client, the management LIF
    resolved, the API version was read and is supported, the client is the
    one built for the configuration as the call leaves it, a configured SVM
    is unchanged, the serial numbers are those that the listing of the nodes
    gave (whether or not that listing failed), the data LIF is untouched
    and the storage prefix is set. *)
Theorem InitializeOntapDriver_success `{Externals}
    (env : InitEnv) (config config' : FullConfig) (client : Client) :
  InitializeOntapDriver env config = (config', Returns client) ->
  snd (init_LookupHost env (ManagementLIF (ontap config))) = None
  /\ snd (SystemGetOntapiVersion env) = None
  /\ SupportsMinimumONTAPIVersion env = true
  /\ client = client_for (ontap config')
  /\ (SVM (ontap config) <> "" -> SVM (ontap config') = SVM (ontap config))
  /\ SerialNumbers config' = fst (ListNodeSerialNumbers env)
  /\ DataLIF config' = DataLIF config
  /\ StoragePrefix (ontap config') <> None.
Proof.
  unfold InitializeOntapDriver.
  destruct (init_LookupHost env (ManagementLIF (ontap config))) as [addresses [err|]];
    [discriminate|].
  pose proof (InitializeOntapAPI_client_agrees_core (ontap config)
                (VserverGetIterRequest env)) as Hapi.
  destruct (InitializeOntapAPI (ontap config) (VserverGetIterRequest env))
    as [derived [made|e|what]]; [|discriminate..].
  destruct Hapi as (Hderived & Hkept & Hclient). specialize (Hclient made eq_refl).
  destruct (SystemGetOntapiVersion env) as [version [err|]]; [discriminate|].
  destruct (SupportsMinimumONTAPIVersion env); cbn [negb]; [|discriminate].
  cbn [ontap DataLIF SerialNumbers].
  destruct (PopulateConfigurationDefaults derived) as [populated err] eqn:Hpopulate.
  destruct err as [err|]; [discriminate|].
  intros [= <- <-].
  assert (Hvalid : snd (PopulateConfigurationDefaults derived) = None)
    by (by rewrite Hpopulate).
  destruct (PopulateConfigurationDefaults_valid derived Hvalid) as (Heq & _).
  rewrite Hpopulate in Heq. injection Heq as ->.
  cbn [ontap DataLIF SerialNumbers]. repeat split.
  - by rewrite Hclient.
  - intros Hset. destruct (Hkept Hset) as [-> _]. reflexivity.
  - cbn. by destruct (StoragePrefix derived).
Qed.

Lemma InitializeOntapDriver_success_witness :
  exists config' : FullConfig,
    InitializeOntapDriver (H := Sample.externals) SampleMore.init SampleMore.unconfigured
    = (config', Returns (client_for (set_SVM "svm1" Sample.bare)))
    /\ SerialNumbers config' = []
    /\ StoragePrefix (ontap config') <> None.
Proof.
  eexists. split; [reflexivity|].
  destruct (InitializeOntapDriver_success (H := Sample.externals) SampleMore.init
              SampleMore.unconfigured _ (client_for (set_SVM "svm1" Sample.bare)) eq_refl)
    as (_ & _ & _ & _ & _ & Hserial & _ & Hprefix).
  split; [exact Hserial|exact Hprefix].
Defined.

(** X15: on a configuration that [PopulateConfigurationDefaults] accepted,
    [NewOntapTelemetry] does not panic: it returns the telemetry of the
    driver, with the SVM of the configuration and its storage prefix (the
    default one when none was configured), and with a ticker exactly when
    the interval computed is positive; a heartbeat setting that does not
    parse gives the interval of an absent setting. *)
Theorem NewOntapTelemetry_after_defaults `{Externals} `{Float64}
    (driverName : string) (config : OntapStorageDriverConfig) :
  snd (PopulateConfigurationDefaults config) = None ->
  (exists t : Telemetry,
      NewOntapTelemetry driverName (fst (PopulateConfigurationDefaults config)) = Ok t
      /\ Plugin t = driverName
      /\ tel_SVM t = SVM config
      /\ tel_StoragePrefix t
         = match StoragePrefix config with
           | Some prefix => prefix
           | None => GetDefaultStoragePrefix (DriverContext config)
           end
      /\ ticker t
         = if 0 <? durationInHours (UsageHeartbeat config)
           then Some (durationInHours (UsageHeartbeat config)) else None)
  /\ (snd (ParseFloat (UsageHeartbeat config)) <> None ->
      durationInHours (UsageHeartbeat config) = durationInHours "").
Proof.
  intros Hvalid.
  destruct (PopulateConfigurationDefaults_valid config Hvalid) as (Heq & _).
  rewrite Heq. cbn [fst]. split.
  - unfold NewOntapTelemetry. cbn [StoragePrefix populate_tail populate_head].
    destruct (StoragePrefix config) as [prefix|]; eexists; by repeat split.
  - intros Hbad. unfold durationInHours, heartbeatIntervalInHours.
    destruct (String.eqb (UsageHeartbeat config) ""); [reflexivity|].
    destruct (ParseFloat (UsageHeartbeat config)) as [f [err|]]; [reflexivity|done].
Qed.

Lemma NewOntapTelemetry_after_defaults_witness :
  exists t : Telemetry,
    NewOntapTelemetry (H := Sample.whole_hours) "ontap-nas"
      (fst (PopulateConfigurationDefaults (H := Sample.externals) Sample.bare)) = Ok t
    /\ Plugin t = "ontap-nas".
Proof.
  destruct (proj1 (NewOntapTelemetry_after_defaults (H := Sample.externals)
                     (H0 := Sample.whole_hours) "ontap-nas" Sample.bare eq_refl))
    as (t & Hnew & Hplugin & _).
  exists t. split; assumption.
Defined.

Lemma heartbeat_loop_waits (t : Telemetry) (ticks : nat) :
  ticker t <> None ->
  heartbeat_loop t (repeat Tick ticks) = (repeat EMSHeartbeat ticks, Waiting).
Proof.
  intros Hticker. induction ticks as [|n IH]; simpl.
  - by destruct (ticker t).
  - destruct (ticker t); [|done]. simpl in IH. by rewrite IH.
Qed.

(** X16: the task of a telemetry with a ticker sleeps ten seconds, sends a
    first heartbeat and then one heartbeat for each tick; it returns at the
    stop signal, paying no attention to what comes after, and until the stop
    signal comes it waits. *)
Theorem Start_with_ticker (t : Telemetry) (ticks : nat) (later : list Event) :
  ticker t <> None ->
  Start t (repeat Tick ticks ++ Done :: later)
  = (Sleep 10 :: repeat EMSHeartbeat (S ticks), Returned)
  /\ Start t (repeat Tick ticks)
     = (Sleep 10 :: repeat EMSHeartbeat (S ticks), Waiting).
Proof.
  intros Hticker. unfold Start.
  by rewrite heartbeat_loop_stops, heartbeat_loop_waits.
Qed.

Lemma Start_with_ticker_witness :
  Start {| Plugin := "ontap-nas"; tel_SVM := "svm1"; tel_StoragePrefix := "trident_";
           ticker := Some 86400000000000 |} [Tick; Tick; Done; Tick]
  = ([Sleep 10; EMSHeartbeat; EMSHeartbeat; EMSHeartbeat], Returned).
Proof.
  apply (Start_with_ticker
           {| Plugin := "ontap-nas"; tel_SVM := "svm1"; tel_StoragePrefix := "trident_";
              ticker := Some 86400000000000 |} 2 [Tick]).
  discriminate.
Defined.

(* ===================================================================== *)
(** * Further properties: clone workflow *)
(* ===================================================================== *)

(** The next answer or flag that the workflow looks at. *)
Ltac clone_step :=
  match goal with
  | |- context [match VolumeExists ?c ?n with _ => _ end] =>
      destruct (VolumeExists c n) as [[|] [?|]]
  | |- context [if String.eqb ?s "" then _ else _] =>
      destruct (String.eqb s "") eqn:?
  | |- context [match SnapshotCreate ?c ?a ?b with _ => _ end] =>
      destruct (SnapshotCreate c a b) as [?|[[|] ? ? ?] []]
  | |- context [match VolumeCloneCreate ?c ?a ?b ?d with _ => _ end] =>
      destruct (VolumeCloneCreate c a b d) as [?|[[|] ? ? ?] []]
  | |- context [if String.eqb ?s EOBJECTNOTFOUND then _ else _] =>
      destruct (String.eqb s EOBJECTNOTFOUND)
  | |- context [if String.eqb ?s OntapNASStorageDriverName then _ else _] =>
      destruct (String.eqb s OntapNASStorageDriverName) eqn:?
  | |- context [match VolumeMount ?c ?a ?b with _ => _ end] =>
      destruct (VolumeMount c a b) as [?|[[|] ? ? ?] []]
  | |- context [match VolumeCloneSplitStart ?c ?a with _ => _ end] =>
      destruct (VolumeCloneSplitStart c a) as [?|[[|] ? ? ?] []]
  | split : bool |- context [if ?b then _ else _] => is_var b; destruct b
  end; cbn [negb IsPassed Code fst snd app].

(** X17: the remote calls of [CreateOntapClone] are always a beginning of
    the sequence: existence query, snapshot creation (only when no snapshot
    was named), clone creation, mount (only for the NAS driver), split start
    (only when asked for); the existence query is always issued; the
    workflow succeeds only after the whole sequence, it ends at the call
    that fails, with nothing undone, and it never panics. *)
Theorem CreateOntapClone_calls `{Externals}
    (name source snapshot timestamp : string) (split : bool)
    (config : OntapStorageDriverConfig) (client : CloneAPI) :
  let '(calls, outcome) :=
    CreateOntapClone name source snapshot split config client timestamp in
  calls `prefix_of` planned_calls name source snapshot split config timestamp
  /\ head calls = Some (CallVolumeExists name)
  /\ (outcome = Ok tt ->
      calls = planned_calls name source snapshot split config timestamp)
  /\ (calls <> planned_calls name source snapshot split config timestamp ->
      exists err : Error, outcome = Failed err)
  /\ (forall what : string, outcome <> Panic what).
Proof.
  remember (planned_calls name source snapshot split config timestamp) as plan eqn:Hplan.
  unfold planned_calls in Hplan.
  unfold CreateOntapClone, remote, bind, ret, raise, GetError.
  repeat clone_step.
  all: subst plan;
    repeat match goal with
           | Heq : ?x = _ |- context [?x] => rewrite Heq
           end; cbn [app].
  all: (split; [by eexists|]); (split; [reflexivity|]);
    (split; [done|]); (split; [|done]); intros Hcalls; by eauto.
Qed.

Example CreateOntapClone_stops_at_mount :
  CreateOntapClone (H := Sample.externals) "vol2" "vol1" "snap1" true
    (populate_head (H := Sample.externals) Sample.bare)
    {| VolumeExists := fun _ => (false, None);
       SnapshotCreate := fun _ _ => Response Sample.passed tt;
       VolumeCloneCreate := fun _ _ _ => Response Sample.passed tt;
       VolumeMount := fun _ _ => CallFailed "connection reset";
       VolumeCloneSplitStart := fun _ => Response Sample.passed tt |}
    "20180412T093000Z"
  = ([CallVolumeExists "vol2";
      CallVolumeCloneCreate "vol2" "vol1" "snap1";
      CallVolumeMount "vol2" "/vol2"],
     Failed (ErrMountingVolume (TransportError "connection reset"))).
Proof. reflexivity. Qed.

(* ===================================================================== *)
(** * Further properties: storage-pool discovery *)
(* ===================================================================== *)

Section MediaFacts.
Context `{Externals}.

Lemma performance_class_media (aggrType : string) (storageAttrs : gmap string Offer) :
  ontapPerformanceClasses !! aggrType = Some storageAttrs ->
  exists offer : Offer,
    storageAttrs = {[sa_Media := offer]} /\ media_of aggrType = Some offer.
Proof.
  intros Hclass. unfold media_of. rewrite Hclass.
  unfold ontapPerformanceClasses in Hclass. rewrite !lookup_insert in Hclass.
  repeat case_decide; simplify_eq;
    (eexists; split; [reflexivity|apply lookup_singleton_eq]).
Qed.

Lemma performance_class_unknown (aggrType : string) :
  ontapPerformanceClasses !! aggrType = None -> media_of aggrType = None.
Proof. intros Hclass. unfold media_of. by rewrite Hclass. Qed.

Lemma read_aggregate_other
    (pools : gmap string Pool) (log : list Entry) (row : AggrInfo) (name : string) :
  AggregateName row <> name ->
  (read_aggregate (pools, log) row).1 !! name = pools !! name.
Proof.
  intros Hne. unfold read_aggregate.
  destruct (pools !! AggregateName row); [|done].
  destruct (ontapPerformanceClasses !! AggregateType row); [|done].
  cbn [fst]. by rewrite lookup_insert_ne.
Qed.

Lemma read_all_other (name : string) (rows : list AggrInfo) :
  forall (pools : gmap string Pool) (log : list Entry),
    Forall (fun row => AggregateName row <> name) rows ->
    (foldl read_aggregate (pools, log) rows).1 !! name = pools !! name.
Proof.
  induction rows as [|row rows IH]; intros pools log Hrows; cbn [foldl]; [done|].
  apply Forall_cons in Hrows as [Hrow Hrows].
  pose proof (read_aggregate_other pools log row name Hrow) as Hstep.
  destruct (read_aggregate (pools, log) row) as [pools' log'].
  by rewrite IH.
Qed.

Lemma read_aggregate_at
    (pools : gmap string Pool) (log : list Entry) (row : AggrInfo) (pool : Pool) :
  pools !! AggregateName row = Some pool ->
  (read_aggregate (pools, log) row).1 !! AggregateName row
  = Some match ontapPerformanceClasses !! AggregateType row with
         | Some storageAttrs => with_attributes storageAttrs pool
         | None => pool
         end.
Proof.
  intros Hpool. unfold read_aggregate. rewrite Hpool.
  destruct (ontapPerformanceClasses !! AggregateType row); [|done].
  cbn [fst]. by rewrite lookup_insert_eq.
Qed.

(** The pool of an aggregate that the listing reports once. *)
Lemma read_all_at (rows : list AggrInfo) (row : AggrInfo)
    (pools : gmap string Pool) (pool : Pool) :
  NoDup (AggregateName <$> rows) ->
  row ∈ rows ->
  pools !! AggregateName row = Some pool ->
  (foldl read_aggregate (pools, []) rows).1 !! AggregateName row
  = Some match ontapPerformanceClasses !! AggregateType row with
         | Some storageAttrs => with_attributes storageAttrs pool
         | None => pool
         end.
Proof.
  intros Hnodup Hrow Hpool.
  apply list_elem_of_split in Hrow as (before & after & ->).
  rewrite fmap_app, fmap_cons in Hnodup.
  apply NoDup_app in Hnodup as (_ & Hbefore & Hafter).
  apply NoDup_cons in Hafter as [Hafter _].
  rewrite foldl_app. cbn [foldl].
  assert (Hb : Forall (fun r => AggregateName r <> AggregateName row) before).
  { apply Forall_forall. intros r Hr Heq.
    apply (Hbefore (AggregateName r)); [by apply list_elem_of_fmap_2|].
    rewrite Heq. by left. }
  assert (Ha : Forall (fun r => AggregateName r <> AggregateName row) after).
  { apply Forall_forall. intros r Hr Heq. apply Hafter.
    rewrite <- Heq. by apply list_elem_of_fmap_2. }
  pose proof (read_all_other (AggregateName row) before pools [] Hb) as Hfirst.
  destruct (foldl read_aggregate (pools, []) before) as [pools1 log1].
  cbn [fst] in Hfirst. rewrite Hpool in Hfirst.
  pose proof (read_aggregate_at pools1 log1 row pool Hfirst) as Hsecond.
  destruct (read_aggregate (pools1, log1) row) as [pools2 log2].
  cbn [fst] in Hsecond. by rewrite read_all_other.
Qed.

End MediaFacts.

(** X18: pool discovery that returns an error leaves the backend as it was;
    otherwise it keeps every pool name that the backend had, and every name
    it adds is an aggregate assigned to the SVM, the configured one when an
    aggregate is configured: an aggregate that only the attribute listing
    reports is never registered. *)
Theorem getStorageBackendSpecsCommon_only_assigned `{Externals}
    (client : DiscoveryAPI) (config : OntapStorageDriverConfig)
    (backend : Backend) (poolAttributes : gmap string Offer) :
  let '(backend', log, err) :=
    getStorageBackendSpecsCommon client config backend poolAttributes in
  (err <> None -> backend' = backend)
  /\ dom (Storage backend) ⊆ dom (Storage backend')
  /\ (forall name : string,
         name ∈ dom (Storage backend') ->
         name ∉ dom (Storage backend) ->
         exists vserverAggrs : list string,
           GetVserverAggregateNames client = (vserverAggrs, None)
           /\ name ∈ vserverAggrs
           /\ (Aggregate config = "" \/ name = Aggregate config)).
Proof.
  destruct (GetVserverAggregateNames client) as [aggrs [cause|]] eqn:Hnames.
  { unfold getStorageBackendSpecsCommon. rewrite Hnames. by repeat split. }
  destruct aggrs as [|a aggrs].
  { unfold getStorageBackendSpecsCommon. rewrite Hnames. by repeat split. }
  destruct (String.eqb_spec (Aggregate config) "") as [Hnone|Hset].
  - destruct (discovery_registers client config backend poolAttributes (a :: aggrs)
                Hnames ltac:(done) (or_introl Hnone))
      as (backend' & log & -> & Hdom & _).
    unfold pooled in Hdom. rewrite Hnone in Hdom. cbn [String.eqb] in Hdom.
    split; [done|]. rewrite Hdom. split; [apply union_subseteq_r|].
    intros name Hin Hold. exists (a :: aggrs). split; [reflexivity|]. split; [|by left].
    apply elem_of_union in Hin as [Hin|Hin]; [|done]. by apply elem_of_list_to_set in Hin.
  - destruct (decide (Aggregate config ∈ a :: aggrs)) as [Hin|Hout].
    + destruct (discovery_registers client config backend poolAttributes (a :: aggrs)
                  Hnames ltac:(done) (or_intror Hin))
        as (backend' & log & -> & Hdom & _).
      unfold pooled in Hdom.
      destruct (String.eqb_spec (Aggregate config) "") as [?|_]; [done|].
      split; [done|]. rewrite Hdom. split; [apply union_subseteq_r|].
      intros name Hname Hold. exists (a :: aggrs). split; [reflexivity|].
      apply elem_of_union in Hname as [Hname|Hname]; [|done].
      apply elem_of_list_to_set, list_elem_of_singleton in Hname as ->.
      split; [exact Hin|by right].
    + unfold getStorageBackendSpecsCommon. rewrite Hnames. cbn [length Nat.eqb].
      destruct (String.eqb_spec (Aggregate config) "") as [?|_]; [done|]. cbn [negb].
      rewrite define_pools_lookup.
      destruct (decide (Aggregate config ∈ a :: aggrs)); [done|]. by repeat split.
Qed.

(** X19: discovery having selected its pools and the attribute listing
    having passed, a pooled aggregate that the listing reports exactly once
    offers, for each attribute name, the pool-common offer when there is
    one; otherwise, for the media attribute, the media offer of its
    aggregate type when that type is one of hdd, hybrid and ssd; and
    otherwise nothing.  An aggregate of unknown type is pooled without a
    media offer of its own. *)
Theorem getStorageBackendSpecsCommon_media `{Externals}
    (client : DiscoveryAPI) (config : OntapStorageDriverConfig)
    (backend : Backend) (poolAttributes : gmap string Offer)
    (aggrs : list string) (zapi : ZapiError) (result : IterResult AggrInfo)
    (row : AggrInfo) (attrName : string) :
  GetVserverAggregateNames client = (aggrs, None) ->
  (Aggregate config = "" \/ Aggregate config ∈ aggrs) ->
  aggregate_listing client = Response zapi result ->
  IsPassed zapi = true ->
  NoDup (AggregateName <$> AttributesList result) ->
  row ∈ AttributesList result ->
  AggregateName row ∈ pooled config aggrs ->
  attribute_of (getStorageBackendSpecsCommon client config backend poolAttributes).1.1
    (AggregateName row) attrName
  = match poolAttributes !! attrName with
    | Some offer => Some offer
    | None =>
        if decide (attrName = sa_Media) then media_of (AggregateType row) else None
    end.
Proof.
  intros Hnames Hallowed Hlisting Hpassed Hnodup Hrow Hpooled.
  assert (Hsome : aggrs <> []).
  { intros ->. unfold pooled in Hpooled. destruct Hallowed as [Hnone|Hin].
    - rewrite Hnone in Hpooled. by apply elem_of_nil in Hpooled.
    - by apply elem_of_nil in Hin. }
  destruct (discovery_proceeds client config backend poolAttributes aggrs
              Hnames Hsome Hallowed) as (selected & before & Hselected & _ & ->).
  cbn [fst snd].
  assert (Hagree : names_agree selected).
  { intros name pool Hlook. rewrite Hselected in Hlook.
    destruct (decide (name ∈ pooled config aggrs)); [|done]. by injection Hlook as <-. }
  destruct (read_aggregates_keeps (aggregate_listing client) selected) as [_ Hagree'].
  specialize (Hagree' Hagree).
  unfold attribute_of. rewrite (register_pools_storage _ _ _ Hagree').
  assert (Hpool : selected !! AggregateName row = Some (NewStoragePool (AggregateName row))).
  { rewrite Hselected. by destruct (decide (AggregateName row ∈ pooled config aggrs)). }
  assert (Hread : (read_aggregates (aggregate_listing client) selected).1.1
                    !! AggregateName row
                  = Some match ontapPerformanceClasses !! AggregateType row with
                         | Some storageAttrs =>
                             with_attributes storageAttrs (NewStoragePool (AggregateName row))
                         | None => NewStoragePool (AggregateName row)
                         end).
  { rewrite Hlisting. unfold read_aggregates. rewrite Hpassed. cbn [negb fst].
    by apply read_all_at. }
  erewrite lookup_union_Some_l; [|rewrite lookup_fmap, Hread; reflexivity].
  cbn [with_attributes pool_Attributes]. rewrite assign_all_union.
  destruct (poolAttributes !! attrName) as [offer|] eqn:Hcommon.
  - by apply lookup_union_Some_l.
  - rewrite lookup_union_r by done.
    destruct (ontapPerformanceClasses !! AggregateType row) as [storageAttrs|] eqn:Hclass.
    + destruct (performance_class_media _ _ Hclass) as (offer & -> & ->).
      cbn [with_attributes pool_Attributes NewStoragePool].
      rewrite assign_all_union, (right_id_L ∅ (∪)).
      destruct (decide (attrName = sa_Media)) as [->|Hne].
      * apply lookup_singleton_eq.
      * by apply lookup_singleton_ne.
    + rewrite (performance_class_unknown _ Hclass). cbn [NewStoragePool pool_Attributes].
      rewrite lookup_empty. by destruct (decide (attrName = sa_Media)).
Qed.

Lemma getStorageBackendSpecsCommon_media_witness :
  attribute_of (getStorageBackendSpecsCommon (H := Sample.externals) SampleDiscovery.api
                  SampleDiscovery.svm1 SampleDiscovery.fresh SampleDiscovery.common).1.1
    "aggr1" "media"
  = Some (NewStringOffer "ssd").
Proof.
  apply (getStorageBackendSpecsCommon_media (H := Sample.externals) SampleDiscovery.api
           SampleDiscovery.svm1 SampleDiscovery.fresh SampleDiscovery.common
           ["aggr1"; "aggr2"] Sample.passed
           {| NumRecords := 3;
              AttributesList :=
                [{| AggregateName := "aggr1"; AggregateType := "ssd" |};
                 {| AggregateName := "aggr2"; AggregateType := "tape" |};
                 {| AggregateName := "aggr9"; AggregateType := "hdd" |}] |}
           {| AggregateName := "aggr1"; AggregateType := "ssd" |} "media").
  - reflexivity.
  - left. reflexivity.
  - reflexivity.
  - reflexivity.
  - apply NoDup_ListNoDup. repeat constructor; simpl; intuition discriminate.
  - apply list_elem_of_In. simpl. tauto.
  - apply list_elem_of_In. simpl. tauto.
Defined.

(* ===================================================================== *)
(** * Further properties: load-sharing mirrors *)
(* ===================================================================== *)

Section MirrorTrace.
Variable env : MirrorEnv.
Hypothesis root_known : GetError (VolumeGetRootName env) = None.

Lemma wait_idle_trace (fuel : nat) :
  forall (made polls : nat) (why : Exit),
    wait_idle env fuel made (clock_after env made) (deadline env) = Finished polls why ->
    (made < polls)%nat
    /\ (forall pass : nat, (made < pass < polls)%nat ->
           busy (SnapmirrorGetLoadSharingMirrors env pass) = true
           /\ clock_after env pass <= deadline env)
    /\ stopped_because env polls why.
Proof.
  induction fuel as [|fuel IH]; intros made polls why; [discriminate|].
  cbn [wait_idle].
  change (clock_after env made + 1 * Go.Second + Z.of_N (extra_nanos env (S made)))
    with (clock_after env (S made)).
  destruct (SnapmirrorGetLoadSharingMirrors env (S made)) as [err|zapi result] eqn:Hlisting;
    cbn [GetError_with payload].
  { intros [= <- <-]. split; [lia|]. split; [intros pass Hpass; lia|].
    cbn [stopped_because]. by exists err. }
  rewrite root_known.
  destruct (NumRecords result =? 0) eqn:Hcount.
  { intros [= <- <-]. split; [lia|]. split; [intros pass Hpass; lia|].
    cbn [stopped_because]. by rewrite Hlisting. }
  destruct (forallb mirror_idle (AttributesList result)) eqn:Hidle.
  { intros [= <- <-]. split; [lia|]. split; [intros pass Hpass; lia|].
    cbn [stopped_because]. rewrite Hlisting. cbn [all_idle]. by rewrite Hcount, Hidle. }
  assert (Hbusy : busy (SnapmirrorGetLoadSharingMirrors env (S made)) = true).
  { rewrite Hlisting. cbn [busy]. by rewrite Hcount, Hidle. }
  destruct (Z.ltb_spec (deadline env) (clock_after env (S made))) as [Hover|Hin].
  { intros [= <- <-]. split; [lia|]. split; [intros pass Hpass; lia|].
    cbn [stopped_because]. by split. }
  intros Hrun. destruct (IH (S made) polls why Hrun) as (Hpolls & Hpasses & Hstop).
  split; [lia|]. split; [|exact Hstop].
  intros pass Hpass. destruct (decide (pass = S made)) as [->|Hne]; [by split|].
  apply Hpasses. lia.
Qed.

End MirrorTrace.

(** X20: when [UpdateLoadSharingMirrors] returns after at least one pass of
    the polling loop, every earlier pass found mirrors that were not all
    idle and ended before the deadline, and the last pass is the one that
    gave the reason: the listing failed, or no mirror was left, or all were
    idle, or they were still busy and the deadline had passed.  When it
    returns without a pass, the reason is one of those that precede the
    loop. *)
Theorem UpdateLoadSharingMirrors_polls (env : MirrorEnv) (fuel polls : nat) (why : Exit) :
  UpdateLoadSharingMirrors env fuel = Finished polls why ->
  (polls = 0%nat ->
   why = RootVolumeError \/ why = MirrorListError \/ why = NoMirrors \/ why = UpdateError)
  /\ ((1 <= polls)%nat ->
      (forall pass : nat, (1 <= pass < polls)%nat ->
          busy (SnapmirrorGetLoadSharingMirrors env pass) = true
          /\ clock_after env pass <= deadline env)
      /\ stopped_because env polls why).
Proof.
  unfold UpdateLoadSharingMirrors.
  destruct (GetError (VolumeGetRootName env)) as [cause|] eqn:Hroot.
  { intros [= <- <-]. split; [auto|lia]. }
  destruct (SnapmirrorGetLoadSharingMirrors env 0%nat) as [err|zapi result];
    cbn [GetError_with payload].
  { intros [= <- <-]. split; [auto|lia]. }
  rewrite Hroot.
  destruct (NumRecords result =? 0); [intros [= <- <-]; split; [auto|lia]|].
  destruct (AttributesList result) as [|mirror rest]; [discriminate|].
  destruct (GetError_with (VolumeGetRootName env) (SnapmirrorUpdateLoadSharingMirrors env)).
  { intros [= <- <-]. split; [auto 6|lia]. }
  intros Hrun.
  destruct (wait_idle_trace env Hroot fuel 0%nat polls why Hrun)
    as (Hpolls & Hpasses & Hstop).
  split; [lia|]. intros _. split; [|exact Hstop].
  intros pass Hpass. apply Hpasses. lia.
Qed.

Lemma UpdateLoadSharingMirrors_polls_witness :
  UpdateLoadSharingMirrors SampleMirrors.settling 31 = Finished 2 MirrorsIdle
  /\ busy (SnapmirrorGetLoadSharingMirrors SampleMirrors.settling 1%nat) = true
  /\ all_idle (SnapmirrorGetLoadSharingMirrors SampleMirrors.settling 2%nat) = true.
Proof.
  assert (Hrun : UpdateLoadSharingMirrors SampleMirrors.settling 31 = Finished 2 MirrorsIdle)
    by (vm_compute; reflexivity).
  split; [exact Hrun|].
  destruct (proj2 (UpdateLoadSharingMirrors_polls SampleMirrors.settling 31 2 MirrorsIdle
                     Hrun) (le_S 1 1 (le_n 1))) as [Hbusy Hidle].
  split; [apply (Hbusy 1%nat); lia|exact Hidle].
Defined.

(* ===================================================================== *)
(** * Further properties: volume options *)
(* ===================================================================== *)

Lemma lookup_set_option_ne (key value : string) (opts : gmap string string) (k : string) :
  key <> k -> set_option key value opts !! k = opts !! k.
Proof.
  intros Hne. unfold set_option. destruct (String.eqb value ""); [done|].
  by apply lookup_insert_ne.
Qed.

Lemma lookup_set_option_eq (key value : string) (opts : gmap string string) :
  set_option key value opts !! key
  = if String.eqb value "" then opts !! key else Some value.
Proof.
  unfold set_option. destruct (String.eqb value ""); [done|]. apply lookup_insert_eq.
Qed.

Lemma options_sound_insert (key value : string) (opts : gmap string string) :
  key ∈ option_keys -> (key <> "aggregate" -> value <> "") ->
  options_sound opts -> options_sound (<[key := value]> opts).
Proof.
  intros Hkey Hvalue Hsound k v. rewrite lookup_insert.
  destruct (decide (key = k)) as [<-|Hne]; [|by apply Hsound].
  by intros [= <-].
Qed.

Lemma options_sound_set_option (key value : string) (opts : gmap string string) :
  key ∈ option_keys -> options_sound opts -> options_sound (set_option key value opts).
Proof.
  intros Hkey Hsound. unfold set_option.
  destruct (String.eqb_spec value ""); [done|]. by apply options_sound_insert.
Qed.

Lemma option_key_known (key : string) : In key option_keys -> key ∈ option_keys.
Proof. apply list_elem_of_In. Qed.

(** X21: in the options that [getVolumeOptsCommon] returns, a space
    reservation of the volume configuration takes precedence over the
    provisioning type requested ("thin" giving "none" and "thick" giving
    "volume", anything else nothing), an encryption setting of the volume
    configuration takes precedence over the encryption requested (of which
    only [true] is passed on), and the aggregate is the name of the pool
    when there is a pool. *)
Theorem getVolumeOptsCommon_precedence `{DriverConstants}
    (volConfig : VolumeConfig) (pool : option Pool)
    (requests : gmap string RequestValue) :
  let opts := getVolumeOptsCommon volConfig pool requests in
  opts !! "spaceReserve"
  = (if String.eqb (vc_SpaceReserve volConfig) "" then
       match requests !! sa_ProvisioningType with
       | Some (StringValue p) =>
           if String.eqb p "thin" then Some "none"
           else if String.eqb p "thick" then Some "volume" else None
       | _ => None
       end
     else Some (vc_SpaceReserve volConfig))
  /\ opts !! "encryption"
     = (if String.eqb (vc_Encryption volConfig) "" then
          match requests !! sa_Encryption with
          | Some (BoolValue true) => Some "true"
          | _ => None
          end
        else Some (vc_Encryption volConfig))
  /\ opts !! "aggregate" = pool_Name <$> pool.
Proof.
  cbv zeta. unfold getVolumeOptsCommon. cbv zeta.
  split; [|split].
  - rewrite !lookup_set_option_ne by done.
    rewrite lookup_set_option_eq.
    destruct (String.eqb (vc_SpaceReserve volConfig) ""); [|done].
    rewrite !lookup_set_option_ne by done.
    destruct (requests !! sa_Encryption) as [[|[|]|]|],
      (requests !! sa_ProvisioningType) as [[p| |]|];
      try destruct (String.eqb p "thin"); try destruct (String.eqb p "thick");
      destruct pool; done.
  - rewrite lookup_set_option_eq.
    destruct (String.eqb (vc_Encryption volConfig) ""); [|done].
    rewrite !lookup_set_option_ne by done.
    destruct (requests !! sa_Encryption) as [[|[|]|]|],
      (requests !! sa_ProvisioningType) as [[p| |]|];
      try destruct (String.eqb p "thin"); try destruct (String.eqb p "thick");
      destruct pool; done.
  - rewrite !lookup_set_option_ne by done.
    destruct (requests !! sa_Encryption) as [[|[|]|]|],
      (requests !! sa_ProvisioningType) as [[p| |]|];
      try destruct (String.eqb p "thin"); try destruct (String.eqb p "thick");
      destruct pool; done.
Qed.

Example getVolumeOptsCommon_thick_overridden :
  let opts :=
    getVolumeOptsCommon (H := SampleMore.constants)
      {| vc_SnapshotPolicy := ""; vc_UnixPermissions := "0755"; vc_SnapshotDir := "";
         vc_ExportPolicy := ""; vc_SpaceReserve := "none"; vc_SecurityStyle := "";
         vc_SplitOnClone := ""; vc_FileSystem := ""; vc_Encryption := "" |}
      (Some (NewStoragePool "aggr1"))
      (<["provisioningType" := StringValue "thick"]> {[ "encryption" := BoolValue true ]}) in
  opts !! "spaceReserve" = Some "none"
  /\ opts !! "encryption" = Some "true"
  /\ opts !! "unixPermissions" = Some "0755"
  /\ opts !! "aggregate" = Some "aggr1"
  /\ opts !! "exportPolicy" = None.
Proof. vm_compute. repeat split. Qed.

(** X22: every option that [getVolumeOptsCommon] returns is filed under one
    of its ten keys, and no option other than the aggregate is empty. *)
Theorem getVolumeOptsCommon_sound `{DriverConstants}
    (volConfig : VolumeConfig) (pool : option Pool)
    (requests : gmap string RequestValue) (key value : string) :
  getVolumeOptsCommon volConfig pool requests !! key = Some value ->
  key ∈ option_keys /\ (key <> "aggregate" -> value <> "").
Proof.
  revert key value. change (options_sound (getVolumeOptsCommon volConfig pool requests)).
  unfold getVolumeOptsCommon.
  repeat (apply options_sound_set_option;
          [apply option_key_known; cbn; tauto|]).
  assert (Hempty : options_sound ∅) by (intros k v Hk; by rewrite lookup_empty in Hk).
  assert (Hpool : options_sound
            match pool with
            | Some pool => <["aggregate" := pool_Name pool]> ∅
            | None => ∅
            end).
  { destruct pool; [|exact Hempty].
    apply options_sound_insert; [apply option_key_known; cbn; tauto|done|exact Hempty]. }
  assert (Hreserve : forall opts reserve, options_sound opts -> reserve <> "" ->
            options_sound (<["spaceReserve" := reserve]> opts)).
  { intros opts reserve Hopts Hne.
    apply options_sound_insert; [apply option_key_known; cbn; tauto|done|exact Hopts]. }
  assert (Hprovisioning : options_sound
            match requests !! sa_ProvisioningType with
            | Some (StringValue p) =>
                if String.eqb p "thin"
                then <["spaceReserve" := "none"]>
                       match pool with
                       | Some pool => <["aggregate" := pool_Name pool]> ∅
                       | None => ∅
                       end
                else if String.eqb p "thick"
                     then <["spaceReserve" := "volume"]>
                            match pool with
                            | Some pool => <["aggregate" := pool_Name pool]> ∅
                            | None => ∅
                            end
                     else match pool with
                          | Some pool => <["aggregate" := pool_Name pool]> ∅
                          | None => ∅
                          end
            | _ => match pool with
                   | Some pool => <["aggregate" := pool_Name pool]> ∅
                   | None => ∅
                   end
            end).
  { destruct (requests !! sa_ProvisioningType) as [[p| |]|]; try exact Hpool.
    destruct (String.eqb p "thin"); [by apply Hreserve|].
    destruct (String.eqb p "thick"); [by apply Hreserve|exact Hpool]. }
  destruct (requests !! sa_Encryption) as [[|[|]|]|]; try exact Hprovisioning.
  apply options_sound_insert; [apply option_key_known; cbn; tauto|done|exact Hprovisioning].
Qed.

Lemma getVolumeOptsCommon_sound_witness :
  getVolumeOptsCommon (H := SampleMore.constants) SampleMore.plain
    (Some (NewStoragePool "aggr1")) {[ "provisioningType" := StringValue "thick" ]}
    !! "spaceReserve" = Some "volume"
  /\ "spaceReserve" ∈ option_keys.
Proof.
  assert (Hlookup : getVolumeOptsCommon (H := SampleMore.constants) SampleMore.plain
                      (Some (NewStoragePool "aggr1"))
                      {[ "provisioningType" := StringValue "thick" ]}
                      !! "spaceReserve" = Some "volume") by (vm_compute; reflexivity).
  split; [exact Hlookup|].
  exact (proj1 (getVolumeOptsCommon_sound (H := SampleMore.constants) _ _ _ _ _ Hlookup)).
Defined.

(* ===================================================================== *)
(** * The further properties on the sample collaborators *)
(* ===================================================================== *)

Lemma ValidateAggregate_accepts_witness :
  ValidateAggregate SampleDiscovery.api (SampleDiscovery.restricted "aggr2") = None.
Proof.
  apply (proj2 (ValidateAggregate_accepts SampleDiscovery.api
                  (SampleDiscovery.restricted "aggr2"))).
  split; [discriminate|]. exists ["aggr1"; "aggr2"]. split; [reflexivity|].
  apply list_elem_of_In. simpl. tauto.
Defined.

Lemma ValidateEncryptionAttribute_cases_witness :
  ValidateEncryptionAttribute "true" false = (None, Some ErrEncryptionUnsupported)
  /\ snd (ValidateEncryptionAttribute DefaultEncryption false) = None.
Proof.
  split; [reflexivity|].
  pose proof (ValidateEncryptionAttribute_cases "true" false) as Hcases.
  cbn in Hcases. destruct Hcases as (_ & _ & _ & Hdefault). exact Hdefault.
Defined.

Lemma InitializeOntapAPI_client_agrees_witness :
  client_for (set_SVM "svm1" Sample.bare)
  = client_for (fst (InitializeOntapAPI Sample.bare (VserverGetIterRequest SampleMore.init))).
Proof.
  pose proof (InitializeOntapAPI_client_agrees Sample.bare
                (VserverGetIterRequest SampleMore.init)) as Hagrees.
  cbn in Hagrees. destruct Hagrees as (_ & _ & Hclient & _).
  exact (Hclient _ eq_refl).
Defined.

Lemma CreateOntapClone_calls_witness :
  fst (CreateOntapClone (H := Sample.externals) "vol2" "vol1" "" true
         (populate_head (H := Sample.externals) Sample.bare) SampleClone.api
         "20180412T093000Z")
  = planned_calls (H := Sample.externals) "vol2" "vol1" "" true
      (populate_head (H := Sample.externals) Sample.bare) "20180412T093000Z".
Proof.
  pose proof (CreateOntapClone_calls (H := Sample.externals) "vol2" "vol1" ""
                "20180412T093000Z" true
                (populate_head (H := Sample.externals) Sample.bare) SampleClone.api)
    as Hcalls.
  destruct (CreateOntapClone (H := Sample.externals) "vol2" "vol1" "" true
              (populate_head (H := Sample.externals) Sample.bare) SampleClone.api
              "20180412T093000Z") as [calls outcome] eqn:Hrun.
  destruct Hcalls as (_ & _ & Hsuccess & _). apply Hsuccess.
  apply (f_equal snd) in Hrun. cbn in Hrun. congruence.
Defined.

Lemma getStorageBackendSpecsCommon_only_assigned_witness :
  dom (Storage SampleDiscovery.fresh)
  ⊆ dom (Storage (getStorageBackendSpecsCommon (H := Sample.externals)
                    SampleDiscovery.api SampleDiscovery.svm1 SampleDiscovery.fresh
                    SampleDiscovery.common).1.1).
Proof.
  pose proof (getStorageBackendSpecsCommon_only_assigned (H := Sample.externals)
                SampleDiscovery.api SampleDiscovery.svm1 SampleDiscovery.fresh
                SampleDiscovery.common) as Honly.
  destruct (getStorageBackendSpecsCommon (H := Sample.externals)
              SampleDiscovery.api SampleDiscovery.svm1 SampleDiscovery.fresh
              SampleDiscovery.common) as [[backend' log] err].
  destruct Honly as (_ & Hkept & _). exact Hkept.
Defined.
